(** * Repo-lyzer: the dependency-manifest analyzer and the report exporters

    A shallow embedding of [internal/analyzer/dependencies.go] and of the two
    exporters of [internal/ui/export.go], with the properties of the
    specification proved or refuted on it.

    Conventions of the embedding.
    - A Go [string] or [[]byte] is a [string]: a sequence of bytes
      ([ascii] is one byte).  Nothing assumes that the bytes are valid UTF-8.
    - A Go run-time panic (index out of range, nil dereference) is [None] in
      the option monad; every function that indexes a slice lives in that
      monad, and absence of panics is proved rather than assumed.
    - [len] is a [nat]; Go [int] fields are [Z].  The counters of the
      analyzer only ever add lengths of slices that are all reachable at the
      same time, so they stay far below 2^63 and no wrap-around is written.
      The one sum of numbers that the caller supplies, the total of the
      languages in ExportMarkdown, is written with the wrap-around of an
      [int] of 64 bits.
    - The functions of Go's standard library that the code calls are
      modelled from their documentation ([strings], [regexp]) or taken as
      parameters ([encoding/json], [encoding/base64], [sort.Slice], the order
      of [range] over a map, the clock and the file system). *)

From Stdlib Require Import ZArith Lia Ascii String List Permutation Sorted.
From Stdlib Require DecimalString.
From stdpp Require Import base tactics option list sorting strings gmap.

(** ** Bytes with a name *)

Definition LF : ascii := "010"%char.       (* '\n' *)
Definition DQ : ascii := "034"%char.       (* the double quote *)
Definition SQ : ascii := "039"%char.       (* the single quote *)

Definition str1 (c : ascii) : string := String c EmptyString.

(** ** Package strings *)

Module strings.

(** [asciiSpace] of package strings: tab, LF, VT, FF, CR and space. *)
Definition asciiSpace (c : ascii) : bool :=
  match c with
  | "009" | "010" | "011" | "012" | "013" | " " => true
  | _ => false
  end%char.

(** [unicode.IsSpace] on the code points above U+007F, read off their
    UTF-8 encodings.  U+0085 and U+00A0 take two bytes. *)
Definition space2 (b1 b2 : ascii) : bool :=
  match b1, b2 with
  | "194", "133" | "194", "160" => true
  | _, _ => false
  end%char.

(** U+1680, U+2000..U+200A, U+2028, U+2029, U+202F, U+205F and U+3000 take
    three bytes. *)
Definition space3 (b1 b2 b3 : ascii) : bool :=
  match b1, b2, b3 with
  | "225", "154", "128" => true
  | "226", "128", b =>
      let n := N_of_ascii b in
      ((128 <=? n)%N && (n <=? 138)%N) || (n =? 168)%N || (n =? 169)%N || (n =? 175)%N
  | "226", "129", "159" => true
  | "227", "128", "128" => true
  | _, _, _ => false
  end%char.

Definition HasPrefix (s prefix : string) : bool := String.prefix prefix s.

Fixpoint Contains (s substr : string) : bool :=
  String.prefix substr s ||
  match s with
  | EmptyString => false
  | String _ s' => Contains s' substr
  end.

(** [strings.Split s sep] for a separator of one byte, which is what
    every call site passes.  The result is never empty. *)
Fixpoint Split (s : string) (sep : ascii) : list string :=
  match s with
  | EmptyString => [EmptyString]
  | String c s' =>
      if Ascii.eqb c sep then EmptyString :: Split s' sep
      else match Split s' sep with
           | x :: r => String c x :: r
           | [] => [str1 c]
           end
  end.

(** [strings.SplitN s sep 2] for a separator of one byte. *)
Fixpoint SplitN2 (s : string) (sep : ascii) : list string :=
  match s with
  | EmptyString => [EmptyString]
  | String c s' =>
      if Ascii.eqb c sep then [EmptyString; s']
      else match SplitN2 s' sep with
           | x :: r => String c x :: r
           | [] => [str1 c]
           end
  end.

(** Leading white space.  A code point that is not white space, or a
    byte that starts no valid encoding, stops the scan; an encoding of a
    white-space code point is dropped whole. *)
Fixpoint TrimLeftSpace (s : string) : string :=
  match s with
  | EmptyString => s
  | String b1 s1 =>
      if asciiSpace b1 then TrimLeftSpace s1
      else match s1 with
           | EmptyString => s
           | String b2 s2 =>
               if space2 b1 b2 then TrimLeftSpace s2
               else match s2 with
                    | EmptyString => s
                    | String b3 s3 =>
                        if space3 b1 b2 b3 then TrimLeftSpace s3 else s
                    end
           end
  end.

(** The same scan from the right end, on the reversed string: the last
    code point is white space exactly when the string ends with one of the
    encodings above. *)
Fixpoint TrimLeftSpaceRev (s : string) : string :=
  match s with
  | EmptyString => s
  | String b1 s1 =>
      if asciiSpace b1 then TrimLeftSpaceRev s1
      else match s1 with
           | EmptyString => s
           | String b2 s2 =>
               if space2 b2 b1 then TrimLeftSpaceRev s2
               else match s2 with
                    | EmptyString => s
                    | String b3 s3 =>
                        if space3 b3 b2 b1 then TrimLeftSpaceRev s3 else s
                    end
           end
  end.

Definition TrimSpace (s : string) : string :=
  String.rev (TrimLeftSpaceRev (String.rev (TrimLeftSpace s))).

(** [strings.Fields]: the maximal runs of bytes between white space.
    [cur] is the field being read, reversed. *)
Definition flush (cur : string) : list string :=
  match cur with
  | EmptyString => []
  | _ => [String.rev cur]
  end.

Fixpoint FieldsFrom (cur : string) (s : string) : list string :=
  match s with
  | EmptyString => flush cur
  | String b1 s1 =>
      if asciiSpace b1 then flush cur ++ FieldsFrom EmptyString s1
      else match s1 with
           | String b2 s2 =>
               if space2 b1 b2 then flush cur ++ FieldsFrom EmptyString s2
               else match s2 with
                    | String b3 s3 =>
                        if space3 b1 b2 b3
                        then flush cur ++ FieldsFrom EmptyString s3
                        else FieldsFrom (String b1 cur) s1
                    | EmptyString => FieldsFrom (String b1 cur) s1
                    end
           | EmptyString => FieldsFrom (String b1 cur) s1
           end
  end.

Definition Fields (s : string) : list string := FieldsFrom EmptyString s.

(** [strings.Trim s cutset] for a cutset of ASCII bytes. *)
Definition inCutset (cutset : string) (c : ascii) : bool :=
  existsb (Ascii.eqb c) (list_ascii_of_string cutset).

Fixpoint TrimLeftCut (cutset : string) (s : string) : string :=
  match s with
  | EmptyString => s
  | String c s' => if inCutset cutset c then TrimLeftCut cutset s' else s
  end.

Definition Trim (s cutset : string) : string :=
  String.rev (TrimLeftCut cutset (String.rev (TrimLeftCut cutset s))).

End strings.

(** ** Package regexp

    The patterns of the source repeat only one-character classes, so the
    syntax below has [Star] and [Plus] on classes.  The matcher is a
    backtracking search with greedy operators, which is the leftmost-first
    semantics the package documents.  Every class of the patterns either
    lists ASCII bytes or excludes ASCII bytes, so matching byte by byte and
    matching code point by code point agree. *)

Module regexp.

Inductive Regexp : Type :=
| Chr (c : ascii)                        (* a literal byte *)
| Cls (p : ascii -> bool)                (* one character of a class *)
| Star (p : ascii -> bool)               (* p*, greedy *)
| Plus (p : ascii -> bool)               (* p+, greedy *)
| Cat (r1 r2 : Regexp)
| Cap (i : nat) (r : Regexp)             (* the capturing group number i *)
| Opt (r : Regexp)                       (* (?:r)?, greedy *)
| Bol                                    (* ^ without the m flag *)
| Eol.                                   (* $ without the m flag *)

(** \s of the RE2 syntax: tab, LF, FF, CR and space (not VT). *)
Definition perl_space (c : ascii) : bool :=
  match c with
  | "009" | "010" | "012" | "013" | " " => true
  | _ => false
  end%char.

(** The dot, without the s flag. *)
Definition dot (c : ascii) : bool := negb (Ascii.eqb c LF).

Definition between (lo hi c : ascii) : bool :=
  ((N_of_ascii lo <=? N_of_ascii c)%N && (N_of_ascii c <=? N_of_ascii hi)%N).

Definition oneOf (set : string) (c : ascii) : bool :=
  existsb (Ascii.eqb c) (list_ascii_of_string set).

(** Concatenation of a non-empty sequence of patterns. *)
Fixpoint cat (r : Regexp) (rs : list Regexp) : Regexp :=
  match rs with
  | [] => r
  | r' :: rs' => Cat r (cat r' rs')
  end.

(** The text of each group that took part in the match, latest first. *)
Definition captures : Type := list (nat * string).

Fixpoint group (c : captures) (i : nat) : string :=
  match c with
  | [] => EmptyString
  | (j, s) :: c' => if Nat.eqb i j then s else group c' i
  end.

(** The bytes of [s] in front of its suffix [rest]. *)
Definition consumed (s rest : string) : string :=
  String.substring 0 (String.length s - String.length rest) s.

Section Matcher.
Context {R : Type}.

(** Greedy repetition: the longest run first, then shorter ones. *)
Fixpoint star (p : ascii -> bool) (s : string) (k : string -> option R) : option R :=
  match s with
  | String c s' =>
      if p c then
        match star p s' k with
        | Some r => Some r
        | None => k s
        end
      else k s
  | EmptyString => k s
  end.

(** [n] is the length of the whole text, [s] the part of it not yet
    read, [c] the groups so far and [k] what remains to match. *)
Fixpoint run (n : nat) (r : Regexp) (s : string) (c : captures)
    (k : string -> captures -> option R) : option R :=
  match r with
  | Chr a =>
      match s with
      | String b s' => if Ascii.eqb a b then k s' c else None
      | EmptyString => None
      end
  | Cls p =>
      match s with
      | String b s' => if p b then k s' c else None
      | EmptyString => None
      end
  | Star p => star p s (fun s' => k s' c)
  | Plus p =>
      match s with
      | String b s' => if p b then star p s' (fun s'' => k s'' c) else None
      | EmptyString => None
      end
  | Cat r1 r2 => run n r1 s c (fun s' c' => run n r2 s' c' k)
  | Cap i r0 => run n r0 s c (fun s' c' => k s' ((i, consumed s s') :: c'))
  | Opt r0 =>
      match run n r0 s c k with
      | Some x => Some x
      | None => k s c
      end
  | Bol => if Nat.eqb (String.length s) n then k s c else None
  | Eol =>
      match s with
      | EmptyString => k s c
      | String _ _ => None
      end
  end.
End Matcher.

Definition matchAt (n : nat) (r : Regexp) (s : string) : option captures :=
  run n (Cap 0 r) s [] (fun _ c => Some c).

(** The leftmost start at which the pattern matches. *)
Fixpoint search (n : nat) (r : Regexp) (s : string) : option captures :=
  match matchAt n r s with
  | Some c => Some c
  | None =>
      match s with
      | String _ s' => search n r s'
      | EmptyString => None
      end
  end.

(** [FindStringSubmatch] of a pattern with [groups] capturing groups: the
    match and the text of each group (empty for a group that took no part),
    or the nil slice when nothing matches. *)
Definition FindStringSubmatch (groups : nat) (r : Regexp) (s : string) : list string :=
  match search (String.length s) r s with
  | Some c => map (group c) (seq 0 (S groups))
  | None => []
  end.

End regexp.

(** ** What the code asks of the Go run time *)

(** Sequencing of steps that may panic, and the body of a [for ... range]
    loop run over a slice. *)
Fixpoint foldM {A B : Type} (f : A -> B -> option A) (a : A) (l : list B) : option A :=
  match l with
  | [] => Some a
  | x :: l' => a' ← f a x; foldM f a' l'
  end.

(** [fmt.Sprintf] of the verb %d. *)
Definition fmt_d (n : Z) : string := DecimalString.NilZero.string_of_int (Z.to_int n).

(** ** Package github (the client library of the repository) *)

Module github.

(** Modelled from the spec: the declaration of [github.TreeEntry] is not
    among the sources; section 6 gives a tree entry a path and a type, and the
    code reads [entry.Path] and compares [entry.Type] with a string. *)
Record TreeEntry : Type := { Path : string; Type_ : string }.

(** Modelled from the spec: the declaration of [github.Client] is not among
    the sources; section 6 gives its one method used here,
    [GetFileContent(owner, repo, path)], which returns the content in base64
    or an error ([None]). *)
Record Client : Type := { GetFileContent : string -> string -> string -> option string }.

(** Modelled from the spec: the declaration of [github.Contributor] is not
    among the sources; the exporters read its fields [Login] and [Commits]. *)
Record Contributor : Type := { Login : string; Commits : Z }.

(** Modelled from the spec: the declaration of [github.Repo] is not among
    the sources; these are the fields the exporters read.  A [time.Time] is
    kept as an abstract instant numbered by a [Z]. *)
Record Repo : Type := {
  FullName : string;
  Description : string;
  Stars : Z;
  Forks : Z;
  OpenIssues : Z;
  CreatedAt : Z;
  PushedAt : Z;
  DefaultBranch : string;
  HTMLURL : string
}.

(** Modelled from the spec: the declaration of [github.Commit] is not among
    the sources, and the exporters only count commits. *)
Record Commit : Type := { SHA : string }.

End github.

(** ** Package analyzer: dependencies.go *)

Module analyzer.

Record Dependency : Type := {
  Name : string;
  Version : string;
  Type_ : string       (* production, dev, peer, indirect *)
}.

Record DependencyFile : Type := {
  Filename : string;
  FileType : string;
  Dependencies : list Dependency;
  TotalCount : Z
}.

Record DependencyAnalysis : Type := {
  Files : list DependencyFile;
  TotalDeps : Z;
  Languages : list string;
  HasLockFile : bool
}.

Record depFileInfo : Type := { path : string; fileType : string }.

(** The struct [pkg] that parsePackageJSON decodes into.  A nil map and an
    empty map range alike, so both are the empty [gmap]. *)
Record pkg : Type := {
  pkgDependencies : gmap string string;
  pkgDevDependencies : gmap string string;
  pkgPeerDeps : gmap string string
}.

(** The library calls whose result the text of the program does not fix.
    - [json_Unmarshal] is [json.Unmarshal] into a [pkg]; [None] is any error.
    - [base64_DecodeString] is [base64.StdEncoding.DecodeString].
    - [range_map] is the order in which one execution of [range] visits the
      entries of a map; the language leaves it unspecified.
    - [sort_Slice] is [sort.Slice] with the comparison handed over on
      elements; the package does not promise a stable sort. *)
Record GoLib : Type := {
  json_Unmarshal : string -> option pkg;
  base64_DecodeString : string -> option string;
  range_map : gmap string string -> list (string * string);
  sort_Slice : (Dependency -> Dependency -> bool) -> list Dependency -> list Dependency
}.

Definition depFilePatterns : gmap string string :=
  list_to_map [
    ("package.json", "npm");
    ("go.mod", "go");
    ("requirements.txt", "python");
    ("Pipfile", "python");
    ("pyproject.toml", "python");
    ("Cargo.toml", "rust");
    ("Gemfile", "ruby")
  ].

Definition findDependencyFiles_entry (files : list depFileInfo) (entry : github.TreeEntry)
    : option (list depFileInfo) :=
  if negb (String.eqb (github.Type_ entry) "blob") then Some files
  else
    let parts := strings.Split (github.Path entry) "/" in
    filename ← last parts;
    match depFilePatterns !! filename with
    | Some fileType =>
        Some (files ++ [{| path := github.Path entry; fileType := fileType |}])
    | None => Some files
    end.

Definition findDependencyFiles (tree : list github.TreeEntry) : option (list depFileInfo) :=
  foldM findDependencyFiles_entry [] tree.

Definition lockFiles : list string := [
  "package-lock.json";
  "yarn.lock";
  "pnpm-lock.yaml";
  "go.sum";
  "Pipfile.lock";
  "poetry.lock";
  "Cargo.lock";
  "Gemfile.lock"
].

(** The inner loop of hasLockFile: does it reach its [return true]? *)
Fixpoint isLockFile (filename : string) (names : list string) : bool :=
  match names with
  | [] => false
  | lockFile :: names' =>
      if String.eqb filename lockFile then true else isLockFile filename names'
  end.

Fixpoint hasLockFile (tree : list github.TreeEntry) : option bool :=
  match tree with
  | [] => Some false
  | entry :: tree' =>
      let parts := strings.Split (github.Path entry) "/" in
      filename ← last parts;
      if isLockFile filename lockFiles then Some true else hasLockFile tree'
  end.

Definition cleanVersion (v : string) : string := strings.TrimSpace v.

Fixpoint contains (slice : list string) (item : string) : bool :=
  match slice with
  | [] => false
  | s :: slice' => if String.eqb s item then true else contains slice' item
  end.

Definition mkDep (name version type : string) : Dependency :=
  {| Name := name; Version := version; Type_ := type |}.

(** *** parsePackageJSON *)

Definition lessByName (a b : Dependency) : bool := String.ltb (Name a) (Name b).

(** One of the three [range] loops: an entry per key, in the order of the
    visit. *)
Definition appendSection (L : GoLib) (deps : list Dependency) (m : gmap string string)
    (type : string) : list Dependency :=
  deps ++ map (fun nv => mkDep (fst nv) (cleanVersion (snd nv)) type) (range_map L m).

Definition parsePackageJSON (L : GoLib) (content : string) : option (list Dependency * string) :=
  match json_Unmarshal L content with
  | None => Some ([], "npm")
  | Some pkg =>
      let deps := [] in
      let deps := appendSection L deps (pkgDependencies pkg) "production" in
      let deps := appendSection L deps (pkgDevDependencies pkg) "dev" in
      let deps := appendSection L deps (pkgPeerDeps pkg) "peer" in
      Some (sort_Slice L lessByName deps, "npm")
  end.

(** *** parseGoMod: the body of the loop over the lines, on the pair of
    [inRequire] and [deps] *)

Definition parseGoMod_line (st : bool * list Dependency) (line0 : string)
    : option (bool * list Dependency) :=
  let '(inRequire, deps) := st in
  let line := strings.TrimSpace line0 in
  if strings.HasPrefix line "require (" then Some (true, deps)
  else if String.eqb line ")" then Some (false, deps)
  else if strings.HasPrefix line "require " && negb (strings.Contains line "(") then
    let parts := strings.Fields line in
    if (3 <=? length parts)%nat then
      name ← parts !! 1%nat;
      version ← parts !! 2%nat;
      Some (inRequire, deps ++ [mkDep name version "production"])
    else Some (inRequire, deps)
  else if inRequire && negb (String.eqb line EmptyString)
          && negb (strings.HasPrefix line "//") then
    let parts := strings.Fields line in
    if (2 <=? length parts)%nat then
      let depType :=
        if strings.Contains line "// indirect" then "indirect" else "production" in
      name ← parts !! 0%nat;
      version ← parts !! 1%nat;
      Some (inRequire, deps ++ [mkDep name version depType])
    else Some (inRequire, deps)
  else Some (inRequire, deps).

Definition parseGoMod (content : string) : option (list Dependency * string) :=
  st ← foldM parseGoMod_line (false, []) (strings.Split content LF);
  Some (snd st, "go").

(** *** parseRequirementsTxt *)

(** The class [a-zA-Z0-9_-]. *)
Definition nameChar (c : ascii) : bool :=
  regexp.between "a" "z" c || regexp.between "A" "Z" c || regexp.between "0" "9" c
  || Ascii.eqb c "_" || Ascii.eqb c "-".

(** The pattern, token by token:
    ^ ( [a-zA-Z0-9_-]+ ) \s* ( [=<>!~]+ .* ) $ *)
Definition versionPattern : regexp.Regexp :=
  regexp.cat regexp.Bol [
    regexp.Cap 1 (regexp.Plus nameChar);
    regexp.Star regexp.perl_space;
    regexp.Cap 2 (regexp.Cat (regexp.Plus (regexp.oneOf "=<>!~")) (regexp.Star regexp.dot));
    regexp.Eol
  ].

(** The pattern, token by token:  ^ ( [a-zA-Z0-9_-]+ ) \s* $ *)
Definition simplePattern : regexp.Regexp :=
  regexp.cat regexp.Bol [
    regexp.Cap 1 (regexp.Plus nameChar);
    regexp.Star regexp.perl_space;
    regexp.Eol
  ].

Definition parseRequirementsTxt_line (deps : list Dependency) (line0 : string)
    : option (list Dependency) :=
  let line := strings.TrimSpace line0 in
  if String.eqb line EmptyString || strings.HasPrefix line "#" || strings.HasPrefix line "-"
  then Some deps
  else
    let matches := regexp.FindStringSubmatch 2 versionPattern line in
    if (3 <=? length matches)%nat then
      name ← matches !! 1%nat;
      version ← matches !! 2%nat;
      Some (deps ++ [mkDep name (strings.TrimSpace version) "production"])
    else
      let matches := regexp.FindStringSubmatch 1 simplePattern line in
      if (2 <=? length matches)%nat then
        name ← matches !! 1%nat;
        Some (deps ++ [mkDep name "*" "production"])
      else Some deps.

Definition parseRequirementsTxt (content : string) : option (list Dependency * string) :=
  deps ← foldM parseRequirementsTxt_line [] (strings.Split content LF);
  Some (deps, "python").

(** *** parseCargoToml: the body of the loop, on [inDeps], [inDevDeps] and
    [deps] *)

Definition quotes : string := String DQ (String SQ EmptyString).

Definition parseCargoToml_line (st : bool * bool * list Dependency) (line0 : string)
    : option (bool * bool * list Dependency) :=
  let '(inDeps, inDevDeps, deps) := st in
  let line := strings.TrimSpace line0 in
  if String.eqb line "[dependencies]" then Some (true, false, deps)
  else if String.eqb line "[dev-dependencies]" then Some (false, true, deps)
  else if strings.HasPrefix line "[" then Some (false, false, deps)
  else if (inDeps || inDevDeps) && strings.Contains line "=" then
    let parts := strings.SplitN2 line "=" in
    if (length parts =? 2)%nat then
      part0 ← parts !! 0%nat;
      part1 ← parts !! 1%nat;
      let name := strings.TrimSpace part0 in
      let version := strings.Trim (strings.TrimSpace part1) quotes in
      let depType := if inDevDeps then "dev" else "production" in
      Some (inDeps, inDevDeps, deps ++ [mkDep name version depType])
    else Some (inDeps, inDevDeps, deps)
  else Some (inDeps, inDevDeps, deps).

Definition parseCargoToml (content : string) : option (list Dependency * string) :=
  st ← foldM parseCargoToml_line (false, false, []) (strings.Split content LF);
  Some (snd st, "rust").

(** *** parseGemfile *)

Definition quote (c : ascii) : bool := Ascii.eqb c SQ || Ascii.eqb c DQ.
Definition notQuote (c : ascii) : bool := negb (quote c).

(** The optional group of gemPattern, token by token, with Q for the
    class of the two quote characters and N for its complement:
    \s* , \s* Q ( N+ ) Q *)
Definition gemVersionGroup : regexp.Regexp :=
  regexp.cat (regexp.Star regexp.perl_space) [
    regexp.Chr ",";
    regexp.Star regexp.perl_space;
    regexp.Cls quote;
    regexp.Cap 2 (regexp.Plus notQuote);
    regexp.Cls quote
  ].

(** The pattern, token by token, with G for the group above:
    g e m \s+ Q ( N+ ) Q (?: G )? *)
Definition gemPattern : regexp.Regexp :=
  regexp.cat (regexp.Chr "g") [
    regexp.Chr "e";
    regexp.Chr "m";
    regexp.Plus regexp.perl_space;
    regexp.Cls quote;
    regexp.Cap 1 (regexp.Plus notQuote);
    regexp.Cls quote;
    regexp.Opt gemVersionGroup
  ].

Definition parseGemfile_line (deps : list Dependency) (line0 : string)
    : option (list Dependency) :=
  let line := strings.TrimSpace line0 in
  if strings.HasPrefix line "#" || String.eqb line EmptyString then Some deps
  else
    let matches := regexp.FindStringSubmatch 2 gemPattern line in
    if (2 <=? length matches)%nat then
      name ← matches !! 1%nat;
      version ←
        (if (3 <=? length matches)%nat then
           m2 ← matches !! 2%nat;
           Some (if negb (String.eqb m2 EmptyString) then m2 else "*")
         else Some "*");
      Some (deps ++ [mkDep name version "production"])
    else Some deps.

Definition parseGemfile (content : string) : option (list Dependency * string) :=
  deps ← foldM parseGemfile_line [] (strings.Split content LF);
  Some (deps, "ruby").

(** *** AnalyzeDependencies *)

(** The [switch] on the file type the detector gave; [deps] and [fileType]
    keep their zero values when no case applies. *)
Definition parseByType (L : GoLib) (dfType : string) (decoded : string)
    : option (list Dependency * string) :=
  if String.eqb dfType "npm" then parsePackageJSON L decoded
  else if String.eqb dfType "go" then parseGoMod decoded
  else if String.eqb dfType "python" then parseRequirementsTxt decoded
  else if String.eqb dfType "rust" then parseCargoToml decoded
  else if String.eqb dfType "ruby" then parseGemfile decoded
  else Some ([], EmptyString).

(** The body of the loop over the manifests. *)
Definition AnalyzeDependencies_file (L : GoLib) (client : github.Client)
    (owner repo : string) (analysis : DependencyAnalysis) (df : depFileInfo)
    : option DependencyAnalysis :=
  match github.GetFileContent client owner repo (path df) with
  | None => Some analysis
  | Some content =>
      match base64_DecodeString L content with
      | None => Some analysis
      | Some decoded =>
          r ← parseByType L (fileType df) decoded;
          let deps := fst r in
          let fileType := snd r in
          if (0 <? length deps)%nat then
            Some {|
              Files := Files analysis ++ [{|
                Filename := path df;
                FileType := fileType;
                Dependencies := deps;
                TotalCount := Z.of_nat (length deps)
              |}];
              TotalDeps := (TotalDeps analysis + Z.of_nat (length deps))%Z;
              Languages :=
                if negb (contains (Languages analysis) fileType)
                then Languages analysis ++ [fileType]
                else Languages analysis;
              HasLockFile := HasLockFile analysis
            |}
          else Some analysis
      end
  end.

(** The error result of the Go function is always nil, so the model returns
    the analysis alone. *)
Definition AnalyzeDependencies (L : GoLib) (client : github.Client)
    (owner repo branch : string) (fileTree : list github.TreeEntry)
    : option DependencyAnalysis :=
  let analysis := {| Files := []; TotalDeps := 0; Languages := []; HasLockFile := false |} in
  depFiles ← findDependencyFiles fileTree;
  analysis ← foldM (AnalyzeDependencies_file L client owner repo) analysis depFiles;
  lock ← hasLockFile fileTree;
  Some {|
    Files := Files analysis;
    TotalDeps := TotalDeps analysis;
    Languages := Languages analysis;
    HasLockFile := lock
  |}.

End analyzer.

(** ** Package ui: types.go and export.go *)

Module ui.

(** [Repo] is a pointer in the source; [None] is the nil pointer. *)
Record AnalysisResult : Type := {
  Repo : option github.Repo;
  Commits : list github.Commit;
  Contributors : list github.Contributor;
  FileTree : list github.TreeEntry;
  Languages : gmap string Z;
  HealthScore : Z;
  BusFactor : Z;
  BusRisk : string;
  MaturityScore : Z;
  MaturityLevel : string
}.

Module RepoExport.
Record t : Type := {
  FullName : string;
  Description : string;
  Stars : Z;
  Forks : Z;
  OpenIssues : Z;
  CreatedAt : string;
  LastPush : string;
  DefaultBranch : string;
  URL : string
}.
End RepoExport.

Module MetricsExport.
Record t : Type := {
  HealthScore : Z;
  BusFactor : Z;
  BusRisk : string;
  MaturityScore : Z;
  MaturityLevel : string
}.
End MetricsExport.

Module ContributorExport.
Record t : Type := { Login : string; Commits : Z }.
End ContributorExport.

Module ExportData.
Record t : Type := {
  ExportedAt : string;
  Repository : RepoExport.t;
  Metrics : MetricsExport.t;
  Languages : gmap string Z;
  TopContributors : list ContributorExport.t;
  CommitCount : Z
}.
End ExportData.

(** What the exporters ask of their surroundings.
    - [now_Format layout] is [time.Now().Format(layout)].
    - [time_Format t layout] is [t.Format(layout)].
    - [os_Create filename] tells whether [os.Create] succeeds.
    - [range_languages k m] is the order of the [k]-th [range] over the map
      of languages.
    - [fmt_percent bytes total] is the text that the verb %.1f gives for
      float64(bytes) / float64(total) * 100; floating point is not modelled. *)
Record Host : Type := {
  now_Format : string -> string;
  time_Format : Z -> string -> string;
  os_Create : string -> bool;
  range_languages : nat -> gmap string Z -> list (string * Z);
  fmt_percent : Z -> Z -> string
}.

(** What a call leaves behind when it does not panic: the document handed
    to the encoder or to [WriteString], or the error of [os.Create]. *)
Inductive outcome (A : Type) : Type :=
| Written (doc : A)
| CreateError.
Arguments Written {A} doc.
Arguments CreateError {A}.

(** The bound of both loops over the contributors. *)
Definition maxContribs (data : AnalysisResult) : nat :=
  let maxContribs := 10%nat in
  if (length (Contributors data) <? maxContribs)%nat
  then length (Contributors data)
  else maxContribs.

Definition ExportJSON_contributor (data : AnalysisResult)
    (topContribs : list ContributorExport.t) (i : nat) : option (list ContributorExport.t) :=
  c1 ← Contributors data !! i;
  c2 ← Contributors data !! i;
  Some (topContribs ++ [{|
    ContributorExport.Login := github.Login c1;
    ContributorExport.Commits := github.Commits c2
  |}]).

(** The composite literal [export] of ExportJSON. *)
Definition ExportJSON_export (H : Host) (data : AnalysisResult) (repo : github.Repo)
    (topContribs : list ContributorExport.t) : ExportData.t :=
  {|
    ExportData.ExportedAt := now_Format H "2006-01-02T15:04:05Z07:00";
    ExportData.Repository := {|
      RepoExport.FullName := github.FullName repo;
      RepoExport.Description := github.Description repo;
      RepoExport.Stars := github.Stars repo;
      RepoExport.Forks := github.Forks repo;
      RepoExport.OpenIssues := github.OpenIssues repo;
      RepoExport.CreatedAt := time_Format H (github.CreatedAt repo) "2006-01-02";
      RepoExport.LastPush := time_Format H (github.PushedAt repo) "2006-01-02";
      RepoExport.DefaultBranch := github.DefaultBranch repo;
      RepoExport.URL := github.HTMLURL repo
    |};
    ExportData.Metrics := {|
      MetricsExport.HealthScore := HealthScore data;
      MetricsExport.BusFactor := BusFactor data;
      MetricsExport.BusRisk := BusRisk data;
      MetricsExport.MaturityScore := MaturityScore data;
      MetricsExport.MaturityLevel := MaturityLevel data
    |};
    ExportData.Languages := Languages data;
    ExportData.TopContributors := topContribs;
    ExportData.CommitCount := Z.of_nat (length (Commits data))
  |}.

Definition ExportJSON (H : Host) (data : AnalysisResult) (filename : string)
    : option (outcome ExportData.t) :=
  topContribs ← foldM (ExportJSON_contributor data) [] (seq 0 (maxContribs data));
  repo ← Repo data;
  let export := ExportJSON_export H data repo topContribs in
  if os_Create H filename then Some (Written export) else Some CreateError.

Definition nl : string := str1 LF.

(** The addition of two [int]s, on a target where [int] has 64 bits: a sum
    that leaves the range wraps around. *)
Definition int_add (a b : Z) : Z := ((a + b + 2 ^ 63) mod 2 ^ 64 - 2 ^ 63)%Z.

(** The text in front of the list of contributors. *)
Definition ExportMarkdown_head (H : Host) (data : AnalysisResult) (repo : github.Repo)
    : string :=
  let md := "# Analysis for " +:+ github.FullName repo +:+ nl +:+ nl in
  let md := md +:+ "*Exported: " +:+ now_Format H "2006-01-02 15:04" +:+ "*" +:+ nl +:+ nl in
  let md := md +:+ "## Repository Info" +:+ nl in
  let md := md +:+ "- **Stars:** " +:+ fmt_d (github.Stars repo) +:+ nl in
  let md := md +:+ "- **Forks:** " +:+ fmt_d (github.Forks repo) +:+ nl in
  let md := md +:+ "- **Open Issues:** " +:+ fmt_d (github.OpenIssues repo) +:+ nl in
  let md := md +:+ "- **Created:** "
               +:+ time_Format H (github.CreatedAt repo) "2006-01-02" +:+ nl in
  let md := md +:+ "- **URL:** " +:+ github.HTMLURL repo +:+ nl +:+ nl in
  let md := md +:+ "## Metrics" +:+ nl in
  let md := md +:+ "- **Health Score:** " +:+ fmt_d (HealthScore data) +:+ "/100" +:+ nl in
  let md := md +:+ "- **Bus Factor:** " +:+ fmt_d (BusFactor data)
               +:+ " (" +:+ BusRisk data +:+ ")" +:+ nl in
  let md := md +:+ "- **Maturity:** " +:+ MaturityLevel data
               +:+ " (" +:+ fmt_d (MaturityScore data) +:+ ")" +:+ nl in
  let md := md +:+ "- **Commits (1 year):** "
               +:+ fmt_d (Z.of_nat (length (Commits data))) +:+ nl in
  let md := md +:+ "- **Contributors:** "
               +:+ fmt_d (Z.of_nat (length (Contributors data))) +:+ nl +:+ nl in
  let md := md +:+ "## Languages" +:+ nl in
  let total :=
    fold_left (fun total kv => int_add total (snd kv))
              (range_languages H 0 (Languages data)) 0%Z in
  let md :=
    fold_left (fun md kv => md +:+ "- " +:+ fst kv +:+ ": "
                               +:+ fmt_percent H (snd kv) total +:+ "%" +:+ nl)
              (range_languages H 1 (Languages data)) md in
  let md := md +:+ nl in
  md +:+ "## Top Contributors" +:+ nl.

(** One line of the list: the rank, the login and the number of commits. *)
Definition contributorLine (i : nat) (c : github.Contributor) : string :=
  fmt_d (Z.of_nat i + 1) +:+ ". " +:+ github.Login c
    +:+ " (" +:+ fmt_d (github.Commits c) +:+ " commits)" +:+ nl.

Definition ExportMarkdown_contributor (data : AnalysisResult) (md : string) (i : nat)
    : option string :=
  c ← Contributors data !! i;
  Some (md +:+ contributorLine i c).

Definition ExportMarkdown (H : Host) (data : AnalysisResult) (filename : string)
    : option (outcome string) :=
  if negb (os_Create H filename) then Some CreateError
  else
    repo ← Repo data;
    let md := ExportMarkdown_head H data repo in
    md ← foldM (ExportMarkdown_contributor data) md (seq 0 (maxContribs data));
    Some (Written md).

End ui.

(** * Notions used in the statements *)

(** A string without the byte [sep]. *)
Fixpoint freeOf (sep : ascii) (s : string) : Prop :=
  match s with
  | EmptyString => True
  | String c s' => c <> sep /\ freeOf sep s'
  end.

(** [f] is the final segment of the path [p]: what follows the last
    separator, or the whole path when it has none. *)
Definition finalSegment (sep : ascii) (p f : string) : Prop :=
  freeOf sep f /\ (p = f \/ exists d, p = d +:+ String sep f).

(** The detector tags a path by its final segment alone. *)
Definition tagged (df : analyzer.depFileInfo) : Prop :=
  exists filename,
    last (strings.Split (analyzer.path df) "/") = Some filename
    /\ analyzer.depFilePatterns !! filename = Some (analyzer.fileType df).

(** The record that a manifest leaves in the report, if any: its content
    was fetched and decoded and the parse found at least one dependency. *)
Definition retained (L : analyzer.GoLib) (client : github.Client) (owner repo : string)
    (df : analyzer.depFileInfo) : option analyzer.DependencyFile :=
  content ← github.GetFileContent client owner repo (analyzer.path df);
  decoded ← analyzer.base64_DecodeString L content;
  r ← analyzer.parseByType L (analyzer.fileType df) decoded;
  match fst r with
  | [] => None
  | _ :: _ =>
      Some {|
        analyzer.Filename := analyzer.path df;
        analyzer.FileType := snd r;
        analyzer.Dependencies := fst r;
        analyzer.TotalCount := Z.of_nat (length (fst r))
      |}
  end.

(** What one retained record adds to the report. *)
Definition record (a : analyzer.DependencyAnalysis) (f : analyzer.DependencyFile)
    : analyzer.DependencyAnalysis :=
  {|
    analyzer.Files := analyzer.Files a ++ [f];
    analyzer.TotalDeps := (analyzer.TotalDeps a + analyzer.TotalCount f)%Z;
    analyzer.Languages :=
      if analyzer.contains (analyzer.Languages a) (analyzer.FileType f)
      then analyzer.Languages a
      else analyzer.Languages a ++ [analyzer.FileType f];
    analyzer.HasLockFile := analyzer.HasLockFile a
  |}.

(** The sum of the lengths of the dependency lists of some records. *)
Definition totalLength (fs : list analyzer.DependencyFile) : Z :=
  fold_right (fun f n => (Z.of_nat (length (analyzer.Dependencies f)) + n)%Z) 0%Z fs.

(** The distinct elements of a list, each at the place of its first
    occurrence. *)
Fixpoint firstSeen (l : list string) : list string :=
  match l with
  | [] => []
  | x :: l' => x :: filter (fun y => y <> x) (firstSeen l')
  end.

(** The update of [Languages] on its own. *)
Definition addLanguage (langs : list string) (t : string) : list string :=
  if analyzer.contains langs t then langs else langs ++ [t].

(** The requirements of package sort on a comparison: it orders nothing
    before itself and it is transitive, as is its negation. *)
Definition orderedLess {A : Type} (less : A -> A -> bool) : Prop :=
  (forall a, less a a = false)
  /\ (forall a b c, less a b = true -> less b c = true -> less a c = true)
  /\ (forall a b c, less a b = false -> less b c = false -> less a c = false).

(** [a] may stand in front of [b] in a slice sorted by [less]. *)
Definition inOrder {A : Type} (less : A -> A -> bool) : relation A :=
  fun a b => less b a = false.

#[global] Instance inOrder_dec {A : Type} (less : A -> A -> bool) (a b : A) :
  Decision (inOrder less a b).
Proof. unfold inOrder. apply _. Defined.

(** The contract of the two under-specified operations: [range] visits
    every entry of the map once, and [sort.Slice] permutes the slice into an
    order in which no element is less than an earlier one. *)
Definition GoLib_ok (L : analyzer.GoLib) : Prop :=
  (forall m, analyzer.range_map L m ≡ₚ map_to_list m)
  /\ (forall less l, analyzer.sort_Slice L less l ≡ₚ l)
  /\ (forall less l, orderedLess less ->
        StronglySorted (inOrder less) (analyzer.sort_Slice L less l)).

(** The entries of a map of one section, tagged. *)
Definition sectionEntries (m : gmap string string) (type : string)
    : list analyzer.Dependency :=
  map (fun nv => analyzer.mkDep (fst nv) (analyzer.cleanVersion (snd nv)) type)
      (map_to_list m).

(** All the entries that a decoded manifest declares. *)
Definition declared (p : analyzer.pkg) : list analyzer.Dependency :=
  sectionEntries (analyzer.pkgDependencies p) "production"
  ++ sectionEntries (analyzer.pkgDevDependencies p) "dev"
  ++ sectionEntries (analyzer.pkgPeerDeps p) "peer".

(** A merge sort, and the same sort run on the opposite order and then
    reversed.  Both return a sorted permutation; they differ on elements that
    compare equal. *)
Definition mergeSort {A : Type} (less : A -> A -> bool) (l : list A) : list A :=
  merge_sort (inOrder less) l.

Definition mergeSortReversed {A : Type} (less : A -> A -> bool) (l : list A) : list A :=
  reverse (merge_sort (flip (inOrder less)) l).

Definition libWith (json : string -> option analyzer.pkg) (b64 : string -> option string)
    (sort : (analyzer.Dependency -> analyzer.Dependency -> bool) ->
            list analyzer.Dependency -> list analyzer.Dependency) : analyzer.GoLib :=
  {|
    analyzer.json_Unmarshal := json;
    analyzer.base64_DecodeString := b64;
    analyzer.range_map := map_to_list;
    analyzer.sort_Slice := sort
  |}.

(** A decoder that knows one document. *)
Definition decodesOnly {A : Type} (text : string) (value : A) (s : string) : option A :=
  if String.eqb s text then Some value else None.

(** Readable literals for texts that hold double quotes: every single
    quote of the argument stands for a double quote. *)
Fixpoint dq (s : string) : string :=
  match s with
  | EmptyString => EmptyString
  | String c s' => String (if Ascii.eqb c SQ then DQ else c) (dq s')
  end.

Definition smallManifest : analyzer.pkg :=
  {|
    analyzer.pkgDependencies := {["a" := "^1.0"]};
    analyzer.pkgDevDependencies := {["b" := "~2.0"]};
    analyzer.pkgPeerDeps := ∅
  |}.

Definition smallManifestText : string :=
  dq "{'dependencies':{'a':'^1.0'},'devDependencies':{'b':'~2.0'}}".

(** A manifest that declares m in two sections, among fifteen entries. *)
Definition twiceDeclared : analyzer.pkg :=
  {|
    analyzer.pkgDependencies :=
      list_to_map (map (fun name => (name, "1.0"))
                       ["b"; "c"; "d"; "e"; "f"; "g"; "h"; "i"; "j"; "k"; "l"; "m"; "n"]);
    analyzer.pkgDevDependencies := list_to_map [("a", "2.0"); ("m", "2.0")];
    analyzer.pkgPeerDeps := ∅
  |}.

(** The text of [twiceDeclared] and its base64 form. *)
Definition twiceDeclaredText : string :=
  dq ("{'dependencies':{'b':'1.0','c':'1.0','d':'1.0','e':'1.0','f':'1.0','g':'1.0',"
      +:+ "'h':'1.0','i':'1.0','j':'1.0','k':'1.0','l':'1.0','m':'1.0','n':'1.0'},"
      +:+ "'devDependencies':{'a':'2.0','m':'2.0'}}").

Definition twiceDeclaredBase64 : string :=
  "eyJkZXBlbmRlbmNpZXMiOnsiYiI6IjEuMCIsImMiOiIxLjAiLCJkIjoiMS4wIiwiZSI6IjEuMCIs"
  +:+ "ImYiOiIxLjAiLCJnIjoiMS4wIiwiaCI6IjEuMCIsImkiOiIxLjAiLCJqIjoiMS4wIiwiayI6IjEu"
  +:+ "MCIsImwiOiIxLjAiLCJtIjoiMS4wIiwibiI6IjEuMCJ9LCJkZXZEZXBlbmRlbmNpZXMiOnsiYSI6"
  +:+ "IjIuMCIsIm0iOiIyLjAifX0=".

(** The entries of a list that carry the name [name]. *)
Definition named (name : string) (deps : list analyzer.Dependency)
    : list analyzer.Dependency :=
  filter (fun d => analyzer.Name d = name) deps.

(** The text whose lines are [ls]: the lines with one LF between each
    two. *)
Fixpoint joinLines (ls : list string) : string :=
  match ls with
  | [] => EmptyString
  | l :: ls' =>
      match ls' with
      | [] => l
      | _ :: _ => l +:+ String LF (joinLines ls')
      end
  end.

(** Every byte of [s] is in the class [p]. *)
Fixpoint allBytes (p : ascii -> bool) (s : string) : Prop :=
  match s with
  | EmptyString => True
  | String c s' => p c = true /\ allBytes p s'
  end.

(** [s] is empty or starts with a byte outside the class [p]. *)
Definition headNot (p : ascii -> bool) (s : string) : Prop :=
  match s with
  | EmptyString => True
  | String c _ => p c = false
  end.

(** What follows the name of the gem holds no version: after optional
    white space there is no comma; or there is one and the next argument is not
    quoted; or it is quoted and empty. *)
Definition noVersionArgument (rest : string) : Prop :=
  exists ws1 r,
    rest = ws1 +:+ r /\ allBytes regexp.perl_space ws1
    /\ (headNot (fun c => regexp.perl_space c || Ascii.eqb c ",") r
        \/ exists ws2 r2,
             r = String "," (ws2 +:+ r2) /\ allBytes regexp.perl_space ws2
             /\ (headNot (fun c => regexp.perl_space c || analyzer.quote c) r2
                 \/ exists q3 q4 r3,
                      r2 = String q3 (String q4 r3)
                      /\ analyzer.quote q3 = true /\ analyzer.quote q4 = true)).

(** The gem declaration: gem, white space, the quoted name, and the rest
    of the line. *)
Definition gemDeclaration (ws : string) (q1 : ascii) (name : string) (q2 : ascii)
    (rest : string) : string :=
  "gem" +:+ ws +:+ String q1 (name +:+ String q2 rest).

(** The exported form of a contributor. *)
Definition contributorExport (c : github.Contributor) : ui.ContributorExport.t :=
  {|
    ui.ContributorExport.Login := github.Login c;
    ui.ContributorExport.Commits := github.Commits c
  |}.

(** The lines of the contributors [cs], ranked from [i] + 1 on. *)
Fixpoint contributorLines (i : nat) (cs : list github.Contributor) : string :=
  match cs with
  | [] => EmptyString
  | c :: cs' => ui.contributorLine i c +:+ contributorLines (S i) cs'
  end.

(** The same result with another list of contributors. *)
Definition withContributors (data : ui.AnalysisResult) (cs : list github.Contributor)
    : ui.AnalysisResult :=
  {|
    ui.Repo := ui.Repo data;
    ui.Commits := ui.Commits data;
    ui.Contributors := cs;
    ui.FileTree := ui.FileTree data;
    ui.Languages := ui.Languages data;
    ui.HealthScore := ui.HealthScore data;
    ui.BusFactor := ui.BusFactor data;
    ui.BusRisk := ui.BusRisk data;
    ui.MaturityScore := ui.MaturityScore data;
    ui.MaturityLevel := ui.MaturityLevel data
  |}.

(** A host for the witness: fixed clock texts, every file can be created. *)
Definition plainHost : ui.Host :=
  {|
    ui.now_Format := fun _ => "2026-01-01";
    ui.time_Format := fun _ _ => "2020-01-01";
    ui.os_Create := fun _ => true;
    ui.range_languages := fun _ m => map_to_list m;
    ui.fmt_percent := fun _ _ => "100.0"
  |}.

Definition twelveContributors : list github.Contributor :=
  map (fun i => {| github.Login := "dev" +:+ fmt_d (Z.of_nat i);
                   github.Commits := Z.of_nat (100 - i) |})
      (seq 1 12).

Definition sampleResult : ui.AnalysisResult :=
  {|
    ui.Repo := Some {|
      github.FullName := "octo/repo";
      github.Description := "sample";
      github.Stars := 5;
      github.Forks := 1;
      github.OpenIssues := 0;
      github.CreatedAt := 0;
      github.PushedAt := 1;
      github.DefaultBranch := "main";
      github.HTMLURL := "https://example.org/octo/repo"
    |};
    ui.Commits := [];
    ui.Contributors := twelveContributors;
    ui.FileTree := [];
    ui.Languages := {["Go" := 1000%Z]};
    ui.HealthScore := 80;
    ui.BusFactor := 2;
    ui.BusRisk := "medium";
    ui.MaturityScore := 60;
    ui.MaturityLevel := "growing"
  |}.

(** Two manifests for the witness of C2: a Gemfile that holds a comment
    only, and one that declares a gem; their contents in base64. *)
Definition twoGemfiles : list github.TreeEntry :=
  [ {| github.Path := "Gemfile"; github.Type_ := "blob" |};
    {| github.Path := "sub/Gemfile"; github.Type_ := "blob" |} ].

Definition twoGemfilesClient : github.Client :=
  {| github.GetFileContent := fun _ _ path =>
       if String.eqb path "Gemfile" then Some "IyBub3RoaW5nIGhlcmUK"
       else if String.eqb path "sub/Gemfile" then Some "Z2VtICJwcnkiCg=="
       else None |}.

Definition twoGemfilesBase64 (s : string) : option string :=
  match decodesOnly "IyBub3RoaW5nIGhlcmUK" ("# nothing here" +:+ str1 LF) s with
  | Some text => Some text
  | None => decodesOnly "Z2VtICJwcnkiCg==" (dq "gem 'pry'" +:+ str1 LF) s
  end.

(** The table of the detector, as the list of its pairs. *)
Definition manifestNames : list (string * string) := [
  ("package.json", "npm");
  ("go.mod", "go");
  ("requirements.txt", "python");
  ("Pipfile", "python");
  ("pyproject.toml", "python");
  ("Cargo.toml", "rust");
  ("Gemfile", "ruby")
].

(** What the detector makes of one entry of the tree. *)
Definition detected (entry : github.TreeEntry) : option analyzer.depFileInfo :=
  if String.eqb (github.Type_ entry) "blob" then
    filename ← last (strings.Split (github.Path entry) "/");
    fileType ← analyzer.depFilePatterns !! filename;
    Some {| analyzer.path := github.Path entry; analyzer.fileType := fileType |}
  else None.

(** The final segment of the path of an entry is a lock-file name. *)
Definition lockEntry (entry : github.TreeEntry) : bool :=
  match last (strings.Split (github.Path entry) "/") with
  | Some filename => analyzer.isLockFile filename analyzer.lockFiles
  | None => false
  end.

(** The five tags of the parsers. *)
Definition ecosystems : list string := ["npm"; "go"; "python"; "rust"; "ruby"].

(** The records that a tree leaves in the report, in order. *)
Definition retainedFiles (L : analyzer.GoLib) (client : github.Client) (owner repo : string)
    (tree : list github.TreeEntry) : list analyzer.DependencyFile :=
  omap (retained L client owner repo) (omap detected tree).

(** The report made of some records and of the lock-file flag. *)
Definition reportOf (fs : list analyzer.DependencyFile) (lock : bool)
    : analyzer.DependencyAnalysis :=
  {|
    analyzer.Files := fs;
    analyzer.TotalDeps := totalLength fs;
    analyzer.Languages := firstSeen (map analyzer.FileType fs);
    analyzer.HasLockFile := lock
  |}.

(** A client whose every request fails. *)
Definition offlineClient : github.Client :=
  {| github.GetFileContent := fun _ _ _ => None |}.

(** A tree with two manifests and a lock file. *)
Definition lockedTree : list github.TreeEntry :=
  twoGemfiles ++ [{| github.Path := "web/yarn.lock"; github.Type_ := "blob" |}].

(** The base64 form of [smallManifestText], a decoder for it, and a client
    that serves it for every path. *)
Definition smallManifestBase64 : string :=
  "eyJkZXBlbmRlbmNpZXMiOnsiYSI6Il4xLjAifSwiZGV2RGVwZW5kZW5jaWVzIjp7ImIiOiJ+Mi4wIn19".

Definition smallManifestLib
    (sort : (analyzer.Dependency -> analyzer.Dependency -> bool) ->
            list analyzer.Dependency -> list analyzer.Dependency) : analyzer.GoLib :=
  libWith (decodesOnly smallManifestText smallManifest)
          (decodesOnly smallManifestBase64 smallManifestText) sort.

Definition smallManifestClient : github.Client :=
  {| github.GetFileContent := fun _ _ _ => Some smallManifestBase64 |}.

Definition smallManifestTree : list github.TreeEntry :=
  [{| github.Path := "package.json"; github.Type_ := "blob" |};
   {| github.Path := "api/package.json"; github.Type_ := "blob" |}].

(** A library that decodes two manifests, the one with distinct names and
    the one that declares m twice; a tree with a package.json and a copy kept
    under another name; and a client that serves the first manifest for the
    package.json and the second for every other path. *)
Definition bothManifestsLib
    (sort : (analyzer.Dependency -> analyzer.Dependency -> bool) ->
            list analyzer.Dependency -> list analyzer.Dependency) : analyzer.GoLib :=
  libWith
    (fun s => match decodesOnly smallManifestText smallManifest s with
              | Some p => Some p
              | None => decodesOnly twiceDeclaredText twiceDeclared s
              end)
    (fun s => match decodesOnly smallManifestBase64 smallManifestText s with
              | Some text => Some text
              | None => decodesOnly twiceDeclaredBase64 twiceDeclaredText s
              end)
    sort.

Definition bothManifestsTree : list github.TreeEntry :=
  [{| github.Path := "package.json"; github.Type_ := "blob" |};
   {| github.Path := "old/package.json.bak"; github.Type_ := "blob" |}].

Definition bothManifestsClient : github.Client :=
  {| github.GetFileContent := fun _ _ path =>
       if String.eqb path "package.json" then Some smallManifestBase64
       else Some twiceDeclaredBase64 |}.

(** The four types that a dependency can carry. *)
Definition dependencyTypes : list string := ["production"; "dev"; "peer"; "indirect"].

(** No byte of [s] is ASCII white space. *)
Definition spaceFree (s : string) : Prop :=
  allBytes (fun c => negb (strings.asciiSpace c)) s.

(** The header of one of the two sections that the Cargo parser reads. *)
Definition cargoHeader (dev : bool) : string :=
  if dev then "[dev-dependencies]" else "[dependencies]".

(** A token of a line: not empty and free of ASCII white space. *)
Definition token (s : string) : Prop := s <> EmptyString /\ spaceFree s.

(** What the go-module parser can return as an entry. *)
Definition goEntry (d : analyzer.Dependency) : Prop :=
  token (analyzer.Name d) /\ token (analyzer.Version d)
  /\ (analyzer.Type_ d = "production" \/ analyzer.Type_ d = "indirect").

(** The type of an entry is one of the four. *)
Definition typed (d : analyzer.Dependency) : Prop :=
  In (analyzer.Type_ d) dependencyTypes.

(** The texts that a pattern can consume, anchors and groups aside. *)
Fixpoint lang (r : regexp.Regexp) (w : string) : Prop :=
  match r with
  | regexp.Chr a => w = str1 a
  | regexp.Cls p => exists c, w = str1 c /\ p c = true
  | regexp.Star p => allBytes p w
  | regexp.Plus p => w <> EmptyString /\ allBytes p w
  | regexp.Cat r1 r2 => exists w1 w2, w = w1 +:+ w2 /\ lang r1 w1 /\ lang r2 w2
  | regexp.Cap _ r0 => lang r0 w
  | regexp.Opt r0 => w = EmptyString \/ lang r0 w
  | regexp.Bol => w = EmptyString
  | regexp.Eol => w = EmptyString
  end.

(** The texts that the group number [i] of a pattern can capture. *)
Fixpoint capLang (r : regexp.Regexp) (i : nat) (t : string) : Prop :=
  match r with
  | regexp.Cat r1 r2 => capLang r1 i t \/ capLang r2 i t
  | regexp.Cap j r0 => (i = j /\ lang r0 t) \/ capLang r0 i t
  | regexp.Opt r0 => capLang r0 i t
  | _ => False
  end.

(** The groups that take part in every match of a pattern. *)
Fixpoint mandatory (r : regexp.Regexp) : list nat :=
  match r with
  | regexp.Cat r1 r2 => mandatory r1 ++ mandatory r2
  | regexp.Cap j r0 => j :: mandatory r0
  | _ => []
  end.

(** What the Gemfile parser can return as an entry. *)
Definition gemEntry (d : analyzer.Dependency) : Prop :=
  (analyzer.Name d <> EmptyString /\ allBytes analyzer.notQuote (analyzer.Name d))
  /\ (analyzer.Version d <> EmptyString /\ allBytes analyzer.notQuote (analyzer.Version d))
  /\ analyzer.Type_ d = "production".

(** The operators that open a version constraint of a requirement. *)
Definition constraintOperator (c : ascii) : bool := regexp.oneOf "=<>!~" c.

(** What the requirements parser can return as an entry: the name is made
    of letters, digits, underscores and hyphens; the version is the star or
    the trimmed form of a text that starts with an operator. *)
Definition requirementEntry (d : analyzer.Dependency) : Prop :=
  (analyzer.Name d <> EmptyString /\ allBytes analyzer.nameChar (analyzer.Name d))
  /\ (analyzer.Version d = "*"
      \/ exists c w, constraintOperator c = true
                     /\ analyzer.Version d = strings.TrimSpace (String c w))
  /\ analyzer.Type_ d = "production".

(** * Properties *)

(** ** The loop combinator *)

Lemma foldM_app {A B : Type} (f : A -> B -> option A) (a : A) (l1 l2 : list B) :
  foldM f a (l1 ++ l2) = (a' ← foldM f a l1; foldM f a' l2).
Proof.
  revert a. induction l1 as [|x l1 IH]; intros a; simpl; [done|].
  destruct (f a x) as [a'|]; simpl; [apply IH|done].
Qed.

Lemma foldM_total {A B : Type} (f : A -> B -> option A) (a : A) (l : list B) :
  (forall a x, is_Some (f a x)) -> is_Some (foldM f a l).
Proof.
  intros Hf. revert a. induction l as [|x l IH]; intros a; simpl; [by eexists|].
  destruct (Hf a x) as [a' ->]. simpl. apply IH.
Qed.

(** A loop that only appends to its accumulator can be run from the empty
    one. *)
Lemma foldM_acc {A B : Type} (f : list A -> B -> option (list A)) :
  (forall acc x, f acc x = (d ← f [] x; Some (acc ++ d))) ->
  forall l acc, foldM f acc l = (d ← foldM f [] l; Some (acc ++ d)).
Proof.
  intros Hf. induction l as [|x l IH]; intros acc; cbn [foldM].
  - cbn [mbind option_bind]. by rewrite app_nil_r.
  - rewrite (Hf acc x). destruct (f [] x) as [d|]; cbn [mbind option_bind]; [|done].
    rewrite (IH (acc ++ d)), (IH d).
    destruct (foldM f [] l) as [d'|]; cbn [mbind option_bind]; [|done].
    by rewrite app_assoc.
Qed.

(** ** Strings *)

Lemma append_cons (c : ascii) (s t : string) : String c s +:+ t = String c (s +:+ t).
Proof. reflexivity. Qed.

Lemma append_nil_l (t : string) : EmptyString +:+ t = t.
Proof. reflexivity. Qed.

Lemma Split_nonempty (s : string) (sep : ascii) : strings.Split s sep <> [].
Proof.
  destruct s as [|c s]; simpl; [done|].
  destruct (Ascii.eqb c sep); [done|]. by destruct (strings.Split s sep).
Qed.

Lemma last_Split_is_Some (s : string) (sep : ascii) : is_Some (last (strings.Split s sep)).
Proof. apply last_is_Some, Split_nonempty. Qed.

Lemma Split_freeOf (sep : ascii) (f : string) :
  freeOf sep f -> strings.Split f sep = [f].
Proof.
  induction f as [|c f IH]; simpl; [done|]. intros [Hc Hf].
  destruct (Ascii.eqb_spec c sep) as [->|_]; [done|]. by rewrite IH.
Qed.

Lemma Split_app (sep : ascii) (d f : string) :
  strings.Split (d +:+ String sep f) sep = strings.Split d sep ++ strings.Split f sep.
Proof.
  induction d as [|c d IH].
  - rewrite append_nil_l. simpl. by rewrite Ascii.eqb_refl.
  - rewrite append_cons. simpl. destruct (Ascii.eqb c sep); [by rewrite IH|].
    rewrite IH. pose proof (Split_nonempty d sep).
    by destruct (strings.Split d sep).
Qed.

Lemma Split_lines_freeOf (s : string) (sep : ascii) :
  Forall (freeOf sep) (strings.Split s sep).
Proof.
  induction s as [|c s IH]; cbn [strings.Split]; [by repeat constructor|].
  destruct (Ascii.eqb_spec c sep) as [->|Hc]; [by constructor|].
  destruct (strings.Split s sep) as [|x r]; [by repeat constructor|].
  apply Forall_cons in IH as [Hx Hr]. by constructor.
Qed.

Lemma Split_joinLines (ls : list string) :
  ls <> [] -> Forall (freeOf LF) ls -> strings.Split (joinLines ls) LF = ls.
Proof.
  induction ls as [|l ls IH]; [done|]. intros _ Hls.
  apply Forall_cons in Hls as [Hl Hls]. destruct ls as [|l' ls].
  - by apply Split_freeOf.
  - cbn [joinLines]. rewrite Split_app, (Split_freeOf LF l) by done.
    change (joinLines (l' :: ls)) with
      (match ls with [] => l' | _ :: _ => l' +:+ String LF (joinLines ls) end) in IH.
    by rewrite IH.
Qed.

Lemma finalSegment_last (sep : ascii) (p f : string) :
  finalSegment sep p f -> last (strings.Split p sep) = Some f.
Proof.
  intros [Hf [->|[d ->]]].
  - by rewrite Split_freeOf.
  - rewrite Split_app, (Split_freeOf sep f) by done. apply last_snoc.
Qed.

Lemma finalSegment_exists (sep : ascii) (p : string) : exists f, finalSegment sep p f.
Proof.
  induction p as [|c p [f [Hf Hp]]].
  - exists EmptyString. split; [done|by left].
  - destruct Hp as [->|[d ->]].
    + destruct (Ascii.eqb_spec c sep) as [->|Hc].
      * exists f. split; [done|]. right. by exists EmptyString.
      * exists (String c f). split; [done|by left].
    + exists f. split; [done|]. right. by exists (String c d).
Qed.

Lemma last_Split_finalSegment (sep : ascii) (p f : string) :
  last (strings.Split p sep) = Some f <-> finalSegment sep p f.
Proof.
  split; [|apply finalSegment_last].
  intros Hl. destruct (finalSegment_exists sep p) as [f' Hf'].
  pose proof (finalSegment_last _ _ _ Hf') as Hl'. congruence.
Qed.

(** ** hasLockFile *)

Lemma isLockFile_In (filename : string) (names : list string) :
  analyzer.isLockFile filename names = true <-> In filename names.
Proof.
  induction names as [|n names IH]; simpl; [by split|].
  destruct (String.eqb_spec filename n) as [->|Hne]; [tauto|].
  rewrite IH. split; [tauto|]. intros [?|?]; [congruence|done].
Qed.

Lemma hasLockFile_total (tree : list github.TreeEntry) :
  analyzer.hasLockFile tree = Some true \/ analyzer.hasLockFile tree = Some false.
Proof.
  induction tree as [|e tree IH]; [by right|]. cbn [analyzer.hasLockFile].
  destruct (last_Split_is_Some (github.Path e) "/") as [f ->]. cbn [mbind option_bind].
  destruct (analyzer.isLockFile f analyzer.lockFiles); [by left|done].
Qed.

Lemma hasLockFile_true (tree : list github.TreeEntry) :
  analyzer.hasLockFile tree = Some true <->
  exists entry name, In entry tree /\ In name analyzer.lockFiles
                     /\ finalSegment "/" (github.Path entry) name.
Proof.
  induction tree as [|e tree IH].
  - simpl. split; [done|]. by intros (? & ? & [] & _).
  - cbn [analyzer.hasLockFile].
    destruct (last_Split_is_Some (github.Path e) "/") as [f Hf]. rewrite Hf.
    cbn [mbind option_bind].
    destruct (analyzer.isLockFile f analyzer.lockFiles) eqn:Hl.
    + split; [intros _|done]. exists e, f. split; [by left|].
      split; [by apply isLockFile_In|by apply last_Split_finalSegment].
    + rewrite IH. split.
      * intros (e' & n & He & Hn & Hs). exists e', n. split; [by right|done].
      * intros (e' & n & [<-|He] & Hn & Hs); [|by exists e', n].
        apply last_Split_finalSegment in Hs. rewrite Hf in Hs. injection Hs as ->.
        apply isLockFile_In in Hn. congruence.
Qed.

(** C4. For every tree listing, hasLockFile returns a boolean, and it
    returns true if and only if the final segment of the path of at least one
    entry is equal, byte for byte, to one of the eight lock-file names; on the
    empty tree it returns false. *)
Theorem hasLockFile_iff_final_segment (tree : list github.TreeEntry) :
  (analyzer.hasLockFile tree = Some true \/ analyzer.hasLockFile tree = Some false)
  /\ (analyzer.hasLockFile tree = Some true <->
      exists entry name,
        In entry tree
        /\ In name ["package-lock.json"; "yarn.lock"; "pnpm-lock.yaml"; "go.sum";
                    "Pipfile.lock"; "poetry.lock"; "Cargo.lock"; "Gemfile.lock"]
        /\ finalSegment "/" (github.Path entry) name)
  /\ analyzer.hasLockFile [] = Some false.
Proof.
  split; [apply hasLockFile_total|]. split; [apply hasLockFile_true|done].
Qed.

(** ** The parsers never panic *)

Lemma lookup_of_leb {A : Type} (l : list A) (i n : nat) :
  (n <=? length l)%nat = true -> (i < n)%nat -> is_Some (l !! i).
Proof. intros Hn Hi. apply lookup_lt_is_Some_2. apply Nat.leb_le in Hn. lia. Qed.

Lemma lookup_of_eqb {A : Type} (l : list A) (i n : nat) :
  (length l =? n)%nat = true -> (i < n)%nat -> is_Some (l !! i).
Proof. intros Hn Hi. apply lookup_lt_is_Some_2. apply Nat.eqb_eq in Hn. lia. Qed.

(** Reads the slice element that a length test has made safe. *)
Ltac safe_index l i H :=
  let x := fresh "x" in
  first [ destruct (lookup_of_leb l i _ H) as [x ->]; [lia|]
        | destruct (lookup_of_eqb l i _ H) as [x ->]; [lia|] ];
  cbn [mbind option_bind].

Lemma parseGoMod_line_total (st : bool * list analyzer.Dependency) (line0 : string) :
  is_Some (analyzer.parseGoMod_line st line0).
Proof.
  destruct st as [inRequire deps]. unfold analyzer.parseGoMod_line.
  set (line := strings.TrimSpace line0). set (parts := strings.Fields line).
  destruct (strings.HasPrefix line "require ("); [by eexists|].
  destruct (String.eqb line ")"); [by eexists|].
  destruct (strings.HasPrefix line "require " && negb (strings.Contains line "(")).
  { destruct (3 <=? length parts)%nat eqn:Hlen; [|by eexists].
    safe_index parts 1%nat Hlen. safe_index parts 2%nat Hlen. by eexists. }
  destruct (inRequire && negb (String.eqb line EmptyString)
            && negb (strings.HasPrefix line "//")); [|by eexists].
  destruct (2 <=? length parts)%nat eqn:Hlen; [|by eexists].
  safe_index parts 0%nat Hlen. safe_index parts 1%nat Hlen. by eexists.
Qed.

Lemma parseRequirementsTxt_line_total (deps : list analyzer.Dependency) (line0 : string) :
  is_Some (analyzer.parseRequirementsTxt_line deps line0).
Proof.
  unfold analyzer.parseRequirementsTxt_line.
  set (line := strings.TrimSpace line0).
  destruct (String.eqb line EmptyString || strings.HasPrefix line "#"
            || strings.HasPrefix line "-"); [by eexists|].
  set (m2 := regexp.FindStringSubmatch 2 analyzer.versionPattern line).
  set (m1 := regexp.FindStringSubmatch 1 analyzer.simplePattern line).
  destruct (3 <=? length m2)%nat eqn:Hlen.
  { safe_index m2 1%nat Hlen. safe_index m2 2%nat Hlen. by eexists. }
  destruct (2 <=? length m1)%nat eqn:Hlen1; [|by eexists].
  safe_index m1 1%nat Hlen1. by eexists.
Qed.

Lemma parseCargoToml_line_total (st : bool * bool * list analyzer.Dependency)
    (line0 : string) :
  is_Some (analyzer.parseCargoToml_line st line0).
Proof.
  destruct st as [[inDeps inDevDeps] deps]. unfold analyzer.parseCargoToml_line.
  set (line := strings.TrimSpace line0). set (parts := strings.SplitN2 line "=").
  destruct (String.eqb line "[dependencies]"); [by eexists|].
  destruct (String.eqb line "[dev-dependencies]"); [by eexists|].
  destruct (strings.HasPrefix line "["); [by eexists|].
  destruct ((inDeps || inDevDeps) && strings.Contains line "="); [|by eexists].
  destruct (length parts =? 2)%nat eqn:Hlen; [|by eexists].
  safe_index parts 0%nat Hlen. safe_index parts 1%nat Hlen. by eexists.
Qed.

Lemma parseGemfile_line_total (deps : list analyzer.Dependency) (line0 : string) :
  is_Some (analyzer.parseGemfile_line deps line0).
Proof.
  unfold analyzer.parseGemfile_line.
  set (line := strings.TrimSpace line0).
  destruct (strings.HasPrefix line "#" || String.eqb line EmptyString); [by eexists|].
  set (m := regexp.FindStringSubmatch 2 analyzer.gemPattern line).
  destruct (2 <=? length m)%nat eqn:Hlen; [|by eexists].
  safe_index m 1%nat Hlen.
  destruct (3 <=? length m)%nat eqn:Hlen3; [|by eexists].
  safe_index m 2%nat Hlen3. by eexists.
Qed.

Lemma parseGoMod_total (content : string) :
  exists deps, analyzer.parseGoMod content = Some (deps, "go").
Proof.
  unfold analyzer.parseGoMod.
  destruct (foldM_total analyzer.parseGoMod_line (false, []) (strings.Split content LF)
              parseGoMod_line_total) as [st ->].
  by eexists.
Qed.

Lemma parseRequirementsTxt_total (content : string) :
  exists deps, analyzer.parseRequirementsTxt content = Some (deps, "python").
Proof.
  unfold analyzer.parseRequirementsTxt.
  destruct (foldM_total analyzer.parseRequirementsTxt_line [] (strings.Split content LF)
              parseRequirementsTxt_line_total) as [st ->].
  by eexists.
Qed.

Lemma parseCargoToml_total (content : string) :
  exists deps, analyzer.parseCargoToml content = Some (deps, "rust").
Proof.
  unfold analyzer.parseCargoToml.
  destruct (foldM_total analyzer.parseCargoToml_line (false, false, [])
              (strings.Split content LF) parseCargoToml_line_total) as [st ->].
  by eexists.
Qed.

Lemma parseGemfile_total (content : string) :
  exists deps, analyzer.parseGemfile content = Some (deps, "ruby").
Proof.
  unfold analyzer.parseGemfile.
  destruct (foldM_total analyzer.parseGemfile_line [] (strings.Split content LF)
              parseGemfile_line_total) as [st ->].
  by eexists.
Qed.

Lemma parsePackageJSON_total (L : analyzer.GoLib) (content : string) :
  exists deps, analyzer.parsePackageJSON L content = Some (deps, "npm").
Proof. unfold analyzer.parsePackageJSON. destruct analyzer.json_Unmarshal; by eexists. Qed.

Lemma parseByType_total (L : analyzer.GoLib) (dfType decoded : string) :
  is_Some (analyzer.parseByType L dfType decoded).
Proof.
  unfold analyzer.parseByType.
  destruct (String.eqb dfType "npm");
    [destruct (parsePackageJSON_total L decoded) as [? ->]; by eexists|].
  destruct (String.eqb dfType "go");
    [destruct (parseGoMod_total decoded) as [? ->]; by eexists|].
  destruct (String.eqb dfType "python");
    [destruct (parseRequirementsTxt_total decoded) as [? ->]; by eexists|].
  destruct (String.eqb dfType "rust");
    [destruct (parseCargoToml_total decoded) as [? ->]; by eexists|].
  destruct (String.eqb dfType "ruby");
    [destruct (parseGemfile_total decoded) as [? ->]; by eexists|].
  by eexists.
Qed.

(** C7. Every format parser returns on every input, whatever its bytes:
    no slice is read out of range, the result is some list of dependencies
    paired with the fixed tag of the parser (npm, go, python, rust, ruby), and
    the npm parser answers a failed decode with the empty list. *)
Theorem parsers_total_with_fixed_tag (L : analyzer.GoLib) (content : string) :
  (exists deps, analyzer.parsePackageJSON L content = Some (deps, "npm"))
  /\ (analyzer.json_Unmarshal L content = None ->
      analyzer.parsePackageJSON L content = Some ([], "npm"))
  /\ (exists deps, analyzer.parseGoMod content = Some (deps, "go"))
  /\ (exists deps, analyzer.parseRequirementsTxt content = Some (deps, "python"))
  /\ (exists deps, analyzer.parseCargoToml content = Some (deps, "rust"))
  /\ (exists deps, analyzer.parseGemfile content = Some (deps, "ruby")).
Proof.
  split; [apply parsePackageJSON_total|].
  split; [unfold analyzer.parsePackageJSON; by intros ->|].
  split; [apply parseGoMod_total|].
  split; [apply parseRequirementsTxt_total|].
  split; [apply parseCargoToml_total|apply parseGemfile_total].
Qed.

(** The witness of C7: a text that is not JSON. *)
Lemma parsers_total_with_fixed_tag_witness :
  analyzer.parsePackageJSON (libWith (fun _ => None) Some mergeSort) "{ not json"
  = Some ([], "npm").
Proof.
  exact (proj1 (proj2 (parsers_total_with_fixed_tag
                         (libWith (fun _ => None) Some mergeSort) "{ not json"))
           eq_refl).
Defined.

(** ** parseGoMod: the type of a requirement *)

(** A requirement inside a block is tagged by the marker. *)
Lemma parseGoMod_line_block (deps : list analyzer.Dependency) (line0 name version : string)
    (rest : list string) :
  let line := strings.TrimSpace line0 in
  strings.HasPrefix line "require (" = false ->
  String.eqb line ")" = false ->
  strings.HasPrefix line "require " && negb (strings.Contains line "(") = false ->
  String.eqb line EmptyString = false ->
  strings.HasPrefix line "//" = false ->
  strings.Fields line = name :: version :: rest ->
  analyzer.parseGoMod_line (true, deps) line0 =
    Some (true, deps ++ [analyzer.mkDep name version
                           (if strings.Contains line "// indirect"
                            then "indirect" else "production")]).
Proof.
  intros line H1 H2 H3 H4 H5 H6. unfold analyzer.parseGoMod_line. fold line.
  rewrite H1, H2, H3, H4, H5, H6. reflexivity.
Qed.

(** A single-line requirement is tagged production, marker or not. *)
Lemma parseGoMod_line_single (inRequire : bool) (deps : list analyzer.Dependency)
    (line0 kw name version : string) (rest : list string) :
  let line := strings.TrimSpace line0 in
  strings.HasPrefix line "require (" = false ->
  String.eqb line ")" = false ->
  strings.HasPrefix line "require " && negb (strings.Contains line "(") = true ->
  strings.Fields line = kw :: name :: version :: rest ->
  analyzer.parseGoMod_line (inRequire, deps) line0 =
    Some (inRequire, deps ++ [analyzer.mkDep name version "production"]).
Proof.
  intros line H1 H2 H3 H4. unfold analyzer.parseGoMod_line. fold line.
  rewrite H1, H2, H3, H4. reflexivity.
Qed.

(** C1 (the code departs from the claim).  The single-line requirement
    with the marker comes out as production, while the same requirement inside
    a block comes out as indirect. *)
Theorem parseGoMod_single_line_ignores_indirect :
  analyzer.parseGoMod "require github.com/x/y v1.2.3 // indirect"
  = Some ([analyzer.mkDep "github.com/x/y" "v1.2.3" "production"], "go")
  /\ analyzer.parseGoMod
       ("require (" +:+ str1 LF +:+ "github.com/x/y v1.2.3 // indirect" +:+ str1 LF +:+ ")")
     = Some ([analyzer.mkDep "github.com/x/y" "v1.2.3" "indirect"], "go").
Proof. split; vm_compute; reflexivity. Qed.

(** ** AnalyzeDependencies *)

Lemma foldM_inv {A B : Type} (P : A -> Prop) (f : A -> B -> option A) (l : list B) :
  (forall a x a', P a -> f a x = Some a' -> P a') ->
  forall a a', P a -> foldM f a l = Some a' -> P a'.
Proof.
  intros Hf. induction l as [|x l IH]; intros a a' Ha; simpl.
  - by intros [= <-].
  - destruct (f a x) as [a1|] eqn:Hx; simpl; [|done]. eauto.
Qed.

Lemma findDependencyFiles_entry_total (files : list analyzer.depFileInfo)
    (entry : github.TreeEntry) :
  is_Some (analyzer.findDependencyFiles_entry files entry).
Proof.
  unfold analyzer.findDependencyFiles_entry.
  destruct (negb _); [by eexists|].
  destruct (last_Split_is_Some (github.Path entry) "/") as [f ->].
  cbn [mbind option_bind]. destruct (analyzer.depFilePatterns !! f); by eexists.
Qed.

Lemma findDependencyFiles_tagged (tree : list github.TreeEntry)
    (depFiles : list analyzer.depFileInfo) :
  analyzer.findDependencyFiles tree = Some depFiles -> Forall tagged depFiles.
Proof.
  unfold analyzer.findDependencyFiles.
  apply (foldM_inv (Forall tagged)); [|constructor].
  intros files e files' Hfiles. unfold analyzer.findDependencyFiles_entry.
  destruct (negb _); [by intros [= <-]|].
  destruct (last (strings.Split (github.Path e) "/")) as [f|] eqn:Hf;
    cbn [mbind option_bind]; [|done].
  destruct (analyzer.depFilePatterns !! f) as [t|] eqn:Ht; intros [= <-]; [|done].
  apply Forall_app. split; [done|]. constructor; [|constructor]. by exists f.
Qed.

Lemma tagged_same_path (df1 df2 : analyzer.depFileInfo) :
  tagged df1 -> tagged df2 -> analyzer.path df1 = analyzer.path df2 ->
  analyzer.fileType df1 = analyzer.fileType df2.
Proof. intros (f1 & H1 & T1) (f2 & H2 & T2) Hp. rewrite Hp in H1. congruence. Qed.

Section Aggregator.
Context (L : analyzer.GoLib) (client : github.Client) (owner repo : string).

Lemma AnalyzeDependencies_file_retained (a : analyzer.DependencyAnalysis)
    (df : analyzer.depFileInfo) :
  analyzer.AnalyzeDependencies_file L client owner repo a df =
    Some (match retained L client owner repo df with Some f => record a f | None => a end).
Proof.
  unfold analyzer.AnalyzeDependencies_file, retained.
  destruct (github.GetFileContent client owner repo (analyzer.path df)) as [content|];
    cbn [mbind option_bind]; [|done].
  destruct (analyzer.base64_DecodeString L content) as [decoded|];
    cbn [mbind option_bind]; [|done].
  destruct (parseByType_total L (analyzer.fileType df) decoded) as [[deps t] ->].
  cbn [mbind option_bind fst snd]. destruct deps as [|d deps]; [done|].
  unfold record. cbn [length Nat.ltb Nat.leb analyzer.Files analyzer.TotalDeps
    analyzer.Languages analyzer.HasLockFile analyzer.FileType analyzer.TotalCount].
  by destruct (analyzer.contains (analyzer.Languages a) t).
Qed.

Lemma AnalyzeDependencies_loop (depFiles : list analyzer.depFileInfo)
    (a : analyzer.DependencyAnalysis) :
  foldM (analyzer.AnalyzeDependencies_file L client owner repo) a depFiles =
    Some (fold_left record (omap (retained L client owner repo) depFiles) a).
Proof.
  revert a. induction depFiles as [|df depFiles IH]; intros a; [done|].
  cbn [foldM]. rewrite AnalyzeDependencies_file_retained. cbn [mbind option_bind].
  rewrite IH. cbn [omap list_omap]. by destruct (retained L client owner repo df).
Qed.

Lemma retained_inv (df : analyzer.depFileInfo) (f : analyzer.DependencyFile) :
  retained L client owner repo df = Some f ->
  analyzer.Filename f = analyzer.path df
  /\ analyzer.Dependencies f <> []
  /\ analyzer.TotalCount f = Z.of_nat (length (analyzer.Dependencies f))
  /\ exists content decoded,
       github.GetFileContent client owner repo (analyzer.path df) = Some content
       /\ analyzer.base64_DecodeString L content = Some decoded
       /\ analyzer.parseByType L (analyzer.fileType df) decoded
          = Some (analyzer.Dependencies f, analyzer.FileType f).
Proof.
  unfold retained.
  destruct (github.GetFileContent client owner repo (analyzer.path df))
    as [content|] eqn:Hc; cbn [mbind option_bind]; [|done].
  destruct (analyzer.base64_DecodeString L content) as [decoded|] eqn:Hd;
    cbn [mbind option_bind]; [|done].
  destruct (analyzer.parseByType L (analyzer.fileType df) decoded) as [[deps t]|] eqn:Hp;
    cbn [mbind option_bind fst snd]; [|done].
  destruct deps as [|d deps]; [done|]. intros [= <-]. simpl.
  split; [done|]. split; [done|]. split; [done|]. by exists content, decoded.
Qed.

End Aggregator.

Lemma contains_In (slice : list string) (item : string) :
  analyzer.contains slice item = true <-> In item slice.
Proof.
  induction slice as [|s slice IH]; simpl; [by split|].
  destruct (String.eqb_spec s item) as [->|Hne]; [tauto|].
  rewrite IH. split; [tauto|]. intros [?|?]; [congruence|done].
Qed.

Lemma contains_elem_of (slice : list string) (item : string) :
  analyzer.contains slice item = true <-> item ∈ slice.
Proof. rewrite contains_In. symmetry. apply list_elem_of_In. Qed.

Lemma addLanguage_firstSeen (l acc : list string) :
  fold_left addLanguage l acc = acc ++ filter (fun y => y ∉ acc) (firstSeen l).
Proof.
  revert acc. induction l as [|x l IH]; intros acc; cbn [fold_left firstSeen].
  - by rewrite filter_nil, app_nil_r.
  - rewrite IH. unfold addLanguage.
    destruct (analyzer.contains acc x) eqn:Hc.
    + apply contains_elem_of in Hc. rewrite filter_cons_False by tauto.
      f_equal. rewrite list_filter_filter. apply list_filter_iff.
      intros y. split; [|tauto]. intros Hy. split; [done|]. by intros ->.
    + assert (x ∉ acc) as Hx.
      { intros Hin. apply contains_elem_of in Hin. congruence. }
      rewrite filter_cons_True by done. rewrite <- app_assoc. cbn [app].
      do 2 f_equal. rewrite list_filter_filter. apply list_filter_iff.
      intros y. rewrite elem_of_app, list_elem_of_singleton. tauto.
Qed.

Lemma firstSeen_fold (l : list string) : fold_left addLanguage l [] = firstSeen l.
Proof.
  rewrite addLanguage_firstSeen. cbn [app].
  induction (firstSeen l) as [|y l' IH]; [done|].
  rewrite filter_cons_True by apply not_elem_of_nil. by rewrite IH.
Qed.

Lemma firstSeen_NoDup (l : list string) : NoDup (firstSeen l).
Proof.
  induction l as [|x l IH]; cbn [firstSeen]; [constructor|].
  apply NoDup_cons. split; [|by apply NoDup_filter].
  rewrite list_elem_of_filter. tauto.
Qed.

Lemma firstSeen_In (l : list string) (x : string) : In x (firstSeen l) <-> In x l.
Proof.
  induction l as [|y l IH]; cbn [firstSeen]; [done|]. simpl.
  rewrite <- IH, <- !list_elem_of_In, list_elem_of_filter.
  destruct (decide (x = y)) as [->|Hne]; [tauto|]. split; [tauto|].
  intros [?|?]; [by left|right; done].
Qed.

Section Report.
Context (L : analyzer.GoLib) (client : github.Client) (owner repo : string).

Lemma record_fold (fs : list analyzer.DependencyFile) (a : analyzer.DependencyAnalysis) :
  let a' := fold_left record fs a in
  analyzer.Files a' = analyzer.Files a ++ fs
  /\ analyzer.TotalDeps a' =
     (analyzer.TotalDeps a
      + fold_right (fun f n => (analyzer.TotalCount f + n)%Z) 0%Z fs)%Z
  /\ analyzer.Languages a' =
     fold_left addLanguage (map analyzer.FileType fs) (analyzer.Languages a)
  /\ analyzer.HasLockFile a' = analyzer.HasLockFile a.
Proof.
  revert a. induction fs as [|f fs IH]; intros a; cbn [fold_left fold_right map].
  - rewrite app_nil_r, Z.add_0_r. done.
  - destruct (IH (record a f)) as (HF & HT & HL & HK). cbn zeta.
    rewrite HF, HT, HL, HK. unfold record at 1 2 3 4.
    cbn [analyzer.Files analyzer.TotalDeps analyzer.Languages analyzer.HasLockFile].
    rewrite <- app_assoc, Z.add_assoc. done.
Qed.

(** The whole function, in closed form. *)
Lemma AnalyzeDependencies_closed_form (branch : string) (fileTree : list github.TreeEntry) :
  exists depFiles a,
    analyzer.findDependencyFiles fileTree = Some depFiles
    /\ analyzer.AnalyzeDependencies L client owner repo branch fileTree = Some a
    /\ analyzer.Files a = omap (retained L client owner repo) depFiles
    /\ analyzer.TotalDeps a =
       fold_right (fun f n => (analyzer.TotalCount f + n)%Z) 0%Z (analyzer.Files a)
    /\ analyzer.Languages a = firstSeen (map analyzer.FileType (analyzer.Files a))
    /\ Some (analyzer.HasLockFile a) = analyzer.hasLockFile fileTree.
Proof.
  unfold analyzer.AnalyzeDependencies.
  destruct (foldM_total analyzer.findDependencyFiles_entry [] fileTree
              findDependencyFiles_entry_total) as [depFiles HdF].
  fold (analyzer.findDependencyFiles fileTree) in HdF. rewrite HdF.
  cbn [mbind option_bind]. rewrite AnalyzeDependencies_loop. cbn [mbind option_bind].
  set (a0 := {| analyzer.Files := []; analyzer.TotalDeps := 0;
                analyzer.Languages := []; analyzer.HasLockFile := false |}).
  destruct (record_fold (omap (retained L client owner repo) depFiles) a0)
    as (HF & HT & HL & _).
  assert (exists b, analyzer.hasLockFile fileTree = Some b) as [b Hb].
  { destruct (hasLockFile_total fileTree) as [->| ->]; by eexists. }
  rewrite Hb. cbn [mbind option_bind].
  eexists depFiles, _. split; [done|]. split; [done|].
  cbn [analyzer.Files analyzer.TotalDeps analyzer.Languages analyzer.HasLockFile].
  rewrite HF, HT, HL. cbn [app a0 analyzer.Files analyzer.TotalDeps analyzer.Languages].
  rewrite firstSeen_fold. done.
Qed.

End Report.

Lemma totalCount_totalLength (fs : list analyzer.DependencyFile) :
  Forall (fun f => analyzer.TotalCount f = Z.of_nat (length (analyzer.Dependencies f))) fs ->
  fold_right (fun f n => (analyzer.TotalCount f + n)%Z) 0%Z fs = totalLength fs.
Proof. induction 1 as [|f fs Hf _ IH]; simpl; [done|]. by rewrite Hf, IH. Qed.

Lemma retained_Forall (L : analyzer.GoLib) (client : github.Client) (owner repo : string)
    (P : analyzer.DependencyFile -> Prop) (depFiles : list analyzer.depFileInfo) :
  (forall df f, retained L client owner repo df = Some f -> P f) ->
  Forall P (omap (retained L client owner repo) depFiles).
Proof.
  intros HP. apply Forall_forall. intros f Hf.
  apply list_elem_of_omap in Hf. destruct Hf as (df & _ & Hdf). eauto.
Qed.

(** C2. For every tree listing and content snapshot, AnalyzeDependencies
    returns a report; a detected manifest whose parse gave no dependency has no
    record in Files, no record of Files has an empty dependency list, and
    TotalDeps is the sum of the lengths of the dependency lists of the records
    of Files. *)
Theorem AnalyzeDependencies_drops_empty_manifests (L : analyzer.GoLib)
    (client : github.Client) (owner repo branch : string)
    (fileTree : list github.TreeEntry) :
  exists depFiles a,
    analyzer.findDependencyFiles fileTree = Some depFiles
    /\ analyzer.AnalyzeDependencies L client owner repo branch fileTree = Some a
    /\ (forall df content decoded t,
          In df depFiles ->
          github.GetFileContent client owner repo (analyzer.path df) = Some content ->
          analyzer.base64_DecodeString L content = Some decoded ->
          analyzer.parseByType L (analyzer.fileType df) decoded = Some ([], t) ->
          ~ In (analyzer.path df) (map analyzer.Filename (analyzer.Files a)))
    /\ Forall (fun f => analyzer.Dependencies f <> []) (analyzer.Files a)
    /\ analyzer.TotalDeps a = totalLength (analyzer.Files a).
Proof.
  destruct (AnalyzeDependencies_closed_form L client owner repo branch fileTree)
    as (depFiles & a & HdF & Ha & HF & HT & _).
  exists depFiles, a. split; [done|]. split; [done|].
  pose proof (findDependencyFiles_tagged _ _ HdF) as Htag.
  rewrite Forall_forall in Htag.
  split; [|split].
  - intros df content decoded t Hdf Hc Hd Hp Hin.
    apply in_map_iff in Hin. destruct Hin as (f & Hname & Hf).
    rewrite HF, <- list_elem_of_In, list_elem_of_omap in Hf.
    destruct Hf as (df' & Hdf' & Hret). rewrite <- list_elem_of_In in Hdf.
    apply retained_inv in Hret.
    destruct Hret as (Hfn & Hne & _ & content' & decoded' & Hc' & Hd' & Hp').
    assert (analyzer.path df' = analyzer.path df) as Hpath by congruence.
    assert (analyzer.fileType df' = analyzer.fileType df) as Htype
      by (apply tagged_same_path; auto).
    rewrite Hpath in Hc'. rewrite Htype in Hp'.
    assert (content' = content) as -> by congruence.
    assert (decoded' = decoded) as -> by congruence.
    rewrite Hp in Hp'. injection Hp' as Hdeps _. by apply Hne.
  - rewrite HF. apply retained_Forall. intros df f Hret.
    by destruct (retained_inv _ _ _ _ _ _ Hret) as (_ & Hne & _).
  - rewrite HT. apply totalCount_totalLength. rewrite HF.
    apply retained_Forall. intros df f Hret.
    by destruct (retained_inv _ _ _ _ _ _ Hret) as (_ & _ & Hcnt & _).
Qed.

(** The witness of C2: the Gemfile without a declaration leaves no record. *)
Lemma AnalyzeDependencies_drops_empty_manifests_witness :
  exists a,
    analyzer.AnalyzeDependencies (libWith (fun _ => None) twoGemfilesBase64 mergeSort)
      twoGemfilesClient "owner" "repo" "main" twoGemfiles = Some a
    /\ ~ In "Gemfile" (map analyzer.Filename (analyzer.Files a))
    /\ analyzer.TotalDeps a = totalLength (analyzer.Files a).
Proof.
  destruct (AnalyzeDependencies_drops_empty_manifests
              (libWith (fun _ => None) twoGemfilesBase64 mergeSort)
              twoGemfilesClient "owner" "repo" "main" twoGemfiles)
    as (depFiles & a & HdF & Ha & Hdrop & _ & Htotal).
  exists a. split; [exact Ha|]. split; [|exact Htotal].
  vm_compute in HdF. injection HdF as <-.
  apply (Hdrop {| analyzer.path := "Gemfile"; analyzer.fileType := "ruby" |}
               "IyBub3RoaW5nIGhlcmUK" ("# nothing here" +:+ str1 LF) "ruby").
  - by left.
  - reflexivity.
  - reflexivity.
  - vm_compute. reflexivity.
Defined.

(** C5. In every report of AnalyzeDependencies, the TotalCount of each
    record of Files is the length of its dependency list. *)
Theorem AnalyzeDependencies_TotalCount_is_length (L : analyzer.GoLib)
    (client : github.Client) (owner repo branch : string)
    (fileTree : list github.TreeEntry) :
  exists a,
    analyzer.AnalyzeDependencies L client owner repo branch fileTree = Some a
    /\ Forall (fun f => analyzer.TotalCount f
                        = Z.of_nat (length (analyzer.Dependencies f)))
              (analyzer.Files a).
Proof.
  destruct (AnalyzeDependencies_closed_form L client owner repo branch fileTree)
    as (depFiles & a & _ & Ha & HF & _).
  exists a. split; [done|]. rewrite HF. apply retained_Forall. intros df f Hret.
  by destruct (retained_inv _ _ _ _ _ _ Hret) as (_ & _ & Hcnt & _).
Qed.

(** C6. In every report of AnalyzeDependencies, Languages has no
    duplicate, holds exactly the tags of the retained records, and lists
    them in the order in which Files first shows each of them. *)
Theorem AnalyzeDependencies_Languages_first_seen (L : analyzer.GoLib)
    (client : github.Client) (owner repo branch : string)
    (fileTree : list github.TreeEntry) :
  exists a,
    analyzer.AnalyzeDependencies L client owner repo branch fileTree = Some a
    /\ NoDup (analyzer.Languages a)
    /\ (forall t, In t (analyzer.Languages a)
                  <-> In t (map analyzer.FileType (analyzer.Files a)))
    /\ analyzer.Languages a = firstSeen (map analyzer.FileType (analyzer.Files a)).
Proof.
  destruct (AnalyzeDependencies_closed_form L client owner repo branch fileTree)
    as (depFiles & a & _ & Ha & _ & _ & HL & _).
  exists a. split; [done|]. rewrite HL.
  split; [apply firstSeen_NoDup|]. split; [|done]. intros t. apply firstSeen_In.
Qed.

(** ** What the language and the library promise *)

Lemma ltb_leb (s1 s2 : string) : String.ltb s1 s2 = negb (String.leb s2 s1).
Proof.
  unfold String.ltb, String.leb. rewrite (String.compare_antisym s2 s1).
  by destruct (String.compare s1 s2).
Qed.

Lemma leb_trans (s1 s2 s3 : string) :
  String.leb s1 s2 = true -> String.leb s2 s3 = true -> String.leb s1 s3 = true.
Proof.
  intros H12 H23. apply Is_true_true.
  exact (transitivity (R := String.le) (Is_true_true_2 _ H12) (Is_true_true_2 _ H23)).
Qed.

Lemma lessByName_inOrder (a b : analyzer.Dependency) :
  inOrder analyzer.lessByName a b
  <-> String.leb (analyzer.Name a) (analyzer.Name b) = true.
Proof.
  unfold inOrder, analyzer.lessByName. rewrite ltb_leb. apply negb_false_iff.
Qed.

Lemma lessByName_ordered : orderedLess analyzer.lessByName.
Proof.
  unfold orderedLess, analyzer.lessByName. split; [|split].
  - intros a. rewrite ltb_leb. apply negb_false_iff, Is_true_true.
    exact (reflexivity (R := String.le) _).
  - intros a b c. rewrite !ltb_leb, !negb_true_iff. intros Hab Hbc.
    destruct (String.leb (analyzer.Name c) (analyzer.Name a)) eqn:Hca; [|done].
    destruct (String.leb_total (analyzer.Name a) (analyzer.Name b)) as [Hab'|]; [|congruence].
    pose proof (leb_trans _ _ _ Hca Hab'). congruence.
  - intros a b c. rewrite !ltb_leb, !negb_false_iff. intros Hba Hcb.
    by apply leb_trans with (analyzer.Name b).
Qed.

Lemma StronglySorted_impl {A : Type} (R1 R2 : relation A) (l : list A) :
  (forall a b, R1 a b -> R2 a b) -> StronglySorted R1 l -> StronglySorted R2 l.
Proof.
  intros HR. induction 1 as [|x l Hl IH Hx]; constructor; [done|].
  eapply Forall_impl; eauto.
Qed.

(** ** parsePackageJSON *)

Lemma parsePackageJSON_sorted_permutation (L : analyzer.GoLib) (content : string)
    (p : analyzer.pkg) :
  GoLib_ok L ->
  analyzer.json_Unmarshal L content = Some p ->
  exists deps,
    analyzer.parsePackageJSON L content = Some (deps, "npm")
    /\ deps ≡ₚ declared p
    /\ StronglySorted (inOrder analyzer.lessByName) deps.
Proof.
  intros (Hrange & Hperm & Hsorted) Hjson.
  unfold analyzer.parsePackageJSON. rewrite Hjson.
  eexists. split; [done|]. split; [|apply Hsorted, lessByName_ordered].
  rewrite Hperm. unfold analyzer.appendSection, declared, sectionEntries. cbn [app].
  rewrite <- app_assoc.
  repeat apply Permutation_app; apply Permutation_map, Hrange.
Qed.

(** C3. When the decode succeeds, the npm parser returns the entries of
    the three maps, each with the tag of its section, as one list in ascending
    order of name; for the maps {a: ^1.0} and {b: ~2.0} of the production and
    dev sections the list is exactly [{a,^1.0,production}; {b,~2.0,dev}]. *)
Theorem parsePackageJSON_merges_sorted_by_name (L : analyzer.GoLib) (content : string)
    (p : analyzer.pkg) :
  GoLib_ok L ->
  analyzer.json_Unmarshal L content = Some p ->
  exists deps,
    analyzer.parsePackageJSON L content = Some (deps, "npm")
    /\ deps ≡ₚ declared p
    /\ StronglySorted
         (fun a b => String.leb (analyzer.Name a) (analyzer.Name b) = true) deps
    /\ (analyzer.pkgDependencies p = {["a" := "^1.0"]} ->
        analyzer.pkgDevDependencies p = {["b" := "~2.0"]} ->
        analyzer.pkgPeerDeps p = ∅ ->
        deps = [analyzer.mkDep "a" "^1.0" "production"; analyzer.mkDep "b" "~2.0" "dev"]).
Proof.
  intros HL Hjson.
  destruct (parsePackageJSON_sorted_permutation L content p HL Hjson)
    as (deps & Hparse & Hperm & Hsorted).
  exists deps. split; [done|]. split; [done|].
  assert (StronglySorted
            (fun a b => String.leb (analyzer.Name a) (analyzer.Name b) = true) deps)
    as Hleb.
  { eapply StronglySorted_impl; [|exact Hsorted]. intros a b. apply lessByName_inOrder. }
  split; [done|]. intros Hprod Hdev Hpeer.
  unfold declared, sectionEntries in Hperm. rewrite Hprod, Hdev, Hpeer in Hperm.
  rewrite !map_to_list_singleton, map_to_list_empty in Hperm.
  cbn [map app fst snd] in Hperm.
  assert (analyzer.cleanVersion "^1.0" = "^1.0") as E1 by (vm_compute; reflexivity).
  assert (analyzer.cleanVersion "~2.0" = "~2.0") as E2 by (vm_compute; reflexivity).
  rewrite E1, E2 in Hperm. symmetry in Hperm.
  apply Permutation_length_2_inv in Hperm. destruct Hperm as [->| ->]; [done|].
  exfalso. apply StronglySorted_inv in Hleb. destruct Hleb as [_ Hhd].
  apply Forall_inv in Hhd. vm_compute in Hhd. discriminate.
Qed.

(** When no name is declared twice, the contract leaves one result:
    any two libraries that keep it and decode alike parse alike. *)
Lemma parsePackageJSON_determined_by_distinct_names (L1 L2 : analyzer.GoLib)
    (content : string) (p : analyzer.pkg) :
  GoLib_ok L1 -> GoLib_ok L2 ->
  analyzer.json_Unmarshal L1 content = Some p ->
  analyzer.json_Unmarshal L2 content = Some p ->
  NoDup (map analyzer.Name (declared p)) ->
  analyzer.parsePackageJSON L1 content = analyzer.parsePackageJSON L2 content.
Proof.
  intros H1 H2 J1 J2 Hnames.
  destruct (parsePackageJSON_sorted_permutation L1 content p H1 J1)
    as (deps1 & -> & P1 & S1).
  destruct (parsePackageJSON_sorted_permutation L2 content p H2 J2)
    as (deps2 & -> & P2 & S2).
  do 2 f_equal.
  apply (StronglySorted_unique_strong (inOrder analyzer.lessByName));
    [|done|done|by rewrite P1, P2].
  intros x1 x2 Hx1 Hx2 R12 R21.
  apply lessByName_inOrder in R12, R21.
  pose proof (String.leb_antisym _ _ R12 R21) as Hname.
  rewrite P1 in Hx1. rewrite P2 in Hx2. clear -Hnames Hx1 Hx2 Hname.
  induction (declared p) as [|d l IH]; [by apply elem_of_nil in Hx1|].
  cbn [map] in Hnames. apply NoDup_cons in Hnames as [Hd Hl].
  apply elem_of_cons in Hx1 as [->|Hx1]; apply elem_of_cons in Hx2 as [->|Hx2].
  - done.
  - exfalso. apply Hd. rewrite Hname. apply list_elem_of_In, in_map, list_elem_of_In, Hx2.
  - exfalso. apply Hd. rewrite <- Hname. apply list_elem_of_In, in_map, list_elem_of_In, Hx1.
  - by apply IH.
Qed.

(** ** Two libraries within the contract *)

Lemma inOrder_transitive {A : Type} (less : A -> A -> bool) :
  orderedLess less -> Transitive (inOrder less).
Proof. intros (_ & _ & Hneg) a b c Hab Hbc. unfold inOrder in *. eauto. Qed.

Lemma inOrder_total {A : Type} (less : A -> A -> bool) :
  orderedLess less -> Total (inOrder less).
Proof.
  intros (Hirr & Htrans & _) a b. unfold inOrder.
  destruct (less b a) eqn:Hba; [|by left]. right.
  destruct (less a b) eqn:Hab; [|done].
  rewrite <- (Hirr a). symmetry. eauto.
Qed.

Lemma mergeSort_ok (json : string -> option analyzer.pkg) (b64 : string -> option string) :
  GoLib_ok (libWith json b64 mergeSort).
Proof.
  split; [done|]. split; cbn [analyzer.sort_Slice libWith]; unfold mergeSort.
  - intros less l. apply merge_sort_Permutation.
  - intros less l Hless.
    pose proof (inOrder_transitive less Hless). pose proof (inOrder_total less Hless).
    by apply StronglySorted_merge_sort.
Qed.

Lemma mergeSortReversed_ok (json : string -> option analyzer.pkg)
    (b64 : string -> option string) :
  GoLib_ok (libWith json b64 mergeSortReversed).
Proof.
  split; [done|]. split; cbn [analyzer.sort_Slice libWith]; unfold mergeSortReversed.
  - intros less l. rewrite reverse_Permutation. apply merge_sort_Permutation.
  - intros less l Hless.
    pose proof (inOrder_transitive less Hless) as Htr.
    pose proof (inOrder_total less Hless) as Htot.
    apply Sorted_StronglySorted; [done|].
    apply (Sorted_reverse (flip (inOrder less))).
    apply Sorted_merge_sort. intros a b. destruct (Htot a b); [by right|by left].
Qed.

(** The witness of C3: a library that decodes the document of the claim. *)
Lemma parsePackageJSON_merges_sorted_by_name_witness :
  let L := libWith (decodesOnly smallManifestText smallManifest) Some mergeSort in
  GoLib_ok L
  /\ analyzer.json_Unmarshal L smallManifestText = Some smallManifest
  /\ analyzer.parsePackageJSON L smallManifestText
     = Some ([analyzer.mkDep "a" "^1.0" "production"; analyzer.mkDep "b" "~2.0" "dev"],
             "npm").
Proof.
  intros L.
  assert (GoLib_ok L) as HL by apply mergeSort_ok.
  assert (analyzer.json_Unmarshal L smallManifestText = Some smallManifest) as HJ
    by (vm_compute; reflexivity).
  split; [exact HL|]. split; [exact HJ|].
  destruct (parsePackageJSON_merges_sorted_by_name L smallManifestText smallManifest HL HJ)
    as (deps & Hparse & _ & _ & Hex).
  rewrite Hparse. by rewrite (Hex eq_refl eq_refl eq_refl).
Defined.

(** ** The order of entries with equal names *)

Lemma AnalyzeDependencies_one_npm (L : analyzer.GoLib) (client : github.Client)
    (owner repo branch content text : string) (deps : list analyzer.Dependency) :
  github.GetFileContent client owner repo "package.json" = Some content ->
  analyzer.base64_DecodeString L content = Some text ->
  analyzer.parsePackageJSON L text = Some (deps, "npm") ->
  deps <> [] ->
  analyzer.AnalyzeDependencies L client owner repo branch
    [{| github.Path := "package.json"; github.Type_ := "blob" |}]
  = Some {|
      analyzer.Files := [{|
        analyzer.Filename := "package.json";
        analyzer.FileType := "npm";
        analyzer.Dependencies := deps;
        analyzer.TotalCount := Z.of_nat (length deps)
      |}];
      analyzer.TotalDeps := Z.of_nat (length deps);
      analyzer.Languages := ["npm"];
      analyzer.HasLockFile := false
    |}.
Proof.
  intros Hfetch Hb64 Hparse Hne. unfold analyzer.AnalyzeDependencies.
  assert (analyzer.findDependencyFiles
            [{| github.Path := "package.json"; github.Type_ := "blob" |}]
          = Some [{| analyzer.path := "package.json"; analyzer.fileType := "npm" |}])
    as -> by (vm_compute; reflexivity).
  assert (analyzer.hasLockFile
            [{| github.Path := "package.json"; github.Type_ := "blob" |}]
          = Some false) as -> by (vm_compute; reflexivity).
  cbn [mbind option_bind foldM]. unfold analyzer.AnalyzeDependencies_file.
  cbn [analyzer.path analyzer.fileType]. rewrite Hfetch, Hb64.
  unfold analyzer.parseByType.
  replace (String.eqb "npm" "npm") with true by reflexivity.
  rewrite Hparse. cbn [mbind option_bind fst snd].
  destruct deps as [|d deps]; [done|]. reflexivity.
Qed.

(** C8 (the code departs from the claim).  Take a tree with one
    package.json whose content decodes to [twiceDeclared].  Two libraries that
    both keep the contract of [range] and of [sort.Slice], and that agree on
    every decoder, give reports that differ in the order of the two entries
    named m. *)
Theorem AnalyzeDependencies_equal_names_order_not_fixed
    (json : string -> option analyzer.pkg) (b64 : string -> option string)
    (content text : string) :
  b64 content = Some text ->
  json text = Some twiceDeclared ->
  let client := {| github.GetFileContent := fun _ _ _ => Some content |} in
  let tree := [{| github.Path := "package.json"; github.Type_ := "blob" |}] in
  let L1 := libWith json b64 mergeSort in
  let L2 := libWith json b64 mergeSortReversed in
  GoLib_ok L1 /\ GoLib_ok L2
  /\ exists a1 a2 f1 f2,
       analyzer.AnalyzeDependencies L1 client "owner" "repo" "main" tree = Some a1
       /\ analyzer.AnalyzeDependencies L2 client "owner" "repo" "main" tree = Some a2
       /\ a1 <> a2
       /\ analyzer.Files a1 = [f1] /\ analyzer.Files a2 = [f2]
       /\ named "m" (analyzer.Dependencies f1)
          = [analyzer.mkDep "m" "2.0" "dev"; analyzer.mkDep "m" "1.0" "production"]
       /\ named "m" (analyzer.Dependencies f2)
          = [analyzer.mkDep "m" "1.0" "production"; analyzer.mkDep "m" "2.0" "dev"].
Proof.
  intros Hb64 Hjson client tree L1 L2.
  split; [apply mergeSort_ok|]. split; [apply mergeSortReversed_ok|].
  assert (exists deps1, analyzer.parsePackageJSON L1 text = Some (deps1, "npm")
            /\ named "m" deps1
               = [analyzer.mkDep "m" "2.0" "dev"; analyzer.mkDep "m" "1.0" "production"])
    as (deps1 & Hp1 & Hd1).
  { unfold analyzer.parsePackageJSON. cbn [analyzer.json_Unmarshal L1 libWith].
    rewrite Hjson. eexists. split; [reflexivity|]. vm_compute. reflexivity. }
  assert (exists deps2, analyzer.parsePackageJSON L2 text = Some (deps2, "npm")
            /\ named "m" deps2
               = [analyzer.mkDep "m" "1.0" "production"; analyzer.mkDep "m" "2.0" "dev"])
    as (deps2 & Hp2 & Hd2).
  { unfold analyzer.parsePackageJSON. cbn [analyzer.json_Unmarshal L2 libWith].
    rewrite Hjson. eexists. split; [reflexivity|]. vm_compute. reflexivity. }
  assert (deps1 <> []) as Hne1 by (intros ->; discriminate Hd1).
  assert (deps2 <> []) as Hne2 by (intros ->; discriminate Hd2).
  eexists _, _, _, _.
  split; [by apply (AnalyzeDependencies_one_npm L1 client _ _ _ content text deps1)|].
  split; [by apply (AnalyzeDependencies_one_npm L2 client _ _ _ content text deps2)|].
  split; [|by cbn [analyzer.Files analyzer.Dependencies]].
  intros Heq. injection Heq as Hdeps _. rewrite Hdeps in Hd1. rewrite Hd1 in Hd2.
  discriminate Hd2.
Qed.

(** The witness of C8: the decoders of the one document. *)
Lemma AnalyzeDependencies_equal_names_order_not_fixed_witness :
  let json := decodesOnly twiceDeclaredText twiceDeclared in
  let b64 := decodesOnly twiceDeclaredBase64 twiceDeclaredText in
  let client := {| github.GetFileContent := fun _ _ _ => Some twiceDeclaredBase64 |} in
  let tree := [{| github.Path := "package.json"; github.Type_ := "blob" |}] in
  b64 twiceDeclaredBase64 = Some twiceDeclaredText
  /\ json twiceDeclaredText = Some twiceDeclared
  /\ analyzer.AnalyzeDependencies (libWith json b64 mergeSort)
       client "owner" "repo" "main" tree
     <> analyzer.AnalyzeDependencies (libWith json b64 mergeSortReversed)
          client "owner" "repo" "main" tree.
Proof.
  intros json b64 client tree.
  assert (b64 twiceDeclaredBase64 = Some twiceDeclaredText) as H1
    by (vm_compute; reflexivity).
  assert (json twiceDeclaredText = Some twiceDeclared) as H2
    by (vm_compute; reflexivity).
  split; [exact H1|]. split; [exact H2|].
  destruct (AnalyzeDependencies_equal_names_order_not_fixed
              json b64 twiceDeclaredBase64 twiceDeclaredText H1 H2)
    as (_ & _ & a1 & a2 & f1 & f2 & E1 & E2 & Hne & _).
  fold client tree in E1, E2. rewrite E1, E2. congruence.
Defined.

(** ** The matcher on a text of known shape *)

Lemma length_append (a b : string) :
  String.length (a +:+ b) = (String.length a + String.length b)%nat.
Proof. induction a as [|c a IH]; [done|]. rewrite append_cons. simpl. by rewrite IH. Qed.

Lemma substring_prefix (a b : string) : String.substring 0 (String.length a) (a +:+ b) = a.
Proof.
  induction a as [|c a IH]; [by destruct b|]. rewrite append_cons. simpl. by rewrite IH.
Qed.

Lemma consumed_append (a b : string) : regexp.consumed (a +:+ b) b = a.
Proof.
  unfold regexp.consumed. rewrite length_append.
  replace (String.length a + String.length b - String.length b)%nat
    with (String.length a) by lia.
  apply substring_prefix.
Qed.

Section Star.
Context {R : Type} (p : ascii -> bool) (k : string -> option R).

Lemma star_stop (s : string) : headNot p s -> regexp.star p s k = k s.
Proof. destruct s as [|c s]; simpl; [done|]. by intros ->. Qed.

(** The longest run is tried first: when what follows it matches, that is
    the result. *)
Lemma star_greedy (w s : string) (r : R) :
  allBytes p w -> headNot p s -> k s = Some r -> regexp.star p (w +:+ s) k = Some r.
Proof.
  intros Hw Hs Hk. induction w as [|c w IH].
  - rewrite append_nil_l, star_stop; done.
  - destruct Hw as [Hc Hw]. rewrite append_cons. simpl. rewrite Hc, IH; done.
Qed.

(** When what follows can match neither after the longest run nor at any
    byte of the class, nothing matches. *)
Lemma star_none (w s : string) :
  allBytes p w -> headNot p s -> k s = None ->
  (forall c t, p c = true -> k (String c t) = None) ->
  regexp.star p (w +:+ s) k = None.
Proof.
  intros Hw Hs Hk Hp. induction w as [|c w IH].
  - rewrite append_nil_l, star_stop; done.
  - destruct Hw as [Hc Hw]. rewrite append_cons. simpl. rewrite Hc, IH; auto.
Qed.

End Star.

(** ** parseGemfile *)

Lemma perl_space_not_comma (c : ascii) : regexp.perl_space c = true -> Ascii.eqb "," c = false.
Proof.
  intros Hc. destruct (Ascii.eqb_spec "," c) as [<-|]; [|done]. discriminate Hc.
Qed.

Lemma perl_space_not_quote (c : ascii) : regexp.perl_space c = true -> analyzer.quote c = false.
Proof.
  intros Hc. unfold analyzer.quote.
  destruct (Ascii.eqb_spec c SQ) as [->|]; [discriminate Hc|].
  destruct (Ascii.eqb_spec c DQ) as [->|]; [discriminate Hc|done].
Qed.

Lemma versionGroup_fails {R : Type} (n : nat) (rest : string) (c : regexp.captures)
    (k : string -> regexp.captures -> option R) :
  noVersionArgument rest -> regexp.run n analyzer.gemVersionGroup rest c k = None.
Proof.
  intros (ws1 & r & -> & Hws1 & Hr).
  unfold analyzer.gemVersionGroup. cbn [regexp.cat regexp.run].
  apply star_none; [done| | |].
  - destruct Hr as [Hr|(ws2 & r2 & -> & _)]; [|reflexivity].
    destruct r as [|b r]; [done|]. cbn [headNot] in *.
    by apply orb_false_iff in Hr as [? _].
  - destruct Hr as [Hr|(ws2 & r2 & -> & Hws2 & Hr2)].
    + destruct r as [|b r]; [done|]. cbn [headNot] in Hr.
      apply orb_false_iff in Hr as [_ Hb]. by rewrite Ascii.eqb_sym, Hb.
    + rewrite Ascii.eqb_refl. apply star_none; [done| | |].
      * destruct Hr2 as [Hr2|(q3 & q4 & r3 & -> & Hq3 & _)].
        -- destruct r2 as [|b r2]; [done|]. cbn [headNot] in *.
           by apply orb_false_iff in Hr2 as [? _].
        -- cbn [headNot]. destruct (regexp.perl_space q3) eqn:E; [|done].
           apply perl_space_not_quote in E. congruence.
      * destruct Hr2 as [Hr2|(q3 & q4 & r3 & -> & Hq3 & Hq4)].
        -- destruct r2 as [|b r2]; [done|]. cbn [headNot] in Hr2.
           apply orb_false_iff in Hr2 as [_ Hb]. by rewrite Hb.
        -- rewrite Hq3. unfold analyzer.notQuote. by rewrite Hq4.
      * intros b t Hb. by rewrite (perl_space_not_quote b Hb).
  - intros b t Hb. by rewrite (perl_space_not_comma b Hb).
Qed.

Lemma quote_not_perl_space (c : ascii) : analyzer.quote c = true -> regexp.perl_space c = false.
Proof.
  intros Hc. destruct (regexp.perl_space c) eqn:E; [|done].
  apply perl_space_not_quote in E. congruence.
Qed.

Lemma gemPattern_matchAt (n : nat) (ws : string) (q1 : ascii) (name : string) (q2 : ascii)
    (rest : string) :
  ws <> EmptyString -> allBytes regexp.perl_space ws ->
  analyzer.quote q1 = true -> analyzer.quote q2 = true ->
  name <> EmptyString -> allBytes analyzer.notQuote name ->
  noVersionArgument rest ->
  exists whole,
    regexp.matchAt n analyzer.gemPattern (gemDeclaration ws q1 name q2 rest)
    = Some [(0%nat, whole); (1%nat, name)].
Proof.
  intros Hws0 Hws Hq1 Hq2 Hname0 Hname Hrest.
  destruct ws as [|w ws]; [done|]. destruct Hws as [Hw Hws].
  destruct name as [|nc name]; [done|]. destruct Hname as [Hnc Hname].
  eexists. unfold regexp.matchAt, analyzer.gemPattern, gemDeclaration.
  cbn [regexp.cat regexp.run].
  change ("gem" +:+ ?x) with (String "g" (String "e" (String "m" x))).
  cbv beta iota. rewrite !Ascii.eqb_refl, append_cons. cbv beta iota. rewrite Hw.
  apply star_greedy; [done|by apply quote_not_perl_space|].
  rewrite Hq1, append_cons. cbv beta iota. rewrite Hnc.
  apply star_greedy; [done|by unfold headNot, analyzer.notQuote; rewrite Hq2|].
  rewrite Hq2, versionGroup_fails by done.
  change (String nc (name +:+ String q2 rest)) with (String nc name +:+ String q2 rest).
  rewrite consumed_append. reflexivity.
Qed.

Lemma search_here (n : nat) (r : regexp.Regexp) (s : string) (c : regexp.captures) :
  regexp.matchAt n r s = Some c -> regexp.search n r s = Some c.
Proof. intros H. destruct s; simpl; by rewrite H. Qed.

Lemma parseGemfile_line_default (deps : list analyzer.Dependency) (line0 ws : string)
    (q1 : ascii) (name : string) (q2 : ascii) (rest : string) :
  strings.TrimSpace line0 = gemDeclaration ws q1 name q2 rest ->
  ws <> EmptyString -> allBytes regexp.perl_space ws ->
  analyzer.quote q1 = true -> analyzer.quote q2 = true ->
  name <> EmptyString -> allBytes analyzer.notQuote name ->
  noVersionArgument rest ->
  analyzer.parseGemfile_line deps line0
  = Some (deps ++ [analyzer.mkDep name "*" "production"]).
Proof.
  intros Htrim Hws0 Hws Hq1 Hq2 Hname0 Hname Hrest.
  unfold analyzer.parseGemfile_line. rewrite Htrim.
  destruct (gemPattern_matchAt
              (String.length (gemDeclaration ws q1 name q2 rest))
              ws q1 name q2 rest Hws0 Hws Hq1 Hq2 Hname0 Hname Hrest) as [whole Hm].
  unfold regexp.FindStringSubmatch. rewrite (search_here _ _ _ _ Hm).
  assert (strings.HasPrefix (gemDeclaration ws q1 name q2 rest) "#" = false) as ->
    by reflexivity.
  assert (String.eqb (gemDeclaration ws q1 name q2 rest) EmptyString = false) as ->
    by reflexivity.
  reflexivity.
Qed.

Lemma parseGemfile_line_production (deps deps' : list analyzer.Dependency) (line0 : string) :
  analyzer.parseGemfile_line deps line0 = Some deps' ->
  Forall (fun d => analyzer.Type_ d = "production") deps ->
  Forall (fun d => analyzer.Type_ d = "production") deps'.
Proof.
  unfold analyzer.parseGemfile_line.
  set (line := strings.TrimSpace line0).
  set (m := regexp.FindStringSubmatch 2 analyzer.gemPattern line).
  destruct (strings.HasPrefix line "#" || String.eqb line EmptyString);
    [by intros [= <-]|].
  destruct (2 <=? length m)%nat; [|by intros [= <-]].
  destruct (m !! 1%nat) as [name|]; cbn [mbind option_bind]; [|done].
  destruct (3 <=? length m)%nat.
  - destruct (m !! 2%nat) as [m2|]; cbn [mbind option_bind]; [|done].
    intros [= <-] Hdeps. apply Forall_app. split; [done|]. by repeat constructor.
  - cbn [mbind option_bind].
    intros [= <-] Hdeps. apply Forall_app. split; [done|]. by repeat constructor.
Qed.

Lemma parseGemfile_production (content : string) :
  exists deps,
    analyzer.parseGemfile content = Some (deps, "ruby")
    /\ Forall (fun d => analyzer.Type_ d = "production") deps.
Proof.
  destruct (parseGemfile_total content) as [deps Hdeps]. exists deps. split; [done|].
  unfold analyzer.parseGemfile in Hdeps.
  destruct (foldM analyzer.parseGemfile_line [] (strings.Split content LF))
    as [deps'|] eqn:Hfold; cbn [mbind option_bind] in Hdeps; [|done].
  injection Hdeps as <-.
  revert Hfold. apply (foldM_inv (Forall (fun d => analyzer.Type_ d = "production")));
    [|constructor].
  intros a x a' Ha Hstep. by eapply parseGemfile_line_production.
Qed.

Lemma parseGemfile_line_acc (deps : list analyzer.Dependency) (line0 : string) :
  analyzer.parseGemfile_line deps line0
  = (d ← analyzer.parseGemfile_line [] line0; Some (deps ++ d)).
Proof.
  unfold analyzer.parseGemfile_line.
  set (line := strings.TrimSpace line0).
  set (m := regexp.FindStringSubmatch 2 analyzer.gemPattern line).
  destruct (strings.HasPrefix line "#" || String.eqb line EmptyString);
    [by cbn; rewrite app_nil_r|].
  destruct (2 <=? length m)%nat; [|by cbn; rewrite app_nil_r].
  destruct (m !! 1%nat) as [name|]; cbn [mbind option_bind]; [|done].
  destruct (3 <=? length m)%nat; [|done].
  by destruct (m !! 2%nat) as [m2|].
Qed.

(** The parser on a text given by its lines. *)
Lemma parseGemfile_lines (ls : list string) :
  Forall (freeOf LF) ls ->
  analyzer.parseGemfile (joinLines ls)
  = (deps ← foldM analyzer.parseGemfile_line [] ls; Some (deps, "ruby")).
Proof.
  intros Hls. destruct ls as [|l ls]; [reflexivity|].
  unfold analyzer.parseGemfile. by rewrite Split_joinLines.
Qed.

(** C9. In a Gemfile of any number of lines, a line that holds a gem
    declaration (gem, white space, a quoted name) followed by no quoted
    second argument, or by an empty one, yields one entry with the version *,
    placed between the entries of the lines before it and those of the lines
    after it; every entry that the Gemfile parser produces has the type
    production; and the two declarations of the spec give the results it
    states. *)
Theorem parseGemfile_version_defaults_to_star :
  (forall (content : string) (before after : list string) (line0 ws : string)
          (q1 : ascii) (name : string) (q2 : ascii) (rest : string),
      strings.Split content LF = before ++ line0 :: after ->
      strings.TrimSpace line0 = gemDeclaration ws q1 name q2 rest ->
      ws <> EmptyString -> allBytes regexp.perl_space ws ->
      analyzer.quote q1 = true -> analyzer.quote q2 = true ->
      name <> EmptyString -> allBytes analyzer.notQuote name ->
      noVersionArgument rest ->
      exists d1 d2,
        analyzer.parseGemfile (joinLines before) = Some (d1, "ruby")
        /\ analyzer.parseGemfile (joinLines after) = Some (d2, "ruby")
        /\ analyzer.parseGemfile content
           = Some (d1 ++ analyzer.mkDep name "*" "production" :: d2, "ruby"))
  /\ (forall content,
        exists deps,
          analyzer.parseGemfile content = Some (deps, "ruby")
          /\ Forall (fun d => analyzer.Type_ d = "production") deps)
  /\ analyzer.parseGemfile (dq "gem 'rails', '7.0'")
     = Some ([analyzer.mkDep "rails" "7.0" "production"], "ruby")
  /\ analyzer.parseGemfile (dq "gem 'rails', '7.0'" +:+ str1 LF)
     = Some ([analyzer.mkDep "rails" "7.0" "production"], "ruby")
  /\ analyzer.parseGemfile (dq "gem 'pry'")
     = Some ([analyzer.mkDep "pry" "*" "production"], "ruby")
  /\ analyzer.parseGemfile (dq "gem 'pry'" +:+ str1 LF)
     = Some ([analyzer.mkDep "pry" "*" "production"], "ruby").
Proof.
  split; [|split; [apply parseGemfile_production|repeat split; vm_compute; reflexivity]].
  intros content before after line0 ws q1 name q2 rest
         Hlines Htrim Hws0 Hws Hq1 Hq2 Hname0 Hname Hrest.
  pose proof (Split_lines_freeOf content LF) as Hfree. rewrite Hlines in Hfree.
  apply Forall_app in Hfree as [Hbefore Hfree].
  apply Forall_cons in Hfree as [_ Hafter].
  rewrite !parseGemfile_lines by done.
  unfold analyzer.parseGemfile. rewrite Hlines, foldM_app.
  destruct (foldM_total analyzer.parseGemfile_line [] before parseGemfile_line_total)
    as [d1 E1].
  destruct (foldM_total analyzer.parseGemfile_line [] after parseGemfile_line_total)
    as [d2 E2].
  exists d1, d2. rewrite E1, E2. cbn [mbind option_bind foldM].
  split; [done|]. split; [done|].
  rewrite (parseGemfile_line_default d1 line0 ws q1 name q2 rest) by done.
  cbn [mbind option_bind].
  rewrite (foldM_acc _ parseGemfile_line_acc after), E2. cbn [mbind option_bind].
  by rewrite <- app_assoc.
Qed.

(** The witness of C9: the last line of a Gemfile of five lines, which no
    LF ends and whose second argument is not quoted; and the first line of a
    Gemfile of two lines, whose second argument is empty. *)
Lemma parseGemfile_version_defaults_to_star_witness :
  analyzer.parseGemfile
    (dq "source 'https://rubygems.org'" +:+ str1 LF
     +:+ str1 LF
     +:+ dq "gem 'rails', '7.0'" +:+ str1 LF
     +:+ dq "  gem 'pry', ''" +:+ str1 LF
     +:+ dq "gem  'puma' , require: false")
  = Some ([analyzer.mkDep "rails" "7.0" "production";
           analyzer.mkDep "pry" "*" "production";
           analyzer.mkDep "puma" "*" "production"], "ruby")
  /\ analyzer.parseGemfile
       (dq "  gem 'pry', ''" +:+ str1 LF +:+ dq "gem 'rails', '7.0'" +:+ str1 LF)
     = Some ([analyzer.mkDep "pry" "*" "production";
              analyzer.mkDep "rails" "7.0" "production"], "ruby").
Proof.
  split.
  - destruct (proj1 parseGemfile_version_defaults_to_star
                (dq "source 'https://rubygems.org'" +:+ str1 LF
                 +:+ str1 LF
                 +:+ dq "gem 'rails', '7.0'" +:+ str1 LF
                 +:+ dq "  gem 'pry', ''" +:+ str1 LF
                 +:+ dq "gem  'puma' , require: false")
                [dq "source 'https://rubygems.org'"; EmptyString;
                 dq "gem 'rails', '7.0'"; dq "  gem 'pry', ''"]
                []
                (dq "gem  'puma' , require: false") "  " DQ "puma" DQ " , require: false")
      as (d1 & d2 & H1 & H2 & H3).
    + vm_compute. reflexivity.
    + vm_compute. reflexivity.
    + discriminate.
    + vm_compute. auto.
    + reflexivity.
    + reflexivity.
    + discriminate.
    + vm_compute. auto.
    + exists " ", ", require: false". split; [reflexivity|]. split; [by split|].
      right. exists " ", "require: false". split; [reflexivity|]. split; [by split|].
      left. reflexivity.
    + vm_compute in H1, H2. injection H1 as <-. injection H2 as <-. exact H3.
  - destruct (proj1 parseGemfile_version_defaults_to_star
                (dq "  gem 'pry', ''" +:+ str1 LF +:+ dq "gem 'rails', '7.0'" +:+ str1 LF)
                []
                [dq "gem 'rails', '7.0'"; EmptyString]
                (dq "  gem 'pry', ''") " " DQ "pry" DQ (dq ", ''"))
      as (d1 & d2 & H1 & H2 & H3).
    + vm_compute. reflexivity.
    + vm_compute. reflexivity.
    + discriminate.
    + vm_compute. auto.
    + reflexivity.
    + reflexivity.
    + discriminate.
    + vm_compute. auto.
    + exists EmptyString, (dq ", ''"). split; [reflexivity|]. split; [exact I|].
      right. exists " ", (dq "''"). split; [reflexivity|]. split; [by split|].
      right. exists DQ, DQ, EmptyString. by repeat split.
    + vm_compute in H1, H2. injection H1 as <-. injection H2 as <-. exact H3.
Defined.

(** ** The exporters *)

(** The sum of two [int]s is the sum of the integers when that is an
    [int], and stays an [int] when it is not. *)
Lemma int_add_exact (a b : Z) :
  (- 2 ^ 63 <= a + b < 2 ^ 63)%Z -> ui.int_add a b = (a + b)%Z.
Proof. intros Hab. unfold ui.int_add. rewrite Z.mod_small; lia. Qed.

Lemma int_add_range (a b : Z) : (- 2 ^ 63 <= ui.int_add a b < 2 ^ 63)%Z.
Proof.
  unfold ui.int_add. pose proof (Z.mod_pos_bound (a + b + 2 ^ 63) (2 ^ 64)). lia.
Qed.

Example int_add_wraps : ui.int_add (2 ^ 63 - 1) 1 = (- 2 ^ 63)%Z.
Proof. reflexivity. Qed.

Lemma append_assoc (a b c : string) : (a +:+ b) +:+ c = a +:+ (b +:+ c).
Proof. induction a as [|x a IH]; [done|]. rewrite !append_cons. by rewrite IH. Qed.

Lemma append_nil_r (a : string) : a +:+ EmptyString = a.
Proof. induction a as [|x a IH]; [done|]. rewrite append_cons. by rewrite IH. Qed.

Lemma contributorLines_snoc (i : nat) (cs : list github.Contributor) (c : github.Contributor) :
  contributorLines i (cs ++ [c])
  = contributorLines i cs +:+ ui.contributorLine (i + length cs) c.
Proof.
  revert i. induction cs as [|c0 cs IH]; intros i; cbn [app contributorLines length].
  - by rewrite append_nil_r, append_nil_l, Nat.add_0_r.
  - rewrite IH, append_assoc. do 3 f_equal. lia.
Qed.

Lemma maxContribs_min (data : ui.AnalysisResult) :
  ui.maxContribs data = min 10 (length (ui.Contributors data)).
Proof.
  unfold ui.maxContribs.
  destruct (Nat.ltb_spec (length (ui.Contributors data)) 10); lia.
Qed.

Lemma take_maxContribs (data : ui.AnalysisResult) :
  take (ui.maxContribs data) (ui.Contributors data) = take 10 (ui.Contributors data).
Proof.
  rewrite maxContribs_min.
  destruct (Nat.le_ge_cases 10 (length (ui.Contributors data))) as [Hle|Hge].
  - by rewrite Nat.min_l.
  - rewrite Nat.min_r by done. by rewrite !take_ge.
Qed.

Lemma ExportJSON_loop (data : ui.AnalysisResult) (n : nat) :
  (n <= length (ui.Contributors data))%nat ->
  foldM (ui.ExportJSON_contributor data) [] (seq 0 n)
  = Some (map contributorExport (take n (ui.Contributors data))).
Proof.
  induction n as [|n IH]; intros Hn; [done|].
  rewrite seq_S, foldM_app, IH by lia. cbn [mbind option_bind foldM plus].
  destruct (lookup_lt_is_Some_2 (ui.Contributors data) n) as [c Hc]; [lia|].
  unfold ui.ExportJSON_contributor. rewrite Hc. cbn [mbind option_bind].
  by rewrite (take_S_r _ _ _ Hc), map_app.
Qed.

Lemma ExportMarkdown_loop (data : ui.AnalysisResult) (md : string) (n : nat) :
  (n <= length (ui.Contributors data))%nat ->
  foldM (ui.ExportMarkdown_contributor data) md (seq 0 n)
  = Some (md +:+ contributorLines 0 (take n (ui.Contributors data))).
Proof.
  induction n as [|n IH]; intros Hn.
  - cbn [seq foldM take contributorLines]. by rewrite append_nil_r.
  - rewrite seq_S, foldM_app, IH by lia. cbn [mbind option_bind foldM plus].
    destruct (lookup_lt_is_Some_2 (ui.Contributors data) n) as [c Hc]; [lia|].
    unfold ui.ExportMarkdown_contributor. rewrite Hc. cbn [mbind option_bind].
    rewrite (take_S_r _ _ _ Hc), contributorLines_snoc, append_assoc.
    rewrite length_take_le by lia. done.
Qed.

Lemma ExportJSON_closed_form (H : ui.Host) (data : ui.AnalysisResult) (filename : string) :
  ui.ExportJSON H data filename =
    (repo ← ui.Repo data;
     if ui.os_Create H filename
     then Some (ui.Written (ui.ExportJSON_export H data repo
                              (map contributorExport (take 10 (ui.Contributors data)))))
     else Some ui.CreateError).
Proof.
  unfold ui.ExportJSON. rewrite ExportJSON_loop by (rewrite maxContribs_min; lia).
  by rewrite take_maxContribs.
Qed.

Lemma ExportMarkdown_closed_form (H : ui.Host) (data : ui.AnalysisResult)
    (filename : string) :
  ui.ExportMarkdown H data filename =
    (if negb (ui.os_Create H filename) then Some ui.CreateError
     else
       repo ← ui.Repo data;
       Some (ui.Written (ui.ExportMarkdown_head H data repo
                         +:+ contributorLines 0 (take 10 (ui.Contributors data))))).
Proof.
  unfold ui.ExportMarkdown. destruct (negb (ui.os_Create H filename)); [done|].
  destruct (ui.Repo data) as [repo|]; cbn [mbind option_bind]; [|done].
  rewrite ExportMarkdown_loop by (rewrite maxContribs_min; lia).
  by rewrite take_maxContribs.
Qed.

(** C10. Both exporters show the first min(10, len) contributors, in
    their order, and nothing of the later ones: with a repository at hand and
    a file that can be created, the document of ExportJSON lists exactly these
    and the text of ExportMarkdown ends with exactly their lines; and replacing
    the contributors by any list with the same first ten (and, for the
    Markdown text, which prints the count, the same length) changes neither
    export. *)
Theorem exports_show_first_ten_contributors (H : ui.Host) (data : ui.AnalysisResult)
    (filename : string) :
  let top := take 10 (ui.Contributors data) in
  length top = min 10 (length (ui.Contributors data))
  /\ (forall repo,
        ui.Repo data = Some repo -> ui.os_Create H filename = true ->
        exists doc md,
          ui.ExportJSON H data filename = Some (ui.Written doc)
          /\ ui.ExportData.TopContributors doc = map contributorExport top
          /\ ui.ExportMarkdown H data filename = Some (ui.Written md)
          /\ md = ui.ExportMarkdown_head H data repo +:+ contributorLines 0 top)
  /\ (forall cs',
        take 10 cs' = top ->
        ui.ExportJSON H (withContributors data cs') filename
        = ui.ExportJSON H data filename)
  /\ (forall cs',
        take 10 cs' = top -> length cs' = length (ui.Contributors data) ->
        ui.ExportMarkdown H (withContributors data cs') filename
        = ui.ExportMarkdown H data filename).
Proof.
  intros top. split; [apply length_take|]. split; [|split].
  - intros repo Hrepo Hcreate. eexists _, _.
    rewrite ExportJSON_closed_form, ExportMarkdown_closed_form, Hrepo, Hcreate.
    cbn [mbind option_bind negb]. done.
  - intros cs' Htop. rewrite !ExportJSON_closed_form.
    cbn [withContributors ui.Repo ui.Contributors]. fold top. rewrite Htop. done.
  - intros cs' Htop Hlen. rewrite !ExportMarkdown_closed_form.
    cbn [withContributors ui.Repo ui.Contributors]. fold top. rewrite Htop.
    unfold ui.ExportMarkdown_head.
    cbn [withContributors ui.Repo ui.Contributors ui.Commits ui.Languages
         ui.HealthScore ui.BusFactor ui.BusRisk ui.MaturityScore ui.MaturityLevel].
    rewrite Hlen. done.
Qed.

(** The witness of C10: of twelve contributors, ten are exported. *)
Lemma exports_show_first_ten_contributors_witness :
  exists doc md,
    ui.ExportJSON plainHost sampleResult "out.json" = Some (ui.Written doc)
    /\ map ui.ContributorExport.Login (ui.ExportData.TopContributors doc)
       = ["dev1"; "dev2"; "dev3"; "dev4"; "dev5"; "dev6"; "dev7"; "dev8"; "dev9"; "dev10"]
    /\ ui.ExportMarkdown plainHost sampleResult "out.md" = Some (ui.Written md)
    /\ strings.Contains md "10. dev10 (90 commits)" = true
    /\ strings.Contains md "dev11" = false.
Proof.
  destruct (proj1 (proj2 (exports_show_first_ten_contributors
                            plainHost sampleResult "out.json"))
              _ eq_refl eq_refl) as (doc & _ & HJ & HT & _).
  destruct (proj1 (proj2 (exports_show_first_ten_contributors
                            plainHost sampleResult "out.md"))
              _ eq_refl eq_refl) as (_ & md & _ & _ & HM & Hmd).
  exists doc, md. split; [exact HJ|]. split; [by rewrite HT|].
  split; [exact HM|]. rewrite Hmd. split; vm_compute; reflexivity.
Defined.

(** ** The parsers on the sample inputs of the specification *)

Example parseGoMod_block_sample :
  analyzer.parseGoMod
    ("module example.org/m" +:+ str1 LF +:+ "require (" +:+ str1 LF
     +:+ str1 "009" +:+ "github.com/x/y v1.2.3 // indirect" +:+ str1 LF
     +:+ str1 "009" +:+ "github.com/p/q v0.1.0" +:+ str1 LF +:+ ")" +:+ str1 LF)
  = Some ([analyzer.mkDep "github.com/x/y" "v1.2.3" "indirect";
           analyzer.mkDep "github.com/p/q" "v0.1.0" "production"], "go").
Proof. vm_compute. reflexivity. Qed.

Example parseRequirementsTxt_sample :
  analyzer.parseRequirementsTxt
    ("flask==2.0" +:+ str1 LF +:+ "# comment" +:+ str1 LF +:+ "requests" +:+ str1 LF)
  = Some ([analyzer.mkDep "flask" "==2.0" "production";
           analyzer.mkDep "requests" "*" "production"], "python").
Proof. vm_compute. reflexivity. Qed.

Example parseCargoToml_sample :
  analyzer.parseCargoToml
    ("[dependencies]" +:+ str1 LF +:+ dq "serde = '1.0'" +:+ str1 LF
     +:+ "[dev-dependencies]" +:+ str1 LF +:+ dq "mockall = '0.11'" +:+ str1 LF)
  = Some ([analyzer.mkDep "serde" "1.0" "production";
           analyzer.mkDep "mockall" "0.11" "dev"], "rust").
Proof. vm_compute. reflexivity. Qed.

Example hasLockFile_is_case_sensitive :
  analyzer.hasLockFile [{| github.Path := "web/Yarn.lock"; github.Type_ := "blob" |}]
  = Some false
  /\ analyzer.hasLockFile [{| github.Path := "web/yarn.lock"; github.Type_ := "blob" |}]
     = Some true.
Proof. split; vm_compute; reflexivity. Qed.

Example TrimSpace_sample :
  strings.TrimSpace ("  require ( " +:+ str1 "009" +:+ str1 "194" +:+ str1 "160")
  = "require (".
Proof. vm_compute. reflexivity. Qed.

Example Fields_sample :
  strings.Fields (" a  b" +:+ str1 "009" +:+ "c ") = ["a"; "b"; "c"].
Proof. vm_compute. reflexivity. Qed.

(** * Further properties of the code *)

(** ** The detector *)

Lemma findDependencyFiles_entry_detected (files : list analyzer.depFileInfo)
    (e : github.TreeEntry) :
  analyzer.findDependencyFiles_entry files e
  = Some (match detected e with Some df => files ++ [df] | None => files end).
Proof.
  unfold analyzer.findDependencyFiles_entry, detected.
  destruct (String.eqb (github.Type_ e) "blob"); cbn [negb]; [|done].
  destruct (last_Split_is_Some (github.Path e) "/") as [f ->]. cbn [mbind option_bind].
  by destruct (analyzer.depFilePatterns !! f).
Qed.

Lemma findDependencyFiles_loop (tree : list github.TreeEntry)
    (files : list analyzer.depFileInfo) :
  foldM analyzer.findDependencyFiles_entry files tree = Some (files ++ omap detected tree).
Proof.
  revert files. induction tree as [|e tree IH]; intros files; cbn [foldM omap list_omap].
  - by rewrite app_nil_r.
  - rewrite findDependencyFiles_entry_detected. cbn [mbind option_bind]. rewrite IH.
    destruct (detected e); [|done]. by rewrite <- app_assoc.
Qed.

Lemma findDependencyFiles_closed_form (tree : list github.TreeEntry) :
  analyzer.findDependencyFiles tree = Some (omap detected tree).
Proof. unfold analyzer.findDependencyFiles. by rewrite findDependencyFiles_loop. Qed.

Lemma depFilePatterns_lookup (name t : string) :
  analyzer.depFilePatterns !! name = Some t <-> In (name, t) manifestNames.
Proof.
  unfold analyzer.depFilePatterns. rewrite <- list_elem_of_In.
  symmetry. apply (elem_of_list_to_map (M := gmap string)).
  apply (bool_decide_eq_true_1 _). vm_compute. reflexivity.
Qed.

Lemma detected_Some (entry : github.TreeEntry) (df : analyzer.depFileInfo) :
  detected entry = Some df <->
  github.Type_ entry = "blob"
  /\ analyzer.path df = github.Path entry
  /\ exists name, finalSegment "/" (github.Path entry) name
                  /\ In (name, analyzer.fileType df) manifestNames.
Proof.
  unfold detected. destruct (String.eqb_spec (github.Type_ entry) "blob") as [Hb|Hb].
  - destruct (last (strings.Split (github.Path entry) "/")) as [f|] eqn:Hf;
      cbn [mbind option_bind].
    + destruct (analyzer.depFilePatterns !! f) as [t|] eqn:Ht; cbn [mbind option_bind].
      * split.
        -- intros [= <-]. split; [done|]. split; [done|]. exists f.
           split; [by apply last_Split_finalSegment|by apply depFilePatterns_lookup].
        -- intros (_ & Hp & name & Hseg & Hin). destruct df as [p t'].
           cbn [analyzer.path analyzer.fileType] in *. subst p.
           apply last_Split_finalSegment in Hseg. rewrite Hf in Hseg.
           injection Hseg as <-. apply depFilePatterns_lookup in Hin. congruence.
      * split; [done|]. intros (_ & _ & name & Hseg & Hin).
        apply last_Split_finalSegment in Hseg. rewrite Hf in Hseg. injection Hseg as <-.
        apply depFilePatterns_lookup in Hin. congruence.
    + split; [done|]. intros (_ & _ & name & Hseg & _).
      apply last_Split_finalSegment in Hseg. congruence.
  - split; [done|]. by intros [? _].
Qed.

Lemma detected_sublist (tree : list github.TreeEntry) :
  map analyzer.path (omap detected tree) `sublist_of` map github.Path tree.
Proof.
  induction tree as [|e tree IH]; cbn [omap list_omap map]; [constructor|].
  destruct (detected e) as [df|] eqn:Hd; cbn [map].
  - apply detected_Some in Hd as (_ & -> & _). by constructor.
  - by constructor.
Qed.

(** X1. The detector returns on every tree.  A pair of a path and a tag
    is in its result exactly when the tree has a blob entry with that path whose
    final segment is a name of the table and the tag is that of the name; the
    paths of the result follow the order of the tree. *)
Theorem findDependencyFiles_selects_blobs_by_name (tree : list github.TreeEntry) :
  exists depFiles,
    analyzer.findDependencyFiles tree = Some depFiles
    /\ (forall df,
          In df depFiles <->
          exists entry name,
            In entry tree
            /\ github.Type_ entry = "blob"
            /\ github.Path entry = analyzer.path df
            /\ finalSegment "/" (analyzer.path df) name
            /\ In (name, analyzer.fileType df)
                  [("package.json", "npm"); ("go.mod", "go");
                   ("requirements.txt", "python"); ("Pipfile", "python");
                   ("pyproject.toml", "python"); ("Cargo.toml", "rust");
                   ("Gemfile", "ruby")])
    /\ map analyzer.path depFiles `sublist_of` map github.Path tree.
Proof.
  exists (omap detected tree). split; [apply findDependencyFiles_closed_form|].
  split; [|apply detected_sublist].
  intros df. rewrite <- list_elem_of_In, list_elem_of_omap. split.
  - intros (e & He & Hd). apply detected_Some in Hd as (Hb & Hp & name & Hseg & Hin).
    exists e, name. rewrite Hp. by rewrite <- list_elem_of_In.
  - intros (e & name & He & Hb & Hp & Hseg & Hin). exists e.
    split; [by apply list_elem_of_In|]. apply detected_Some. rewrite <- Hp in Hseg.
    split; [done|]. split; [done|]. by exists name.
Qed.

Lemma hasLockFile_closed_form (tree : list github.TreeEntry) :
  analyzer.hasLockFile tree = Some (existsb lockEntry tree).
Proof.
  induction tree as [|e tree IH]; [done|]. cbn [analyzer.hasLockFile existsb].
  unfold lockEntry at 1.
  destruct (last (strings.Split (github.Path e) "/")) as [f|] eqn:Hf.
  - cbn [mbind option_bind]. by destruct (analyzer.isLockFile f analyzer.lockFiles).
  - by destruct (last_Split_is_Some (github.Path e) "/") as [? ?]; simplify_eq.
Qed.

(** X2. Both scans of the tree go entry by entry: on two listings put
    one after the other, the detector returns the manifests of the first
    followed by those of the second, and hasLockFile returns the disjunction
    of its two results. *)
Theorem tree_scans_distribute_over_concatenation (tree1 tree2 : list github.TreeEntry) :
  exists depFiles1 depFiles2 lock1 lock2,
    analyzer.findDependencyFiles tree1 = Some depFiles1
    /\ analyzer.findDependencyFiles tree2 = Some depFiles2
    /\ analyzer.findDependencyFiles (tree1 ++ tree2) = Some (depFiles1 ++ depFiles2)
    /\ analyzer.hasLockFile tree1 = Some lock1
    /\ analyzer.hasLockFile tree2 = Some lock2
    /\ analyzer.hasLockFile (tree1 ++ tree2) = Some (lock1 || lock2).
Proof.
  exists (omap detected tree1), (omap detected tree2),
         (existsb lockEntry tree1), (existsb lockEntry tree2).
  rewrite !findDependencyFiles_closed_form, !hasLockFile_closed_form.
  by rewrite omap_app, existsb_app.
Qed.

(** ** The aggregator as a whole *)

Lemma AnalyzeDependencies_report (L : analyzer.GoLib) (client : github.Client)
    (owner repo branch : string) (tree : list github.TreeEntry) :
  analyzer.AnalyzeDependencies L client owner repo branch tree
  = Some (reportOf (retainedFiles L client owner repo tree) (existsb lockEntry tree)).
Proof.
  destruct (AnalyzeDependencies_closed_form L client owner repo branch tree)
    as (depFiles & a & HdF & -> & HF & HT & HL & HK).
  rewrite findDependencyFiles_closed_form in HdF. injection HdF as <-.
  rewrite hasLockFile_closed_form in HK. injection HK as HK.
  destruct a as [fs total langs lock].
  cbn [analyzer.Files analyzer.TotalDeps analyzer.Languages analyzer.HasLockFile] in *.
  unfold reportOf, retainedFiles. subst fs langs lock. do 2 f_equal.
  rewrite HT. apply totalCount_totalLength. apply retained_Forall.
  intros df f Hret. by destruct (retained_inv _ _ _ _ _ _ Hret) as (_ & _ & ? & _).
Qed.

Lemma totalLength_cons (f : analyzer.DependencyFile) (fs : list analyzer.DependencyFile) :
  totalLength (f :: fs)
  = (Z.of_nat (length (analyzer.Dependencies f)) + totalLength fs)%Z.
Proof. reflexivity. Qed.

Lemma totalLength_app (fs1 fs2 : list analyzer.DependencyFile) :
  totalLength (fs1 ++ fs2) = (totalLength fs1 + totalLength fs2)%Z.
Proof.
  induction fs1 as [|f fs1 IH]; [done|].
  cbn [app]. rewrite !totalLength_cons, IH. lia.
Qed.

Lemma firstSeen_app (l1 l2 : list string) :
  firstSeen (l1 ++ l2) = firstSeen l1 ++ filter (fun t => t ∉ firstSeen l1) (firstSeen l2).
Proof.
  rewrite <- (firstSeen_fold (l1 ++ l2)), fold_left_app, firstSeen_fold.
  apply addLanguage_firstSeen.
Qed.

(** X3. The report of two listings put one after the other is made of
    the two reports: the records of the first followed by those of the second,
    the sum of the two totals, the languages of the first followed by the
    languages of the second that the first does not have, and the disjunction
    of the two lock-file flags. *)
Theorem AnalyzeDependencies_of_concatenation (L : analyzer.GoLib) (client : github.Client)
    (owner repo branch : string) (tree1 tree2 : list github.TreeEntry) :
  exists a1 a2 a,
    analyzer.AnalyzeDependencies L client owner repo branch tree1 = Some a1
    /\ analyzer.AnalyzeDependencies L client owner repo branch tree2 = Some a2
    /\ analyzer.AnalyzeDependencies L client owner repo branch (tree1 ++ tree2) = Some a
    /\ analyzer.Files a = analyzer.Files a1 ++ analyzer.Files a2
    /\ analyzer.TotalDeps a = (analyzer.TotalDeps a1 + analyzer.TotalDeps a2)%Z
    /\ analyzer.Languages a
       = analyzer.Languages a1
         ++ filter (fun t => t ∉ analyzer.Languages a1) (analyzer.Languages a2)
    /\ analyzer.HasLockFile a = analyzer.HasLockFile a1 || analyzer.HasLockFile a2.
Proof.
  rewrite !AnalyzeDependencies_report. eexists _, _, _.
  split; [done|]. split; [done|]. split; [done|].
  unfold reportOf, retainedFiles.
  cbn [analyzer.Files analyzer.TotalDeps analyzer.Languages analyzer.HasLockFile].
  rewrite !omap_app, totalLength_app, map_app, firstSeen_app, existsb_app. done.
Qed.

Lemma parseByType_keeps_tag (L : analyzer.GoLib) (t decoded : string)
    (r : list analyzer.Dependency * string) :
  In t ecosystems -> analyzer.parseByType L t decoded = Some r -> snd r = t.
Proof.
  intros Ht. unfold analyzer.parseByType.
  destruct Ht as [<-|[<-|[<-|[<-|[<-|[]]]]]]; cbn [String.eqb Ascii.eqb Bool.eqb].
  - destruct (parsePackageJSON_total L decoded) as [? ->]. by intros [= <-].
  - destruct (parseGoMod_total decoded) as [? ->]. by intros [= <-].
  - destruct (parseRequirementsTxt_total decoded) as [? ->]. by intros [= <-].
  - destruct (parseCargoToml_total decoded) as [? ->]. by intros [= <-].
  - destruct (parseGemfile_total decoded) as [? ->]. by intros [= <-].
Qed.

Lemma manifestNames_ecosystems (name t : string) :
  In (name, t) manifestNames -> In t ecosystems.
Proof.
  intros H. repeat (destruct H as [[= <- <-]|H]; [cbn; tauto|]). destruct H.
Qed.

Lemma retainedFiles_sublist (L : analyzer.GoLib) (client : github.Client)
    (owner repo : string) (tree : list github.TreeEntry) :
  map analyzer.Filename (retainedFiles L client owner repo tree)
  `sublist_of` map github.Path tree.
Proof.
  unfold retainedFiles. etrans; [|apply detected_sublist].
  induction (omap detected tree) as [|df dfs IH]; cbn [omap list_omap map]; [constructor|].
  destruct (retained L client owner repo df) as [f|] eqn:Hret; cbn [map].
  - apply retained_inv in Hret as (-> & _). by constructor.
  - by constructor.
Qed.

(** X4. Every record of the report comes from a blob entry of the tree
    whose final segment is a manifest name: its Filename is the path of the
    entry, its FileType is the tag that the table gives to that name, and the
    content of that path was fetched and decoded.  The records follow the
    order of the tree. *)
Theorem AnalyzeDependencies_records_come_from_manifests (L : analyzer.GoLib)
    (client : github.Client) (owner repo branch : string)
    (tree : list github.TreeEntry) :
  exists a,
    analyzer.AnalyzeDependencies L client owner repo branch tree = Some a
    /\ Forall
         (fun f =>
            exists entry name content decoded,
              In entry tree
              /\ github.Type_ entry = "blob"
              /\ github.Path entry = analyzer.Filename f
              /\ finalSegment "/" (analyzer.Filename f) name
              /\ In (name, analyzer.FileType f)
                    [("package.json", "npm"); ("go.mod", "go");
                     ("requirements.txt", "python"); ("Pipfile", "python");
                     ("pyproject.toml", "python"); ("Cargo.toml", "rust");
                     ("Gemfile", "ruby")]
              /\ github.GetFileContent client owner repo (analyzer.Filename f)
                 = Some content
              /\ analyzer.base64_DecodeString L content = Some decoded)
         (analyzer.Files a)
    /\ map analyzer.Filename (analyzer.Files a) `sublist_of` map github.Path tree.
Proof.
  rewrite AnalyzeDependencies_report. eexists. split; [done|].
  cbn [reportOf analyzer.Files]. split; [|apply retainedFiles_sublist].
  apply Forall_forall. intros f Hf. unfold retainedFiles in Hf.
  apply list_elem_of_omap in Hf as (df & Hdf & Hret).
  apply list_elem_of_omap in Hdf as (e & He & Hdet).
  apply detected_Some in Hdet as (Hb & Hp & name & Hseg & Hin).
  apply retained_inv in Hret as (Hfn & _ & _ & content & decoded & Hc & Hd & Hparse).
  exists e, name, content, decoded. rewrite Hfn.
  split; [by apply list_elem_of_In|]. split; [done|]. split; [done|].
  split; [by rewrite Hp|]. split; [|done].
  apply parseByType_keeps_tag in Hparse; [|by eapply manifestNames_ecosystems].
  cbn [snd] in Hparse. by rewrite Hparse.
Qed.

Lemma firstSeen_length (l : list string) : (length (firstSeen l) <= length l)%nat.
Proof.
  induction l as [|x l IH]; cbn [firstSeen length]; [done|].
  pose proof (length_filter (fun y => y <> x) (firstSeen l)). lia.
Qed.

Lemma totalLength_lower_bound (fs : list analyzer.DependencyFile) :
  Forall (fun f => analyzer.Dependencies f <> []) fs ->
  (Z.of_nat (length fs) <= totalLength fs)%Z.
Proof.
  induction 1 as [|f fs Hf _ IH]; [done|]. rewrite totalLength_cons. cbn [length].
  destruct (analyzer.Dependencies f); [done|]. cbn [length]. lia.
Qed.

(** X5. The counts of a report bound one another: there are at most as
    many records as dependencies in total, at most as many languages as
    records, and never more than five languages. *)
Theorem AnalyzeDependencies_counts_are_bounded (L : analyzer.GoLib)
    (client : github.Client) (owner repo branch : string)
    (tree : list github.TreeEntry) :
  exists a,
    analyzer.AnalyzeDependencies L client owner repo branch tree = Some a
    /\ (Z.of_nat (length (analyzer.Files a)) <= analyzer.TotalDeps a)%Z
    /\ (length (analyzer.Languages a) <= length (analyzer.Files a))%nat
    /\ (length (analyzer.Languages a) <= 5)%nat.
Proof.
  rewrite AnalyzeDependencies_report. eexists. split; [done|].
  cbn [reportOf analyzer.Files analyzer.TotalDeps analyzer.Languages]. split; [|split].
  - apply totalLength_lower_bound. unfold retainedFiles. apply retained_Forall.
    intros df f Hret. by destruct (retained_inv _ _ _ _ _ _ Hret) as (_ & ? & _).
  - etrans; [apply firstSeen_length|]. by rewrite length_map.
  - change 5%nat with (length ecosystems). apply submseteq_length.
    apply NoDup_submseteq; [apply firstSeen_NoDup|].
    intros t Ht. apply list_elem_of_In, firstSeen_In, in_map_iff in Ht.
    destruct Ht as (f & <- & Hf). apply list_elem_of_In in Hf.
    unfold retainedFiles in Hf.
    apply list_elem_of_omap in Hf as (df & Hdf & Hret).
    apply list_elem_of_omap in Hdf as (e & He & Hdet).
    apply detected_Some in Hdet as (_ & _ & name & _ & Hin).
    apply retained_inv in Hret as (_ & _ & _ & content & decoded & _ & _ & Hparse).
    apply manifestNames_ecosystems in Hin.
    apply (parseByType_keeps_tag _ _ _ _ Hin) in Hparse. cbn [snd] in Hparse.
    rewrite Hparse. by apply list_elem_of_In.
Qed.

Lemma omap_all_None {A B : Type} (f : A -> option B) (l : list A) :
  (forall x, f x = None) -> omap f l = [].
Proof. intros Hf. induction l as [|x l IH]; cbn [omap list_omap]; [done|]. by rewrite Hf. Qed.

(** X6. When no manifest can be read, because every fetch fails or
    returns what cannot be decoded, the report is empty and not an error: no
    record, a total of zero, no language; the lock-file flag is still that of
    the tree. *)
Theorem AnalyzeDependencies_without_readable_content (L : analyzer.GoLib)
    (client : github.Client) (owner repo branch : string)
    (tree : list github.TreeEntry) :
  (forall path,
      match github.GetFileContent client owner repo path with
      | None => True
      | Some content => analyzer.base64_DecodeString L content = None
      end) ->
  exists lock,
    analyzer.hasLockFile tree = Some lock
    /\ analyzer.AnalyzeDependencies L client owner repo branch tree
       = Some {| analyzer.Files := []; analyzer.TotalDeps := 0;
                 analyzer.Languages := []; analyzer.HasLockFile := lock |}.
Proof.
  intros Hfail. exists (existsb lockEntry tree).
  split; [apply hasLockFile_closed_form|]. rewrite AnalyzeDependencies_report.
  unfold retainedFiles. rewrite (omap_all_None (retained L client owner repo)); [done|].
  intros df. unfold retained. specialize (Hfail (analyzer.path df)).
  destruct (github.GetFileContent client owner repo (analyzer.path df)); [|done].
  cbn [mbind option_bind]. by rewrite Hfail.
Qed.

(** The witness of X6: a client that is offline, on a tree with two
    manifests and a lock file. *)
Lemma AnalyzeDependencies_without_readable_content_witness :
  analyzer.AnalyzeDependencies (libWith (fun _ => None) (fun _ => None) mergeSort)
    offlineClient "owner" "repo" "main" lockedTree
  = Some {| analyzer.Files := []; analyzer.TotalDeps := 0;
            analyzer.Languages := []; analyzer.HasLockFile := true |}.
Proof.
  destruct (AnalyzeDependencies_without_readable_content
              (libWith (fun _ => None) (fun _ => None) mergeSort)
              offlineClient "owner" "repo" "main" lockedTree (fun _ => I))
    as (lock & Hlock & ->).
  vm_compute in Hlock. by injection Hlock as <-.
Defined.

(** X7. The lock-file flag of the report does not depend on what the
    client returns or on how the manifests parse: it is true exactly when the
    final segment of the path of some entry of the tree is one of the
    lock-file names. *)
Theorem AnalyzeDependencies_lock_flag_is_of_the_tree (L : analyzer.GoLib)
    (client : github.Client) (owner repo branch : string)
    (tree : list github.TreeEntry) :
  exists a,
    analyzer.AnalyzeDependencies L client owner repo branch tree = Some a
    /\ (analyzer.HasLockFile a = true <->
        exists entry name,
          In entry tree
          /\ In name ["package-lock.json"; "yarn.lock"; "pnpm-lock.yaml"; "go.sum";
                      "Pipfile.lock"; "poetry.lock"; "Cargo.lock"; "Gemfile.lock"]
          /\ finalSegment "/" (github.Path entry) name).
Proof.
  rewrite AnalyzeDependencies_report. eexists. split; [done|].
  cbn [reportOf analyzer.HasLockFile]. rewrite <- hasLockFile_true.
  rewrite hasLockFile_closed_form. split; [by intros ->|by intros [= ->]].
Qed.

Lemma parsePackageJSON_agree (L1 L2 : analyzer.GoLib) (content : string) :
  GoLib_ok L1 -> GoLib_ok L2 ->
  (forall s, analyzer.json_Unmarshal L1 s = analyzer.json_Unmarshal L2 s) ->
  (forall p, analyzer.json_Unmarshal L1 content = Some p ->
             NoDup (map analyzer.Name (declared p))) ->
  analyzer.parsePackageJSON L1 content = analyzer.parsePackageJSON L2 content.
Proof.
  intros H1 H2 Hjson Hnames.
  destruct (analyzer.json_Unmarshal L1 content) as [p|] eqn:Hp.
  - apply (parsePackageJSON_determined_by_distinct_names L1 L2 content p); eauto.
    by rewrite <- Hjson.
  - unfold analyzer.parsePackageJSON. by rewrite <- Hjson, Hp.
Qed.

(** The one name that the detector tags as npm. *)
Lemma manifestNames_npm (name : string) :
  In (name, "npm") manifestNames -> name = "package.json".
Proof.
  intros Hin. cbn [In manifestNames] in Hin.
  repeat (destruct Hin as [Heq|Hin]; [by injection Heq|]). destruct Hin.
Qed.

(** X8. When no package.json of the tree has a content that decodes to a
    manifest which declares a name twice, the report is fixed by the tree and
    the contents: two libraries that keep the contract of range and of
    sort.Slice and decode alike give the same report, whatever order they
    visit the maps in and however their sorts treat equal names.  Texts that
    the client does not serve for a package.json of the tree may decode to
    anything. *)
Theorem AnalyzeDependencies_fixed_when_names_are_distinct (L1 L2 : analyzer.GoLib)
    (client : github.Client) (owner repo branch : string)
    (tree : list github.TreeEntry) :
  GoLib_ok L1 -> GoLib_ok L2 ->
  (forall s, analyzer.json_Unmarshal L1 s = analyzer.json_Unmarshal L2 s) ->
  (forall s, analyzer.base64_DecodeString L1 s = analyzer.base64_DecodeString L2 s) ->
  (forall entry content decoded p,
      In entry tree ->
      github.Type_ entry = "blob" ->
      finalSegment "/" (github.Path entry) "package.json" ->
      github.GetFileContent client owner repo (github.Path entry) = Some content ->
      analyzer.base64_DecodeString L1 content = Some decoded ->
      analyzer.json_Unmarshal L1 decoded = Some p ->
      NoDup (map analyzer.Name (declared p))) ->
  analyzer.AnalyzeDependencies L1 client owner repo branch tree
  = analyzer.AnalyzeDependencies L2 client owner repo branch tree.
Proof.
  intros H1 H2 Hjson Hb64 Hnames. rewrite !AnalyzeDependencies_report.
  do 2 f_equal. unfold retainedFiles. apply list_omap_ext, Forall2_same_length_lookup_2;
    [done|].
  intros i df df' Hdf Hdf'. assert (df' = df) as -> by congruence. clear Hdf'.
  apply list_elem_of_lookup_2, list_elem_of_omap in Hdf as (entry & Hentry & Hdet).
  apply list_elem_of_In in Hentry.
  apply detected_Some in Hdet as (Hblob & Hpath & name & Hseg & Htag).
  unfold retained. rewrite Hpath.
  destruct (github.GetFileContent client owner repo (github.Path entry))
    as [content|] eqn:Hget; cbn [mbind option_bind]; [|done].
  rewrite <- Hb64.
  destruct (analyzer.base64_DecodeString L1 content) as [decoded|] eqn:Hdec;
    cbn [mbind option_bind]; [|done].
  assert (analyzer.parseByType L1 (analyzer.fileType df) decoded
          = analyzer.parseByType L2 (analyzer.fileType df) decoded) as ->; [|done].
  unfold analyzer.parseByType.
  destruct (String.eqb_spec (analyzer.fileType df) "npm") as [Hnpm|_]; [|done].
  rewrite Hnpm in Htag. apply manifestNames_npm in Htag as ->.
  apply (parsePackageJSON_agree L1 L2 decoded H1 H2 Hjson).
  intros p Hp. by apply (Hnames entry content decoded p).
Qed.

(** The witness of X8: a tree whose one package.json declares distinct
    names, under the two sorts and a decoder that also knows a manifest which
    declares m twice; the client serves that manifest for a path that is no
    package.json. *)
Lemma AnalyzeDependencies_fixed_when_names_are_distinct_witness :
  analyzer.AnalyzeDependencies (bothManifestsLib mergeSort)
    bothManifestsClient "owner" "repo" "main" bothManifestsTree
  = analyzer.AnalyzeDependencies (bothManifestsLib mergeSortReversed)
      bothManifestsClient "owner" "repo" "main" bothManifestsTree
  /\ option_map analyzer.TotalDeps
       (analyzer.AnalyzeDependencies (bothManifestsLib mergeSort)
          bothManifestsClient "owner" "repo" "main" bothManifestsTree)
     = Some 2%Z
  /\ analyzer.json_Unmarshal (bothManifestsLib mergeSort) twiceDeclaredText
     = Some twiceDeclared
  /\ ~ NoDup (map analyzer.Name (declared twiceDeclared)).
Proof.
  split; [|split; [vm_compute; reflexivity|split; [vm_compute; reflexivity|]]].
  - apply AnalyzeDependencies_fixed_when_names_are_distinct.
    + apply mergeSort_ok.
    + apply mergeSortReversed_ok.
    + reflexivity.
    + reflexivity.
    + intros entry content decoded p Hentry _ Hseg Hget Hdec Hp.
      destruct Hentry as [<-|[<-|[]]].
      * vm_compute in Hget. injection Hget as <-.
        vm_compute in Hdec. injection Hdec as <-.
        vm_compute in Hp. injection Hp as <-.
        apply (bool_decide_eq_true_1 _). vm_compute. reflexivity.
      * apply last_Split_finalSegment in Hseg. vm_compute in Hseg. discriminate Hseg.
  - intros Hnd. apply (bool_decide_eq_true_2 _) in Hnd. vm_compute in Hnd.
    discriminate Hnd.
Defined.

(** ** The npm parser: one entry per key *)

Lemma sectionEntries_In (m : gmap string string) (type : string) (d : analyzer.Dependency) :
  In d (sectionEntries m type) <->
  exists name version,
    m !! name = Some version
    /\ d = analyzer.mkDep name (strings.TrimSpace version) type.
Proof.
  unfold sectionEntries. rewrite in_map_iff. split.
  - intros ([name version] & <- & Hin). exists name, version.
    split; [|done]. by apply elem_of_map_to_list, list_elem_of_In.
  - intros (name & version & Hm & ->). exists (name, version).
    split; [done|]. by apply list_elem_of_In, elem_of_map_to_list.
Qed.

(** X9. When the decode succeeds, the npm parser returns one entry for
    every key of each of the three maps and nothing else: the entry carries the
    key, the version with its surrounding white space removed, and the tag of
    the section.  A name that two sections declare comes out twice. *)
Theorem parsePackageJSON_one_entry_per_key (L : analyzer.GoLib) (content : string)
    (p : analyzer.pkg) :
  GoLib_ok L ->
  analyzer.json_Unmarshal L content = Some p ->
  exists deps,
    analyzer.parsePackageJSON L content = Some (deps, "npm")
    /\ length deps
       = (size (analyzer.pkgDependencies p) + size (analyzer.pkgDevDependencies p)
          + size (analyzer.pkgPeerDeps p))%nat
    /\ (forall d,
          In d deps <->
          exists name version,
            d = analyzer.mkDep name (strings.TrimSpace version) "production"
              /\ analyzer.pkgDependencies p !! name = Some version
            \/ d = analyzer.mkDep name (strings.TrimSpace version) "dev"
              /\ analyzer.pkgDevDependencies p !! name = Some version
            \/ d = analyzer.mkDep name (strings.TrimSpace version) "peer"
              /\ analyzer.pkgPeerDeps p !! name = Some version).
Proof.
  intros HL Hjson.
  destruct (parsePackageJSON_sorted_permutation L content p HL Hjson)
    as (deps & Hparse & Hperm & _).
  exists deps. split; [done|]. split.
  - rewrite Hperm. unfold declared, sectionEntries.
    rewrite !length_app, !length_map, !length_map_to_list. lia.
  - intros d. rewrite <- list_elem_of_In, Hperm, list_elem_of_In.
    unfold declared. rewrite !in_app_iff, !sectionEntries_In. split.
    + intros [(n & v & Hm & ->)|[(n & v & Hm & ->)|(n & v & Hm & ->)]];
        exists n, v; tauto.
    + intros (n & v & [[-> Hm]|[[-> Hm]|[-> Hm]]]);
        [left|right; left|right; right]; by exists n, v.
Qed.

(** The witness of X9: the manifest with one production and one dev
    entry. *)
Lemma parsePackageJSON_one_entry_per_key_witness :
  exists deps,
    analyzer.parsePackageJSON (smallManifestLib mergeSortReversed) smallManifestText
    = Some (deps, "npm")
    /\ length deps = 2%nat
    /\ In (analyzer.mkDep "b" "~2.0" "dev") deps.
Proof.
  destruct (parsePackageJSON_one_entry_per_key
              (smallManifestLib mergeSortReversed) smallManifestText smallManifest
              (mergeSortReversed_ok _ _) eq_refl)
    as (deps & Hparse & Hlen & Hin).
  exists deps. split; [exact Hparse|]. split; [exact Hlen|].
  apply Hin. exists "b", "~2.0". right. left. split; reflexivity.
Defined.

(** ** Texts without declarations *)

Lemma foldM_fixed {A B : Type} (f : A -> B -> option A) (a : A) (l : list B) :
  (forall x, In x l -> f a x = Some a) -> foldM f a l = Some a.
Proof.
  induction l as [|x l IH]; intros Hf; [done|]. cbn [foldM].
  rewrite Hf by (by left). cbn [mbind option_bind]. apply IH.
  intros y Hy. apply Hf. by right.
Qed.

Lemma prefix_append (a b s : string) :
  String.prefix (a +:+ b) s = true -> String.prefix a s = true.
Proof.
  revert s. induction a as [|c a IH]; intros s; [by destruct s|].
  rewrite append_cons. destruct s as [|c' s]; [done|]. cbn [String.prefix].
  destruct (ascii_dec c c'); [apply IH|done].
Qed.

Lemma prefix_false_append (a b s : string) :
  String.prefix a s = false -> String.prefix (a +:+ b) s = false.
Proof.
  intros Ha. destruct (String.prefix (a +:+ b) s) eqn:E; [|done].
  apply prefix_append in E. congruence.
Qed.

(** X10. The go-module parser reads requirements only: on a text none
    of whose lines, once trimmed, starts with the word require, it returns the
    empty list. *)
Theorem parseGoMod_without_require_is_empty (content : string) :
  (forall line, In line (strings.Split content LF) ->
                strings.HasPrefix (strings.TrimSpace line) "require" = false) ->
  analyzer.parseGoMod content = Some ([], "go").
Proof.
  intros Hno. unfold analyzer.parseGoMod.
  rewrite (foldM_fixed analyzer.parseGoMod_line (false, [])); [done|].
  intros line Hline. specialize (Hno line Hline). unfold analyzer.parseGoMod_line.
  unfold strings.HasPrefix in *.
  assert (String.prefix "require (" (strings.TrimSpace line) = false) as ->
    by exact (prefix_false_append "require" " (" _ Hno).
  assert (String.prefix "require " (strings.TrimSpace line) = false) as ->
    by exact (prefix_false_append "require" " " _ Hno).
  by destruct (String.eqb (strings.TrimSpace line) ")").
Qed.

(** The witness of X10: a go.mod with a module line, a go line and a
    replace line. *)
Lemma parseGoMod_without_require_is_empty_witness :
  analyzer.parseGoMod
    ("module example.org/m" +:+ str1 LF +:+ "go 1.22" +:+ str1 LF
     +:+ "replace a/b => ../b" +:+ str1 LF)
  = Some ([], "go").
Proof.
  apply parseGoMod_without_require_is_empty.
  intros line Hline. vm_compute in Hline.
  repeat (destruct Hline as [<-|Hline]; [vm_compute; reflexivity|]). destruct Hline.
Defined.

(** X11. The Cargo parser reads two sections only: on a text none of
    whose lines, once trimmed, is the header [dependencies] or the header
    [dev-dependencies], it returns the empty list. *)
Theorem parseCargoToml_without_sections_is_empty (content : string) :
  (forall line, In line (strings.Split content LF) ->
                strings.TrimSpace line <> "[dependencies]"
                /\ strings.TrimSpace line <> "[dev-dependencies]") ->
  analyzer.parseCargoToml content = Some ([], "rust").
Proof.
  intros Hno. unfold analyzer.parseCargoToml.
  rewrite (foldM_fixed analyzer.parseCargoToml_line (false, false, [])); [done|].
  intros line Hline. destruct (Hno line Hline) as [H1 H2].
  unfold analyzer.parseCargoToml_line.
  apply String.eqb_neq in H1, H2. rewrite H1, H2.
  by destruct (strings.HasPrefix (strings.TrimSpace line) "[").
Qed.

(** The witness of X11: a manifest with a package section and a build
    section. *)
Lemma parseCargoToml_without_sections_is_empty_witness :
  analyzer.parseCargoToml
    ("[package]" +:+ str1 LF +:+ dq "name = 'demo'" +:+ str1 LF
     +:+ "[build-dependencies]" +:+ str1 LF +:+ dq "cc = '1.0'" +:+ str1 LF)
  = Some ([], "rust").
Proof.
  apply parseCargoToml_without_sections_is_empty.
  intros line Hline. vm_compute in Hline.
  repeat (destruct Hline as [<-|Hline]; [split; vm_compute; discriminate|]).
  destruct Hline.
Defined.

Lemma SplitN2_first (a b : string) (sep : ascii) :
  freeOf sep a -> strings.SplitN2 (a +:+ String sep b) sep = [a; b].
Proof.
  induction a as [|c a IH]; intros Ha.
  - rewrite append_nil_l. cbn [strings.SplitN2]. by rewrite Ascii.eqb_refl.
  - destruct Ha as [Hc Ha]. rewrite append_cons. cbn [strings.SplitN2].
    destruct (Ascii.eqb_spec c sep) as [|_]; [done|]. by rewrite IH.
Qed.

Lemma Contains_append (a s sub : string) :
  String.prefix sub s = true -> strings.Contains (a +:+ s) sub = true.
Proof.
  intros Hs. induction a as [|c a IH].
  - rewrite append_nil_l. destruct s; cbn [strings.Contains]; by rewrite Hs.
  - rewrite append_cons. cbn [strings.Contains]. rewrite IH. apply orb_true_r.
Qed.

Lemma not_bracket_not_header (s : string) (dev : bool) :
  String.prefix "[" s = false -> String.eqb s (cargoHeader dev) = false.
Proof.
  intros Hs. apply String.eqb_neq. intros ->. by destruct dev.
Qed.

Lemma not_bracket_not_headers (s : string) :
  strings.HasPrefix s "[" = false ->
  String.eqb s "[dependencies]" = false /\ String.eqb s "[dev-dependencies]" = false.
Proof.
  intros Hs. split.
  - exact (not_bracket_not_header s false Hs).
  - exact (not_bracket_not_header s true Hs).
Qed.

Lemma parseCargoToml_line_acc (inDeps inDevDeps : bool)
    (deps : list analyzer.Dependency) (line0 : string) :
  analyzer.parseCargoToml_line (inDeps, inDevDeps, deps) line0
  = (st ← analyzer.parseCargoToml_line (inDeps, inDevDeps, []) line0;
     Some (fst (fst st), snd (fst st), deps ++ snd st)).
Proof.
  unfold analyzer.parseCargoToml_line.
  set (line := strings.TrimSpace line0). set (parts := strings.SplitN2 line "=").
  destruct (String.eqb line "[dependencies]"); [by cbn; rewrite app_nil_r|].
  destruct (String.eqb line "[dev-dependencies]"); [by cbn; rewrite app_nil_r|].
  destruct (strings.HasPrefix line "["); [by cbn; rewrite app_nil_r|].
  destruct ((inDeps || inDevDeps) && strings.Contains line "=");
    [|by cbn; rewrite app_nil_r].
  destruct (length parts =? 2)%nat; [|by cbn; rewrite app_nil_r].
  destruct (parts !! 0%nat) as [part0|]; cbn [mbind option_bind]; [|done].
  by destruct (parts !! 1%nat) as [part1|].
Qed.

Lemma parseCargoToml_loop_acc (ls : list string) (inDeps inDevDeps : bool)
    (deps : list analyzer.Dependency) :
  foldM analyzer.parseCargoToml_line (inDeps, inDevDeps, deps) ls
  = (st ← foldM analyzer.parseCargoToml_line (inDeps, inDevDeps, []) ls;
     Some (fst (fst st), snd (fst st), deps ++ snd st)).
Proof.
  revert inDeps inDevDeps deps.
  induction ls as [|l ls IH]; intros inDeps inDevDeps deps; cbn [foldM].
  - cbn. by rewrite app_nil_r.
  - rewrite (parseCargoToml_line_acc inDeps inDevDeps deps l).
    destruct (analyzer.parseCargoToml_line (inDeps, inDevDeps, []) l)
      as [[[i d] ds]|]; cbn [mbind option_bind fst snd]; [|done].
    rewrite (IH i d (deps ++ ds)), (IH i d ds).
    destruct (foldM analyzer.parseCargoToml_line (i, d, []) ls) as [[[i' d'] ds']|];
      cbn [mbind option_bind fst snd]; [|done].
    by rewrite app_assoc.
Qed.

(** A header of one of the two sections sets the flags, whatever they
    were. *)
Lemma parseCargoToml_line_header (inDeps inDevDeps dev : bool)
    (deps : list analyzer.Dependency) (header : string) :
  strings.TrimSpace header = cargoHeader dev ->
  analyzer.parseCargoToml_line (inDeps, inDevDeps, deps) header
  = Some (negb dev, dev, deps).
Proof. intros Hh. unfold analyzer.parseCargoToml_line. rewrite Hh. by destruct dev. Qed.

(** Lines that start no section leave the flags as they are. *)
Lemma parseCargoToml_loop_section (ls : list string) (inDeps inDevDeps : bool)
    (deps : list analyzer.Dependency) :
  Forall (fun l => strings.HasPrefix (strings.TrimSpace l) "[" = false) ls ->
  exists deps',
    foldM analyzer.parseCargoToml_line (inDeps, inDevDeps, deps) ls
    = Some (inDeps, inDevDeps, deps').
Proof.
  intros Hls. revert deps. induction Hls as [|l ls Hl Hls IH]; intros deps.
  - by exists deps.
  - cbn [foldM].
    destruct (parseCargoToml_line_total (inDeps, inDevDeps, deps) l) as [st Hst].
    rewrite Hst. cbn [mbind option_bind].
    assert (exists deps1, st = (inDeps, inDevDeps, deps1)) as [deps1 ->]; [|apply IH].
    revert Hst. unfold analyzer.parseCargoToml_line.
    destruct (not_bracket_not_headers _ Hl) as [-> ->]. rewrite Hl.
    destruct ((inDeps || inDevDeps) && strings.Contains (strings.TrimSpace l) "=");
      [|intros [= <-]; by eexists].
    destruct (length (strings.SplitN2 (strings.TrimSpace l) "=") =? 2)%nat;
      [|intros [= <-]; by eexists].
    destruct (strings.SplitN2 (strings.TrimSpace l) "=" !! 0%nat) as [part0|];
      cbn [mbind option_bind]; [|done].
    destruct (strings.SplitN2 (strings.TrimSpace l) "=" !! 1%nat) as [part1|];
      cbn [mbind option_bind]; [|done].
    intros [= <-]. by eexists.
Qed.

(** A line with an equals sign, inside a section. *)
Lemma parseCargoToml_line_entry (dev : bool) (deps : list analyzer.Dependency)
    (line0 a b : string) :
  strings.TrimSpace line0 = a +:+ String "=" b ->
  freeOf "=" a ->
  strings.HasPrefix (strings.TrimSpace line0) "[" = false ->
  analyzer.parseCargoToml_line (negb dev, dev, deps) line0
  = Some (negb dev, dev,
          deps ++ [analyzer.mkDep (strings.TrimSpace a)
                     (strings.Trim (strings.TrimSpace b) analyzer.quotes)
                     (if dev then "dev" else "production")]).
Proof.
  intros Htrim Ha Hbr. unfold analyzer.parseCargoToml_line.
  destruct (not_bracket_not_headers _ Hbr) as [-> ->]. rewrite Hbr, Htrim.
  rewrite (Contains_append a (String "=" b) "=") by (by destruct b).
  rewrite SplitN2_first by done.
  assert (negb dev || dev = true) as -> by (by destruct dev).
  cbn [andb length Nat.eqb lookup list_lookup mbind option_bind]. done.
Qed.

(** The parser on a text given by its lines. *)
Lemma parseCargoToml_lines (ls : list string) :
  Forall (freeOf LF) ls ->
  analyzer.parseCargoToml (joinLines ls)
  = (st ← foldM analyzer.parseCargoToml_line (false, false, []) ls;
     Some (snd st, "rust")).
Proof.
  intros Hls. destruct ls as [|l ls]; [reflexivity|].
  unfold analyzer.parseCargoToml. by rewrite Split_joinLines.
Qed.

(** X12. In a Cargo manifest of any number of lines, take a line with an
    equals sign that stands under a header [dependencies] or
    [dev-dependencies], with only lines that start no section between the two.
    The parser splits it at its first equals sign: what stands before it,
    trimmed, is the name, and all that follows it, trimmed and freed of
    surrounding quote characters, is the version, with later equals signs
    kept; the type is dev under [dev-dependencies] and production under
    [dependencies].  The entry stands after the entries of the lines before
    the header and of the lines between header and line, and before those that
    the lines after it give under the same header. *)
Theorem parseCargoToml_splits_at_first_equals (dev : bool) (content : string)
    (before middle after : list string) (header line0 a b : string) :
  strings.Split content LF = before ++ header :: middle ++ line0 :: after ->
  strings.TrimSpace header = cargoHeader dev ->
  Forall (fun l => strings.HasPrefix (strings.TrimSpace l) "[" = false) middle ->
  strings.TrimSpace line0 = a +:+ String "=" b ->
  freeOf "=" a ->
  strings.HasPrefix (strings.TrimSpace line0) "[" = false ->
  exists d1 dm d2,
    analyzer.parseCargoToml (joinLines before) = Some (d1, "rust")
    /\ analyzer.parseCargoToml (joinLines (header :: middle)) = Some (dm, "rust")
    /\ analyzer.parseCargoToml (joinLines (header :: after)) = Some (d2, "rust")
    /\ analyzer.parseCargoToml content
       = Some (d1 ++ dm
               ++ analyzer.mkDep (strings.TrimSpace a)
                    (strings.Trim (strings.TrimSpace b) analyzer.quotes)
                    (if dev then "dev" else "production")
               :: d2,
               "rust").
Proof.
  intros Hlines Hheader Hmiddle Htrim Ha Hbr.
  pose proof (Split_lines_freeOf content LF) as Hfree. rewrite Hlines in Hfree.
  apply Forall_app in Hfree as [Hfbefore Hfree].
  apply Forall_cons in Hfree as [Hfheader Hfree].
  apply Forall_app in Hfree as [Hfmiddle Hfree].
  apply Forall_cons in Hfree as [_ Hfafter].
  rewrite !parseCargoToml_lines by (done || by constructor).
  unfold analyzer.parseCargoToml. rewrite Hlines.
  destruct (foldM_total analyzer.parseCargoToml_line (false, false, []) before
              parseCargoToml_line_total) as [[[i1 v1] d1] E1].
  destruct (parseCargoToml_loop_section middle (negb dev) dev [] Hmiddle) as [dm Em].
  destruct (foldM_total analyzer.parseCargoToml_line (negb dev, dev, []) after
              parseCargoToml_line_total) as [[[i2 v2] d2] E2].
  exists d1, dm, d2.
  rewrite foldM_app, E1. cbn [foldM mbind option_bind snd].
  rewrite !(parseCargoToml_line_header _ _ dev _ header Hheader).
  cbn [mbind option_bind]. rewrite Em, E2. cbn [mbind option_bind snd].
  split; [done|]. split; [done|]. split; [done|].
  rewrite foldM_app, (parseCargoToml_loop_acc middle), Em.
  cbn [foldM mbind option_bind fst snd].
  rewrite (parseCargoToml_line_entry dev _ line0 a b Htrim Ha Hbr).
  cbn [mbind option_bind].
  rewrite (parseCargoToml_loop_acc after), E2. cbn [mbind option_bind fst snd].
  by rewrite <- !app_assoc.
Qed.

(** The witness of X12: a dependency given as an inline table, the second
    line under the header [dev-dependencies], which is the fourth line of the
    manifest; another header follows. *)
Lemma parseCargoToml_splits_at_first_equals_witness :
  analyzer.parseCargoToml
    ("[package]" +:+ str1 LF
     +:+ dq "name = 'demo'" +:+ str1 LF
     +:+ str1 LF
     +:+ " [dev-dependencies]" +:+ str1 LF
     +:+ dq "rand = '0.8'" +:+ str1 LF
     +:+ dq "  serde = { version = '1.0' }  " +:+ str1 LF
     +:+ dq "tokio = '1'" +:+ str1 LF
     +:+ "[dependencies]" +:+ str1 LF
     +:+ dq "libc = '0.2'")
  = Some ([analyzer.mkDep "rand" "0.8" "dev";
           analyzer.mkDep "serde" (dq "{ version = '1.0' }") "dev";
           analyzer.mkDep "tokio" "1" "dev";
           analyzer.mkDep "libc" "0.2" "production"], "rust").
Proof.
  destruct (parseCargoToml_splits_at_first_equals true
              ("[package]" +:+ str1 LF
               +:+ dq "name = 'demo'" +:+ str1 LF
               +:+ str1 LF
               +:+ " [dev-dependencies]" +:+ str1 LF
               +:+ dq "rand = '0.8'" +:+ str1 LF
               +:+ dq "  serde = { version = '1.0' }  " +:+ str1 LF
               +:+ dq "tokio = '1'" +:+ str1 LF
               +:+ "[dependencies]" +:+ str1 LF
               +:+ dq "libc = '0.2'")
              ["[package]"; dq "name = 'demo'"; EmptyString]
              [dq "rand = '0.8'"]
              [dq "tokio = '1'"; "[dependencies]"; dq "libc = '0.2'"]
              " [dev-dependencies]"
              (dq "  serde = { version = '1.0' }  ") "serde " (dq " { version = '1.0' }"))
    as (d1 & dm & d2 & H1 & Hm & H2 & H3).
  - vm_compute. reflexivity.
  - vm_compute. reflexivity.
  - repeat constructor.
  - vm_compute. reflexivity.
  - vm_compute. repeat split; discriminate.
  - vm_compute. reflexivity.
  - vm_compute in H1, Hm, H2.
    injection H1 as <-. injection Hm as <-. injection H2 as <-. exact H3.
Defined.

(** X13. The requirements parser skips blank lines, comments and pip
    options: on a text each of whose lines, once trimmed, is empty or starts
    with # or with -, it returns the empty list. *)
Theorem parseRequirementsTxt_skips_comments_and_options (content : string) :
  (forall line, In line (strings.Split content LF) ->
                strings.TrimSpace line = EmptyString
                \/ strings.HasPrefix (strings.TrimSpace line) "#" = true
                \/ strings.HasPrefix (strings.TrimSpace line) "-" = true) ->
  analyzer.parseRequirementsTxt content = Some ([], "python").
Proof.
  intros Hskip. unfold analyzer.parseRequirementsTxt.
  rewrite (foldM_fixed analyzer.parseRequirementsTxt_line []); [done|].
  intros line Hline. unfold analyzer.parseRequirementsTxt_line.
  destruct (Hskip line Hline) as [->|[->| ->]]; [done|..]; by rewrite ?orb_true_r.
Qed.

(** The witness of X13: a comment, an include option and an index option. *)
Lemma parseRequirementsTxt_skips_comments_and_options_witness :
  analyzer.parseRequirementsTxt
    ("# pinned" +:+ str1 LF +:+ "  -r base.txt" +:+ str1 LF
     +:+ "--index-url https://example.org/simple" +:+ str1 LF)
  = Some ([], "python").
Proof.
  apply parseRequirementsTxt_skips_comments_and_options.
  intros line Hline. vm_compute in Hline.
  destruct Hline as [<-|[<-|[<-|[<-|[]]]]]; vm_compute; tauto.
Defined.

Lemma gemPattern_needs_gem (n : nat) (s : string) (c : regexp.captures) :
  regexp.matchAt n analyzer.gemPattern s = Some c -> String.prefix "gem" s = true.
Proof.
  unfold regexp.matchAt, analyzer.gemPattern. cbn [regexp.cat regexp.run].
  destruct s as [|c1 [|c2 [|c3 s]]]; try done.
  - by destruct (Ascii.eqb "g" c1).
  - destruct (Ascii.eqb "g" c1); [|done]. by destruct (Ascii.eqb "e" c2).
  - destruct (Ascii.eqb_spec "g" c1) as [<-|]; [|done].
    destruct (Ascii.eqb_spec "e" c2) as [<-|]; [|done].
    destruct (Ascii.eqb_spec "m" c3) as [<-|]; [|done]. intros _. by destruct s.
Qed.

Lemma gemPattern_search_Contains (n : nat) (s : string) (c : regexp.captures) :
  regexp.search n analyzer.gemPattern s = Some c -> strings.Contains s "gem" = true.
Proof.
  induction s as [|a s IH]; cbn [regexp.search strings.Contains].
  - destruct (regexp.matchAt n analyzer.gemPattern EmptyString) eqn:E; [|done].
    by apply gemPattern_needs_gem in E.
  - destruct (regexp.matchAt n analyzer.gemPattern (String a s)) eqn:E.
    + apply gemPattern_needs_gem in E. by rewrite E.
    + intros Hs. rewrite (IH Hs). apply orb_true_r.
Qed.

(** X14. The Gemfile parser reads gem declarations only: on a text none
    of whose lines holds the letters gem in a row, it returns the empty list. *)
Theorem parseGemfile_without_gem_is_empty (content : string) :
  (forall line, In line (strings.Split content LF) ->
                strings.Contains (strings.TrimSpace line) "gem" = false) ->
  analyzer.parseGemfile content = Some ([], "ruby").
Proof.
  intros Hno. unfold analyzer.parseGemfile.
  rewrite (foldM_fixed analyzer.parseGemfile_line []); [done|].
  intros line Hline. specialize (Hno line Hline). unfold analyzer.parseGemfile_line.
  destruct (strings.HasPrefix (strings.TrimSpace line) "#"
            || String.eqb (strings.TrimSpace line) EmptyString); [done|].
  unfold regexp.FindStringSubmatch.
  destruct (regexp.search _ analyzer.gemPattern (strings.TrimSpace line)) eqn:E; [|done].
  apply gemPattern_search_Contains in E. congruence.
Qed.

(** The witness of X14: a Gemfile with a source line and a ruby line. *)
Lemma parseGemfile_without_gem_is_empty_witness :
  analyzer.parseGemfile
    (dq "source 'https://example.org'" +:+ str1 LF +:+ dq "ruby '3.3.0'" +:+ str1 LF)
  = Some ([], "ruby").
Proof.
  apply parseGemfile_without_gem_is_empty.
  intros line Hline. vm_compute in Hline.
  destruct Hline as [<-|[<-|[<-|[]]]]; vm_compute; reflexivity.
Defined.

(** ** The entries of the go-module parser *)

Lemma rev_app_spaceFree (a b : string) :
  spaceFree a -> spaceFree b -> spaceFree (String.rev_app a b).
Proof.
  revert b. induction a as [|c a IH]; intros b Ha Hb; [done|].
  destruct Ha as [Hc Ha]. cbn [String.rev_app]. apply IH; [done|]. by split.
Qed.

Lemma rev_app_nonempty (a b : string) :
  b <> EmptyString -> String.rev_app a b <> EmptyString.
Proof.
  revert b. induction a as [|c a IH]; intros b Hb; [done|].
  cbn [String.rev_app]. by apply IH.
Qed.

Lemma flush_tokens (cur : string) : spaceFree cur -> Forall token (strings.flush cur).
Proof.
  intros Hcur. destruct cur as [|c cur]; [constructor|].
  cbn [strings.flush]. constructor; [|constructor]. split.
  - unfold String.rev. cbn [String.rev_app]. by apply rev_app_nonempty.
  - by apply rev_app_spaceFree.
Qed.

Lemma FieldsFrom_tokens (n : nat) (s cur : string) :
  (String.length s <= n)%nat -> spaceFree cur ->
  Forall token (strings.FieldsFrom cur s).
Proof.
  revert s cur. induction n as [|n IH]; intros s cur Hn Hcur.
  - destruct s; [|cbn in Hn; lia]. by apply flush_tokens.
  - destruct s as [|b1 s1]; [by apply flush_tokens|].
    cbn [String.length] in Hn. cbn [strings.FieldsFrom].
    assert (forall t, (String.length t <= n)%nat ->
              Forall token (strings.flush cur ++ strings.FieldsFrom EmptyString t))
      as Hsep.
    { intros t Ht. apply Forall_app. split; [by apply flush_tokens|by apply IH]. }
    destruct (strings.asciiSpace b1) eqn:Hb1; [apply Hsep; lia|].
    assert (Forall token (strings.FieldsFrom (String b1 cur) s1)) as Hgo.
    { apply IH; [lia|]. split; [by rewrite Hb1|done]. }
    destruct s1 as [|b2 s2]; [done|]. cbn [String.length] in Hn.
    destruct (strings.space2 b1 b2); [apply Hsep; lia|].
    destruct s2 as [|b3 s3]; [done|]. cbn [String.length] in Hn.
    destruct (strings.space3 b1 b2 b3); [apply Hsep; lia|done].
Qed.

Lemma Fields_tokens (s : string) : Forall token (strings.Fields s).
Proof. by apply (FieldsFrom_tokens (String.length s)). Qed.

Lemma parseGoMod_line_entries (st st' : bool * list analyzer.Dependency) (line0 : string) :
  analyzer.parseGoMod_line st line0 = Some st' ->
  Forall goEntry (snd st) -> Forall goEntry (snd st').
Proof.
  destruct st as [inRequire deps]. unfold analyzer.parseGoMod_line.
  set (line := strings.TrimSpace line0).
  pose proof (Fields_tokens line) as Htok. rewrite Forall_lookup in Htok.
  set (parts := strings.Fields line) in *.
  destruct (strings.HasPrefix line "require ("); [by intros [= <-]|].
  destruct (String.eqb line ")"); [by intros [= <-]|].
  destruct (strings.HasPrefix line "require " && negb (strings.Contains line "(")).
  { destruct (3 <=? length parts)%nat; [|by intros [= <-]].
    destruct (parts !! 1%nat) as [name|] eqn:H1; cbn [mbind option_bind]; [|done].
    destruct (parts !! 2%nat) as [version|] eqn:H2; cbn [mbind option_bind]; [|done].
    intros [= <-] Hdeps. cbn [snd]. apply Forall_app. split; [done|].
    constructor; [|constructor]. split; [by eapply Htok|].
    split; [by eapply Htok|by left]. }
  destruct (inRequire && negb (String.eqb line EmptyString)
            && negb (strings.HasPrefix line "//")); [|by intros [= <-]].
  destruct (2 <=? length parts)%nat; [|by intros [= <-]].
  destruct (parts !! 0%nat) as [name|] eqn:H1; cbn [mbind option_bind]; [|done].
  destruct (parts !! 1%nat) as [version|] eqn:H2; cbn [mbind option_bind]; [|done].
  intros [= <-] Hdeps. cbn [snd]. apply Forall_app. split; [done|].
  constructor; [|constructor]. split; [by eapply Htok|].
  split; [by eapply Htok|]. cbn [analyzer.mkDep analyzer.Type_].
  destruct (strings.Contains line "// indirect"); [by right|by left].
Qed.

Lemma parseGoMod_entries (content : string) :
  exists deps,
    analyzer.parseGoMod content = Some (deps, "go") /\ Forall goEntry deps.
Proof.
  destruct (parseGoMod_total content) as [deps Hdeps]. exists deps. split; [done|].
  unfold analyzer.parseGoMod in Hdeps.
  destruct (foldM analyzer.parseGoMod_line (false, []) (strings.Split content LF))
    as [st|] eqn:Hfold; cbn [mbind option_bind] in Hdeps; [|done].
  injection Hdeps as <-. revert Hfold.
  apply (foldM_inv (fun st => Forall goEntry (snd st))); [|constructor].
  intros a x a' Ha Hstep. by eapply parseGoMod_line_entries.
Qed.

(** X15. Every entry that the go-module parser returns has a name and a
    version that are not empty and hold no ASCII white space, and has the type
    production or indirect. *)
Theorem parseGoMod_entries_are_tokens (content : string) :
  exists deps,
    analyzer.parseGoMod content = Some (deps, "go")
    /\ Forall
         (fun d =>
            (analyzer.Name d <> EmptyString /\ spaceFree (analyzer.Name d))
            /\ (analyzer.Version d <> EmptyString /\ spaceFree (analyzer.Version d))
            /\ (analyzer.Type_ d = "production" \/ analyzer.Type_ d = "indirect"))
         deps.
Proof. apply parseGoMod_entries. Qed.

(** ** The types of the entries of a report *)

Lemma parseRequirementsTxt_line_typed (deps deps' : list analyzer.Dependency)
    (line0 : string) :
  analyzer.parseRequirementsTxt_line deps line0 = Some deps' ->
  Forall typed deps -> Forall typed deps'.
Proof.
  unfold analyzer.parseRequirementsTxt_line.
  set (line := strings.TrimSpace line0).
  set (m2 := regexp.FindStringSubmatch 2 analyzer.versionPattern line).
  set (m1 := regexp.FindStringSubmatch 1 analyzer.simplePattern line).
  destruct (String.eqb line EmptyString || strings.HasPrefix line "#"
            || strings.HasPrefix line "-"); [by intros [= <-]|].
  destruct (3 <=? length m2)%nat.
  - destruct (m2 !! 1%nat) as [name|]; cbn [mbind option_bind]; [|done].
    destruct (m2 !! 2%nat) as [version|]; cbn [mbind option_bind]; [|done].
    intros [= <-] Hdeps. apply Forall_app. split; [done|].
    constructor; [|constructor]. cbn. tauto.
  - destruct (2 <=? length m1)%nat; [|by intros [= <-]].
    destruct (m1 !! 1%nat) as [name|]; cbn [mbind option_bind]; [|done].
    intros [= <-] Hdeps. apply Forall_app. split; [done|].
    constructor; [|constructor]. cbn. tauto.
Qed.

Lemma parseCargoToml_line_typed (st st' : bool * bool * list analyzer.Dependency)
    (line0 : string) :
  analyzer.parseCargoToml_line st line0 = Some st' ->
  Forall typed (snd st) -> Forall typed (snd st').
Proof.
  destruct st as [[inDeps inDevDeps] deps]. unfold analyzer.parseCargoToml_line.
  set (line := strings.TrimSpace line0). set (parts := strings.SplitN2 line "=").
  destruct (String.eqb line "[dependencies]"); [by intros [= <-]|].
  destruct (String.eqb line "[dev-dependencies]"); [by intros [= <-]|].
  destruct (strings.HasPrefix line "["); [by intros [= <-]|].
  destruct ((inDeps || inDevDeps) && strings.Contains line "="); [|by intros [= <-]].
  destruct (length parts =? 2)%nat; [|by intros [= <-]].
  destruct (parts !! 0%nat) as [part0|]; cbn [mbind option_bind]; [|done].
  destruct (parts !! 1%nat) as [part1|]; cbn [mbind option_bind]; [|done].
  intros [= <-] Hdeps. cbn [snd]. apply Forall_app. split; [done|].
  constructor; [|constructor]. unfold typed. cbn [analyzer.mkDep analyzer.Type_].
  destruct inDevDeps; cbn; tauto.
Qed.

Lemma parseRequirementsTxt_typed (content : string) (r : list analyzer.Dependency * string) :
  analyzer.parseRequirementsTxt content = Some r -> Forall typed (fst r).
Proof.
  unfold analyzer.parseRequirementsTxt.
  destruct (foldM analyzer.parseRequirementsTxt_line [] (strings.Split content LF))
    as [deps|] eqn:Hfold; cbn [mbind option_bind]; [|done].
  intros [= <-]. cbn [fst]. revert Hfold.
  apply (foldM_inv (Forall typed)); [|constructor].
  intros a x a' Ha Hstep. by eapply parseRequirementsTxt_line_typed.
Qed.

Lemma parseCargoToml_typed (content : string) (r : list analyzer.Dependency * string) :
  analyzer.parseCargoToml content = Some r -> Forall typed (fst r).
Proof.
  unfold analyzer.parseCargoToml.
  destruct (foldM analyzer.parseCargoToml_line (false, false, [])
              (strings.Split content LF)) as [st|] eqn:Hfold;
    cbn [mbind option_bind]; [|done].
  intros [= <-]. cbn [fst]. revert Hfold.
  apply (foldM_inv (fun st => Forall typed (snd st))); [|constructor].
  intros a x a' Ha Hstep. by eapply parseCargoToml_line_typed.
Qed.

Lemma parseGoMod_typed (content : string) (r : list analyzer.Dependency * string) :
  analyzer.parseGoMod content = Some r -> Forall typed (fst r).
Proof.
  destruct (parseGoMod_entries content) as (deps & -> & Hdeps). intros [= <-]. cbn [fst].
  eapply Forall_impl; [exact Hdeps|].
  intros d (_ & _ & [Ht|Ht]); unfold typed; rewrite Ht; cbn; tauto.
Qed.

Lemma parseGemfile_typed (content : string) (r : list analyzer.Dependency * string) :
  analyzer.parseGemfile content = Some r -> Forall typed (fst r).
Proof.
  destruct (parseGemfile_production content) as (deps & -> & Hdeps). intros [= <-].
  cbn [fst]. eapply Forall_impl; [exact Hdeps|].
  intros d Ht. unfold typed. rewrite Ht. cbn. tauto.
Qed.

Lemma parsePackageJSON_typed (L : analyzer.GoLib) (content : string)
    (r : list analyzer.Dependency * string) :
  GoLib_ok L -> analyzer.parsePackageJSON L content = Some r -> Forall typed (fst r).
Proof.
  intros HL. destruct (analyzer.json_Unmarshal L content) as [p|] eqn:Hjson.
  - destruct (parsePackageJSON_sorted_permutation L content p HL Hjson)
      as (deps & -> & Hperm & _).
    intros [= <-]. cbn [fst]. rewrite Hperm. unfold declared.
    rewrite !Forall_app. unfold sectionEntries.
    repeat split; apply Forall_forall; intros d Hd;
      apply list_elem_of_In, in_map_iff in Hd; destruct Hd as (nv & <- & _);
      unfold typed; cbn; tauto.
  - unfold analyzer.parsePackageJSON. rewrite Hjson. intros [= <-]. constructor.
Qed.

Lemma parseByType_typed (L : analyzer.GoLib) (t decoded : string)
    (r : list analyzer.Dependency * string) :
  GoLib_ok L -> analyzer.parseByType L t decoded = Some r -> Forall typed (fst r).
Proof.
  intros HL. unfold analyzer.parseByType.
  destruct (String.eqb t "npm"); [by apply parsePackageJSON_typed|].
  destruct (String.eqb t "go"); [apply parseGoMod_typed|].
  destruct (String.eqb t "python"); [apply parseRequirementsTxt_typed|].
  destruct (String.eqb t "rust"); [apply parseCargoToml_typed|].
  destruct (String.eqb t "ruby"); [apply parseGemfile_typed|].
  intros [= <-]. constructor.
Qed.

(** X16. With a library that keeps the contract of range and of
    sort.Slice, every dependency of every record of a report has one of the
    four types production, dev, peer and indirect. *)
Theorem AnalyzeDependencies_entries_are_typed (L : analyzer.GoLib)
    (client : github.Client) (owner repo branch : string)
    (tree : list github.TreeEntry) :
  GoLib_ok L ->
  exists a,
    analyzer.AnalyzeDependencies L client owner repo branch tree = Some a
    /\ Forall
         (fun f =>
            Forall (fun d => In (analyzer.Type_ d)
                                ["production"; "dev"; "peer"; "indirect"])
                   (analyzer.Dependencies f))
         (analyzer.Files a).
Proof.
  intros HL. rewrite AnalyzeDependencies_report. eexists. split; [done|].
  cbn [reportOf analyzer.Files]. unfold retainedFiles. apply retained_Forall.
  intros df f Hret.
  apply retained_inv in Hret as (_ & _ & _ & content & decoded & _ & _ & Hparse).
  by apply (parseByType_typed L _ _ _ HL) in Hparse.
Qed.

(** The witness of X16: the report of two package.json files. *)
Lemma AnalyzeDependencies_entries_are_typed_witness :
  exists a,
    analyzer.AnalyzeDependencies (smallManifestLib mergeSort)
      smallManifestClient "owner" "repo" "main" smallManifestTree = Some a
    /\ length (analyzer.Files a) = 2%nat
    /\ Forall
         (fun f =>
            Forall (fun d => In (analyzer.Type_ d)
                                ["production"; "dev"; "peer"; "indirect"])
                   (analyzer.Dependencies f))
         (analyzer.Files a).
Proof.
  destruct (AnalyzeDependencies_entries_are_typed (smallManifestLib mergeSort)
              smallManifestClient "owner" "repo" "main" smallManifestTree
              (mergeSort_ok _ _)) as (a & Ha & Htyped).
  exists a. split; [exact Ha|]. split; [|exact Htyped].
  vm_compute in Ha. injection Ha as <-. reflexivity.
Defined.

(** ** How the exporters fail *)

(** X17. ExportJSON builds its document before it creates the file, and
    ExportMarkdown creates the file before it reads the repository.  So with
    a nil Repo, ExportJSON panics whether or not the file could be created,
    and otherwise returns the error of os.Create when there is one; while
    ExportMarkdown returns the error of os.Create whenever there is one, nil
    Repo or not, and panics on a nil Repo only once the file exists. *)
Theorem exporters_fail_in_their_own_order (H : ui.Host) (data : ui.AnalysisResult)
    (filename : string) :
  (ui.ExportJSON H data filename = None <-> ui.Repo data = None)
  /\ (ui.ExportJSON H data filename = Some ui.CreateError <->
      ui.Repo data <> None /\ ui.os_Create H filename = false)
  /\ (ui.ExportMarkdown H data filename = Some ui.CreateError <->
      ui.os_Create H filename = false)
  /\ (ui.ExportMarkdown H data filename = None <->
      ui.os_Create H filename = true /\ ui.Repo data = None).
Proof.
  rewrite ExportJSON_closed_form, ExportMarkdown_closed_form.
  destruct (ui.Repo data) as [repo|]; destruct (ui.os_Create H filename);
    cbn [mbind option_bind negb]; repeat split; try done; try (by intros [? ?]).
Qed.

(** ** What a match can capture *)

Lemma star_sound {R : Type} (p : ascii -> bool) (s : string) (k : string -> option R)
    (res : R) :
  regexp.star p s k = Some res ->
  exists w s', s = w +:+ s' /\ allBytes p w /\ k s' = Some res.
Proof.
  induction s as [|c s IH]; cbn [regexp.star].
  - intros Hk. by exists EmptyString, EmptyString.
  - destruct (p c) eqn:Hc.
    + destruct (regexp.star p s k) as [x|] eqn:Hs.
      * intros [= ->]. destruct (IH eq_refl) as (w & s' & -> & Hw & Hk).
        by exists (String c w), s'.
      * intros Hk. by exists EmptyString, (String c s).
    + intros Hk. by exists EmptyString, (String c s).
Qed.

Lemma run_sound {R : Type} (n : nat) (r : regexp.Regexp) :
  forall (s : string) (c : regexp.captures)
         (k : string -> regexp.captures -> option R) (res : R),
    regexp.run n r s c k = Some res ->
    exists w s' new,
      s = w +:+ s' /\ lang r w /\ k s' (new ++ c) = Some res
      /\ Forall (fun it => capLang r (fst it) (snd it)) new
      /\ (forall i, In i (mandatory r) -> exists t, In (i, t) new).
Proof.
  induction r as [a|p|p|p|r1 IH1 r2 IH2|i r0 IH|r0 IH| |];
    intros s c k res; cbn [regexp.run lang capLang mandatory].
  - destruct s as [|b s]; [done|]. destruct (Ascii.eqb_spec a b) as [<-|]; [|done].
    intros Hk. exists (str1 a), s, []. by repeat split.
  - destruct s as [|b s]; [done|]. destruct (p b) eqn:Hb; [|done].
    intros Hk. exists (str1 b), s, []. repeat split; [by exists b|done..].
  - intros Hs. apply star_sound in Hs as (w & s' & -> & Hw & Hk).
    exists w, s', []. by repeat split.
  - destruct s as [|b s]; [done|]. destruct (p b) eqn:Hb; [|done].
    intros Hs. apply star_sound in Hs as (w & s' & -> & Hw & Hk).
    exists (String b w), s', []. by repeat split.
  - intros Hrun. apply IH1 in Hrun as (w1 & s1 & new1 & -> & Hw1 & Hrun & Hc1 & Hm1).
    apply IH2 in Hrun as (w2 & s2 & new2 & -> & Hw2 & Hk & Hc2 & Hm2).
    exists (w1 +:+ w2), s2, (new2 ++ new1). rewrite append_assoc, <- app_assoc.
    split; [done|]. split; [by exists w1, w2|]. split; [done|]. split.
    + apply Forall_app. split; (eapply Forall_impl; [eassumption|]); cbn beta; tauto.
    + intros j Hj. apply in_app_iff in Hj as [Hj|Hj].
      * destruct (Hm1 j Hj) as [t Ht]. exists t. apply in_app_iff. tauto.
      * destruct (Hm2 j Hj) as [t Ht]. exists t. apply in_app_iff. tauto.
  - intros Hrun. apply IH in Hrun as (w & s' & new & -> & Hw & Hk & Hc & Hm).
    rewrite consumed_append in Hk.
    exists w, s', ((i, w) :: new). split; [done|]. split; [done|]. split; [done|]. split.
    + constructor; [by left|]. eapply Forall_impl; [eassumption|]. cbn beta. tauto.
    + intros j [<-|Hj]; [exists w; by left|].
      destruct (Hm j Hj) as [t Ht]. exists t. by right.
  - destruct (regexp.run n r0 s c k) as [x|] eqn:Hrun.
    + intros [= ->]. apply IH in Hrun as (w & s' & new & -> & Hw & Hk & Hc & _).
      exists w, s', new. split; [done|]. split; [by right|]. by repeat split.
    + intros Hk. exists EmptyString, s, []. split; [done|]. split; [by left|].
      by repeat split.
  - destruct (Nat.eqb (String.length s) n); [|done].
    intros Hk. exists EmptyString, s, []. by repeat split.
  - destruct s; [|done]. intros Hk. exists EmptyString, EmptyString, []. by repeat split.
Qed.

Lemma group_found (c : regexp.captures) (i : nat) :
  (exists t, In (i, t) c) -> In (i, regexp.group c i) c.
Proof.
  induction c as [|[j s] c IH]; cbn [regexp.group]; [by intros [? []]|].
  destruct (Nat.eqb_spec i j) as [<-|Hne]; [by left|].
  intros (t & [[= <- <-]|Ht]); [done|]. right. apply IH. by exists t.
Qed.

Lemma group_default (c : regexp.captures) (i : nat) :
  regexp.group c i = EmptyString \/ In (i, regexp.group c i) c.
Proof.
  induction c as [|[j s] c IH]; cbn [regexp.group]; [by left|].
  destruct (Nat.eqb_spec i j) as [<-|Hne]; [right; by left|].
  destruct IH as [IH|IH]; [by left|right; by right].
Qed.

(** A successful search found a match of the pattern; its groups hold
    texts that the groups of the pattern can capture. *)
Lemma search_sound (n : nat) (r : regexp.Regexp) (s : string) (c : regexp.captures) :
  regexp.search n r s = Some c ->
  Forall (fun it => capLang (regexp.Cap 0 r) (fst it) (snd it)) c
  /\ (forall i, In i (mandatory r) -> exists t, In (i, t) c).
Proof.
  induction s as [|a s IH]; cbn [regexp.search].
  - destruct (regexp.matchAt n r EmptyString) as [c'|] eqn:Hm; [|done].
    intros [= ->]. apply run_sound in Hm as (w & s' & new & _ & _ & [= <-] & Hc & Hmand).
    rewrite app_nil_r. split; [done|]. intros i Hi. apply Hmand. by right.
  - destruct (regexp.matchAt n r (String a s)) as [c'|] eqn:Hm; [|apply IH].
    intros [= ->]. apply run_sound in Hm as (w & s' & new & _ & _ & [= <-] & Hc & Hmand).
    rewrite app_nil_r. split; [done|]. intros i Hi. apply Hmand. by right.
Qed.

(** ** The entries of the Gemfile parser and of the requirements parser *)

(** Splits the cases of what a group can capture. *)
Ltac capture_cases H :=
  repeat match type of H with
         | _ \/ _ => destruct H as [H|H]
         | _ /\ _ => let E := fresh "E" in destruct H as [E H]; try discriminate E
         | False => destruct H
         end.

Lemma gemPattern_captures (n : nat) (s : string) (c : regexp.captures) :
  regexp.search n analyzer.gemPattern s = Some c ->
  lang (regexp.Plus analyzer.notQuote) (regexp.group c 1)
  /\ (regexp.group c 2 = EmptyString
      \/ lang (regexp.Plus analyzer.notQuote) (regexp.group c 2)).
Proof.
  intros Hs. apply search_sound in Hs as [Hcap Hmand]. rewrite Forall_forall in Hcap.
  split.
  - assert (In (1%nat, regexp.group c 1) c) as Hin.
    { apply group_found, Hmand. vm_compute. tauto. }
    apply list_elem_of_In, Hcap in Hin. cbn [fst snd] in Hin.
    unfold analyzer.gemPattern, analyzer.gemVersionGroup in Hin.
    cbn [regexp.cat capLang] in Hin. capture_cases Hin; done.
  - destruct (group_default c 2) as [?|Hin]; [by left|]. right.
    apply list_elem_of_In, Hcap in Hin. cbn [fst snd] in Hin.
    unfold analyzer.gemPattern, analyzer.gemVersionGroup in Hin.
    cbn [regexp.cat capLang] in Hin. capture_cases Hin; done.
Qed.

Lemma parseGemfile_line_entries (deps deps' : list analyzer.Dependency) (line0 : string) :
  analyzer.parseGemfile_line deps line0 = Some deps' ->
  Forall gemEntry deps -> Forall gemEntry deps'.
Proof.
  unfold analyzer.parseGemfile_line. set (line := strings.TrimSpace line0).
  destruct (strings.HasPrefix line "#" || String.eqb line EmptyString);
    [by intros [= <-]|].
  unfold regexp.FindStringSubmatch.
  destruct (regexp.search (String.length line) analyzer.gemPattern line) as [c|] eqn:Hs;
    [|by intros [= <-]].
  apply gemPattern_captures in Hs as [[Hn0 Hn] Hv].
  cbn [seq map length Nat.leb lookup list_lookup mbind option_bind].
  intros [= <-] Hdeps. apply Forall_app. split; [done|].
  constructor; [|constructor]. split; [done|]. split; [|done].
  cbn [analyzer.mkDep analyzer.Version].
  destruct Hv as [->|[Hv0 Hv]]; [by cbn|].
  apply String.eqb_neq in Hv0 as Hv0'. rewrite Hv0'. by cbn.
Qed.

(** X18. Every entry that the Gemfile parser returns has a name that is
    not empty and holds no quote character, a version that is not empty and
    holds no quote character, and the type production. *)
Theorem parseGemfile_entries_are_unquoted (content : string) :
  exists deps,
    analyzer.parseGemfile content = Some (deps, "ruby")
    /\ Forall
         (fun d =>
            (analyzer.Name d <> EmptyString
             /\ allBytes analyzer.notQuote (analyzer.Name d))
            /\ (analyzer.Version d <> EmptyString
                /\ allBytes analyzer.notQuote (analyzer.Version d))
            /\ analyzer.Type_ d = "production")
         deps.
Proof.
  destruct (parseGemfile_total content) as [deps Hdeps]. exists deps. split; [done|].
  unfold analyzer.parseGemfile in Hdeps.
  destruct (foldM analyzer.parseGemfile_line [] (strings.Split content LF))
    as [deps'|] eqn:Hfold; cbn [mbind option_bind] in Hdeps; [|done].
  injection Hdeps as <-. revert Hfold.
  apply (foldM_inv (Forall gemEntry)); [|constructor].
  intros a x a' Ha Hstep. by eapply parseGemfile_line_entries.
Qed.

Lemma versionPattern_captures (n : nat) (s : string) (c : regexp.captures) :
  regexp.search n analyzer.versionPattern s = Some c ->
  lang (regexp.Plus analyzer.nameChar) (regexp.group c 1)
  /\ exists a w, constraintOperator a = true /\ regexp.group c 2 = String a w.
Proof.
  intros Hs. apply search_sound in Hs as [Hcap Hmand]. rewrite Forall_forall in Hcap.
  split.
  - assert (In (1%nat, regexp.group c 1) c) as Hin.
    { apply group_found, Hmand. vm_compute. tauto. }
    apply list_elem_of_In, Hcap in Hin. cbn [fst snd] in Hin.
    unfold analyzer.versionPattern in Hin.
    cbn [regexp.cat capLang] in Hin. capture_cases Hin; done.
  - assert (In (2%nat, regexp.group c 2) c) as Hin.
    { apply group_found, Hmand. vm_compute. tauto. }
    apply list_elem_of_In, Hcap in Hin. cbn [fst snd] in Hin.
    unfold analyzer.versionPattern in Hin.
    cbn [regexp.cat capLang] in Hin. capture_cases Hin.
    cbn [lang] in Hin. destruct Hin as (w1 & w2 & -> & [Hw0 Hw1] & _).
    destruct w1 as [|a w1]; [done|]. destruct Hw1 as [Ha _].
    exists a, (w1 +:+ w2). by split.
Qed.

Lemma simplePattern_captures (n : nat) (s : string) (c : regexp.captures) :
  regexp.search n analyzer.simplePattern s = Some c ->
  lang (regexp.Plus analyzer.nameChar) (regexp.group c 1).
Proof.
  intros Hs. apply search_sound in Hs as [Hcap Hmand]. rewrite Forall_forall in Hcap.
  assert (In (1%nat, regexp.group c 1) c) as Hin.
  { apply group_found, Hmand. vm_compute. tauto. }
  apply list_elem_of_In, Hcap in Hin. cbn [fst snd] in Hin.
  unfold analyzer.simplePattern in Hin.
  cbn [regexp.cat capLang] in Hin. capture_cases Hin; done.
Qed.

Lemma parseRequirementsTxt_line_entries (deps deps' : list analyzer.Dependency)
    (line0 : string) :
  analyzer.parseRequirementsTxt_line deps line0 = Some deps' ->
  Forall requirementEntry deps -> Forall requirementEntry deps'.
Proof.
  unfold analyzer.parseRequirementsTxt_line. set (line := strings.TrimSpace line0).
  destruct (String.eqb line EmptyString || strings.HasPrefix line "#"
            || strings.HasPrefix line "-"); [by intros [= <-]|].
  unfold regexp.FindStringSubmatch.
  destruct (regexp.search (String.length line) analyzer.versionPattern line)
    as [c|] eqn:Hs.
  - apply versionPattern_captures in Hs as [Hn (a & w & Ha & Hv)].
    cbn [seq map length Nat.leb lookup list_lookup mbind option_bind].
    intros [= <-] Hdeps. apply Forall_app. split; [done|].
    constructor; [|constructor]. split; [done|]. split; [|done].
    right. exists a, w. cbn [analyzer.mkDep analyzer.Version]. by rewrite Hv.
  - cbn [length Nat.leb].
    destruct (regexp.search (String.length line) analyzer.simplePattern line)
      as [c|] eqn:Hs1; [|by intros [= <-]].
    apply simplePattern_captures in Hs1.
    cbn [seq map length Nat.leb lookup list_lookup mbind option_bind].
    intros [= <-] Hdeps. apply Forall_app. split; [done|].
    constructor; [|constructor]. split; [done|]. split; [by left|done].
Qed.

(** X19. Every entry that the requirements parser returns has a name
    that is not empty and is made of ASCII letters, digits, underscores and
    hyphens only; its version is the star, or the trimmed form of a text
    that starts with one of the operators = < > ! ~; its type is
    production. *)
Theorem parseRequirementsTxt_entries_are_named (content : string) :
  exists deps,
    analyzer.parseRequirementsTxt content = Some (deps, "python")
    /\ Forall
         (fun d =>
            (analyzer.Name d <> EmptyString
             /\ allBytes analyzer.nameChar (analyzer.Name d))
            /\ (analyzer.Version d = "*"
                \/ exists c w,
                     regexp.oneOf "=<>!~" c = true
                     /\ analyzer.Version d = strings.TrimSpace (String c w))
            /\ analyzer.Type_ d = "production")
         deps.
Proof.
  destruct (parseRequirementsTxt_total content) as [deps Hdeps].
  exists deps. split; [done|].
  unfold analyzer.parseRequirementsTxt in Hdeps.
  destruct (foldM analyzer.parseRequirementsTxt_line [] (strings.Split content LF))
    as [deps'|] eqn:Hfold; cbn [mbind option_bind] in Hdeps; [|done].
  injection Hdeps as <-. revert Hfold.
  apply (foldM_inv (Forall requirementEntry)); [|constructor].
  intros a x a' Ha Hstep. by eapply parseRequirementsTxt_line_entries.
Qed.
